(** * BGP Link-State NLRI decoding and rendering (bgpd/bgp_bgpls_nlri.c)
      and the IS-IS identifier formatter (lib/isis.c)

    A shallow embedding of the C functions, and the properties of the
    natural-language specification that concern them. *)

From Stdlib Require Import ZArith List Lia Bool Arith.
From Stdlib.Strings Require Import Ascii String Byte.
Import ListNotations.

Set Implicit Arguments.

(* ================================================================== *)
(** * lib/isis.c : [lib_isis_format_id]                                *)
(* ================================================================== *)

Module Isis.

(** [sizeof("0000.0000.0000.00-00")], the terminating NUL included. *)
Definition FORMAT_ID_SIZE : nat := 21.
Definition FORMAT_BUF_COUNT : nat := 4.

Definition NUL : ascii := Ascii.zero.

(** The two function-local statics: [buf_ring] and [cur_buf]. *)
Record format_state : Type := mkFormatState {
  buf_ring : list (list ascii);
  cur_buf  : nat
}.

(** Static storage is zero-initialised. *)
Definition initial_state : format_state :=
  mkFormatState (repeat (repeat NUL FORMAT_ID_SIZE) FORMAT_BUF_COUNT) 0.

(** ** Character buffers *)

(** Overwrite the front of [buf] with [w]; what does not fit is dropped. *)
Fixpoint overwrite (buf w : list ascii) : list ascii :=
  match w, buf with
  | x :: w', _ :: b' => x :: overwrite b' w'
  | _, _ => buf
  end.

Fixpoint write_at (buf : list ascii) (off : nat) (w : list ascii) {struct off}
  : list ascii :=
  match off with
  | O => overwrite buf w
  | S o => match buf with
           | c :: b => c :: write_at b o w
           | [] => []
           end
  end.

(** [snprintf(buf + off, size, "...")] once the format has been expanded to
    [s]: at most [size - 1] characters, then a NUL. *)
Definition snprintf (buf : list ascii) (off size : nat) (s : list ascii)
  : list ascii :=
  match size with
  | O => buf
  | S k => write_at buf off (firstn k s ++ [NUL])
  end.

(** The C string held by a buffer: the characters before the first NUL. *)
Fixpoint c_string (buf : list ascii) : list ascii :=
  match buf with
  | [] => []
  | c :: b => if Ascii.eqb c NUL then [] else c :: c_string b
  end.

(** ** [%02x] *)

Definition hex_digit (d : nat) : ascii :=
  if d <? 10 then ascii_of_nat (48 + d) else ascii_of_nat (87 + d).

(** [%02x] applied to a [uint8_t]: two lower-case hexadecimal digits. *)
Definition fmt_02x (b : byte) : list ascii :=
  let n := Byte.to_nat b in [hex_digit (n / 16); hex_digit (n mod 16)].

(** [id[i]]; an index outside the array reads as [x00]. *)
Definition id_at (id : list byte) (i : nat) : byte := nth i id x00.

Definition update_buf (ring : list (list ascii)) (i : nat) (b : list ascii)
  : list (list ascii) :=
  firstn i ring ++ match skipn i ring with
                   | [] => []
                   | _ :: r => b :: r
                   end.

Definition ring_at (ring : list (list ascii)) (i : nat) : list ascii :=
  nth i ring [].

(** ** The function *)

(** [cur_buf++; if (cur_buf >= FORMAT_BUF_COUNT) cur_buf = 0;] *)
Definition next_buf (cur : nat) : nat :=
  if FORMAT_BUF_COUNT <=? S cur then 0 else S cur.

(** The text that ends up in [rv], as a function of the old contents of
    [rv]: the sequence of [snprintf] calls of the C function. *)
Definition format_into (rv : list ascii) (id : option (list byte)) (len : nat)
  : list ascii :=
  match id with
  | None => snprintf rv 0 FORMAT_ID_SIZE (list_ascii_of_string "unknown")
  | Some id =>
      if len <? 6 then
        snprintf rv 0 FORMAT_ID_SIZE (list_ascii_of_string "Short ID")
      else
        let rv1 :=
          snprintf rv 0 FORMAT_ID_SIZE
            (fmt_02x (id_at id 0) ++ fmt_02x (id_at id 1) ++ ["."%char] ++
             fmt_02x (id_at id 2) ++ fmt_02x (id_at id 3) ++ ["."%char] ++
             fmt_02x (id_at id 4) ++ fmt_02x (id_at id 5)) in
        let rv2 :=
          if 6 <? len
          then snprintf rv1 14 (FORMAT_ID_SIZE - 14)
                 ("."%char :: fmt_02x (id_at id 6))
          else rv1 in
        if 7 <? len
        then snprintf rv2 17 (FORMAT_ID_SIZE - 17)
               ("-"%char :: fmt_02x (id_at id 7))
        else rv2
  end.

(** The returned pointer is modelled by the index of the buffer it points
    to; the new static state comes with it. *)
Definition lib_isis_format_id (st : format_state) (id : option (list byte))
  (len : nat) : nat * format_state :=
  let cur := next_buf (cur_buf st) in
  let rv := format_into (ring_at (buf_ring st) cur) id len in
  (cur, mkFormatState (update_buf (buf_ring st) cur rv) cur).

(** The string a caller reads through a returned pointer. *)
Definition string_at (st : format_state) (p : nat) : string :=
  string_of_list_ascii (c_string (ring_at (buf_ring st) p)).

(** A sequence of calls, threading the statics. *)
Fixpoint calls (st : format_state) (args : list (option (list byte) * nat))
  : format_state :=
  match args with
  | [] => st
  | (id, len) :: rest => calls (snd (lib_isis_format_id st id len)) rest
  end.

(** Shape of the statics: four buffers of [FORMAT_ID_SIZE] characters. *)
Definition wf_state (st : format_state) : Prop :=
  List.length (buf_ring st) = FORMAT_BUF_COUNT /\
  Forall (fun b => List.length b = FORMAT_ID_SIZE) (buf_ring st) /\
  cur_buf st < FORMAT_BUF_COUNT.

(** ** What the specification says the text is

    Written from the words of the claim, to be compared with the text the C
    code leaves in the buffer. *)
Definition spec_text (id : option (list byte)) (len : nat) : string :=
  match id with
  | None => "unknown"
  | Some id =>
      if len <? 6 then "Short ID"
      else
        string_of_list_ascii
          (fmt_02x (id_at id 0) ++ fmt_02x (id_at id 1) ++ ["."%char] ++
           fmt_02x (id_at id 2) ++ fmt_02x (id_at id 3) ++ ["."%char] ++
           fmt_02x (id_at id 4) ++ fmt_02x (id_at id 5) ++
           (if 6 <? len then "."%char :: fmt_02x (id_at id 6) else []) ++
           (if 7 <? len then "-"%char :: fmt_02x (id_at id 7) else []))
  end.

(** No NUL among the characters. *)
Definition no_nul (l : list ascii) : Prop :=
  Forall (fun c => Ascii.eqb c NUL = false) l.

(** ** [lib_isonet_print] *)

(** [char isonet[51]], the global the function prints into. *)
Definition ISONET_SIZE : nat := 51.

(** [strlcat(dst, src, size)]: [src] is appended behind the string that
    [dst] holds, as far as [size - 1] characters in all allow, and a NUL
    ends the result; a [dst] without NUL in its first [size] characters is
    left alone. *)
Definition strlcat (dst src : list ascii) (size : nat) : list ascii :=
  let dlen := List.length (c_string (firstn size dst)) in
  if dlen <? size
  then write_at dst dlen (firstn (size - dlen - 1) src ++ [NUL])
  else dst.

(** [snprintf(tbuf, sizeof(tbuf), ...)] into the local [char tbuf[4]], read
    back as a string. *)
Definition tbuf_text (s : list ascii) : list ascii :=
  c_string (snprintf (repeat NUL 4) 0 4 s).

(** The [while (i < len)] loop, with [count] passes left. *)
Fixpoint isonet_loop (count : nat) (i : nat) (len : Z) (from : list byte)
  (isonet : list ascii) : list ascii :=
  match count with
  | O => isonet
  | S count' =>
      let tbuf :=
        if Nat.odd i then tbuf_text (fmt_02x (id_at from i))
        else if (Z.of_nat i =? len - 1)%Z
             then tbuf_text (fmt_02x (id_at from i))
             else tbuf_text (fmt_02x (id_at from i) ++ ["."%char]) in
      isonet_loop count' (S i) len from (strlcat isonet tbuf ISONET_SIZE)
  end.

(** What the function returns: the string literal, or the global. *)
Inductive isonet_ptr : Type := unknown_literal | isonet_buffer.

(** [lib_isonet_print(from, len)] on the global [isonet]: the pointer
    returned and the new contents of the global. *)
Definition lib_isonet_print (isonet : list ascii) (from : option (list byte))
  (len : Z) : isonet_ptr * list ascii :=
  let isonet0 := overwrite isonet [NUL] in
  match from with
  | None => (unknown_literal, isonet0)
  | Some from =>
      (isonet_buffer, isonet_loop (Z.to_nat len) 0 len from isonet0)
  end.

(** The string read through a returned pointer, given the contents of the
    global at the time of reading. *)
Definition isonet_string (p : isonet_ptr) (isonet : list ascii) : string :=
  match p with
  | unknown_literal => "unknown"
  | isonet_buffer => string_of_list_ascii (c_string isonet)
  end.

(** The text for [n] bytes without regard to the size of the buffer: two
    hexadecimal digits a byte, and a dot behind every byte of even index
    that is not the last. *)
Definition isonet_groups (from : list byte) (n : nat) : list ascii :=
  List.concat (map (fun i => fmt_02x (id_at from i) ++
                        (if Nat.even i && negb (S i =? n) then ["."%char]
                         else []))
              (seq 0 n)).

(** The value of a hexadecimal digit, and of a pair of them. *)
Definition hex_value (c : ascii) : nat :=
  let n := nat_of_ascii c in
  if n <? 58 then n - 48 else n - 87.

Definition unhex (s : list ascii) : option byte :=
  match s with
  | [h; l] => Byte.of_nat (16 * hex_value h + hex_value l)
  | _ => None
  end.

End Isis.

(* ================================================================== *)
(** * Byte streams                                                     *)
(* ================================================================== *)

Module Stream.

(** Modelled from the spec: lib/stream.c is not among the sources. This is
    the Byte Cursor of the specification: a reader over an immutable byte
    buffer with a read position; every read advances the position by the
    width consumed and fails (the result is [None]) when that width exceeds
    what is left of the buffer. The end pointer is the end of [data]. *)
Record stream : Type := mkStream {
  data : list byte;
  getp : nat
}.

Definition endp (s : stream) : nat := List.length (data s).
Definition STREAM_READABLE (s : stream) : nat := endp s - getp s.
Definition stream_get_getp (s : stream) : nat := getp s.

(** Big-endian value of a byte string. *)
Definition be_value (bs : list byte) : Z :=
  fold_left (fun acc b => acc * 256 + Z.of_N (Byte.to_N b))%Z bs 0%Z.

(** [stream_get(dst, s, n)]: the next [n] bytes. *)
Definition stream_get (n : nat) (s : stream) : option (list byte * stream) :=
  if getp s + n <=? endp s
  then Some (firstn n (skipn (getp s) (data s)), mkStream (data s) (getp s + n))
  else None.

Definition stream_get_be (n : nat) (s : stream) : option (Z * stream) :=
  match stream_get n s with
  | Some (bs, s') => Some (be_value bs, s')
  | None => None
  end.

Definition stream_getc := stream_get_be 1.
Definition stream_getw := stream_get_be 2.
Definition stream_getl := stream_get_be 4.
Definition stream_getq := stream_get_be 8.
(** [stream_get_ipv4]: the four octets, kept in network order. *)
Definition stream_get_ipv4 := stream_get 4.

(** The byte of value [z mod 256]; used to write buffers down. *)
Definition byte_of_Z (z : Z) : byte :=
  match Byte.of_N (Z.to_N (z mod 256)) with
  | Some b => b
  | None => x00
  end.

Definition bytes (l : list Z) : list byte := map byte_of_Z l.

End Stream.

(* ================================================================== *)
(** * bgpd/bgp_bgpls_nlri.c : the NLRI decoders                        *)
(* ================================================================== *)

Module Nlri.
Import Stream.
Local Open Scope Z_scope.

(** ** Constants of bgpd/bgp_ls.h

    Modelled from the spec: bgpd/bgp_ls.h is not among the sources. The code
    points are those of the tables in the comments of bgp_bgpls_nlri.c and of
    the wire format the specification fixes (RFC 7752, sections 3.2 and
    3.3); the lengths are those of the same tables and of section 4.3 of the
    specification. *)
Definition BGP_NLRI_TLV_LOCAL_NODE_DESCRIPTORS : Z := 256.
Definition BGP_NLRI_TLV_REMOTE_NODE_DESCRIPTORS : Z := 257.
Definition BGP_NLRI_TLV_LINK_LOCAL_REMOTE_IDENTIFIERS : Z := 258.
Definition BGP_NLRI_TLV_IPV4_INTERFACE_ADDRESS : Z := 259.
Definition BGP_NLRI_TLV_IPV4_NEIGHBOR_ADDRESS : Z := 260.
Definition BGP_NLRI_TLV_IPV6_INTERFACE_ADDRESS : Z := 261.
Definition BGP_NLRI_TLV_IPV6_NEIGHBOR_ADDRESS : Z := 262.
Definition BGP_NLRI_TLV_MULTI_TOPOLOGY_ID : Z := 263.
Definition BGP_NLRI_TLV_OSPF_ROUTE_TYPE : Z := 264.
Definition BGP_NLRI_TLV_IP_REACHABILITY_INFORMATION : Z := 265.

Definition BGP_NLRI_TLV_AUTONOMOUS_SYSTEM : Z := 512.
Definition BGP_NLRI_TLV_BGP_LS_IDENTIFIER : Z := 513.
Definition BGP_NLRI_TLV_AREA_ID : Z := 514.
Definition BGP_NLRI_TLV_IGP_ROUTER_ID : Z := 515.

Definition BGP_NLRI_TLV_LEN_AUTONOMOUS_SYSTEM : nat := 4.
Definition BGP_NLRI_TLV_LEN_BGP_LS_IDENTIFIER : nat := 4.
Definition BGP_NLRI_TLV_LEN_AREA_ID : nat := 4.
Definition BGP_NLRI_TLV_LEN_IPV6_INTERFACE_ADDRESS : nat := 16.
Definition BGP_NLRI_TLV_LEN_IPV6_NEIGHBOR_ADDRESS : nat := 16.

Definition BGP_NLRI_IS_IS_NON_PSEUDONODE : Z := 6.
Definition BGP_NLRI_IS_IS_PSEUDONODE : Z := 7.
Definition BGP_NLRI_OSPF_NON_PSEUDONODE : Z := 4.
Definition BGP_NLRI_OSPF_PSEUDONODE : Z := 8.

(** The status codes of bgpd/bgp_attr.h the decoders can be asked about. *)
Inductive bgp_attr_parse_ret : Type :=
| BGP_ATTR_PARSE_PROCEED
| BGP_ATTR_PARSE_ERROR
| BGP_ATTR_PARSE_WITHDRAW
| BGP_ATTR_PARSE_ERROR_NOTIFYPLS.

(** ** The decoded NLRI: [attr->mp_bgpls_nlri]

    One field per member the decoders assign; [local_node->value] and
    [remote_node->value] are the byte areas [stream_get] copies into. *)
Record mp_bgpls_nlri : Type := mkNlri {
  ext_hdr_proto_id : Z;
  ext_hdr_nlri_identifier : Z;
  local_node_value : list byte;
  remote_node_value : list byte;
  llri_local : Z;
  llri_remote : Z;
  i4ia_value : list byte;
  i4na_value : list byte;
  i6ia_value : list byte;
  i6na_value : list byte;
  mid_value : list Z;
  ort_value : Z;
  ipreach_prefix : Z;
  ipreach_value : list byte
}.

Definition empty_nlri : mp_bgpls_nlri :=
  mkNlri 0 0 [] [] 0 0 [] [] [] [] [] 0 0 [].

(** What [zlog_info] is called with. *)
Inductive zlog_msg : Type :=
| InvalidNodeDescriptor (host : string) (len : Z)
    (* "%s sent invalid Node Descriptor, %lu" *)
| InvalidIgpRouterId (host : string) (len : Z)
    (* "%s sent invalid IGP Router-ID, %lu" *)
| InvalidLinkStateIsisTlv (host : string) (len : Z).
    (* "%s sent invalid Link State IS-IS TLV, %lu" *)

(** [struct bgp_attr_parser_args]: the peer's host name and the attribute
    under construction. *)
Record bgp_attr_parser_args : Type := mkArgs {
  peer_host : string;
  attr_mp_bgpls_nlri : mp_bgpls_nlri
}.

(** ** The state a decoder threads: stream, NLRI, log *)
Record dstate : Type := mkDstate {
  strm : stream;
  nlri : mp_bgpls_nlri;
  zlog : list zlog_msg
}.

(** A decoder step either fails in the byte cursor or gives a value and
    the next state. *)
Definition M (A : Type) : Type := dstate -> option (A * dstate).

Definition ret {A} (a : A) : M A := fun st => Some (a, st).
Definition bind {A B} (m : M A) (f : A -> M B) : M B :=
  fun st => match m st with
            | Some (a, st') => f a st'
            | None => None
            end.

Notation "x <- m ;; k" := (bind m (fun x => k))
  (at level 61, m at next level, right associativity).
Notation "m ;;; k" := (bind m (fun _ => k))
  (at level 61, right associativity).

Definition on_stream {A} (rd : stream -> option (A * stream)) : M A :=
  fun st => match rd (strm st) with
            | Some (a, s') => Some (a, mkDstate s' (nlri st) (zlog st))
            | None => None
            end.

Definition getc : M Z := on_stream stream_getc.
Definition getw : M Z := on_stream stream_getw.
Definition getq : M Z := on_stream stream_getq.
Definition get (n : nat) : M (list byte) := on_stream (stream_get n).
Definition get_ipv4 : M (list byte) := on_stream stream_get_ipv4.
Definition get_getp : M nat := fun st => Some (stream_get_getp (strm st), st).

Definition set_nlri (f : mp_bgpls_nlri -> mp_bgpls_nlri) : M unit :=
  fun st => Some (tt, mkDstate (strm st) (f (nlri st)) (zlog st)).

Definition zlog_info (m : zlog_msg) : M unit :=
  fun st => Some (tt, mkDstate (strm st) (nlri st) (zlog st ++ [m])).

(** [memcpy(dst, src, n)] on the front of a byte area. *)
Definition memcpy (dst src : list byte) : list byte :=
  src ++ skipn (List.length src) dst.

(** [a[i] = v]; the array of multi-topology identifiers has no bound that
    the decoder checks, so a store past the current end extends it. *)
Fixpoint array_set (a : list Z) (i : nat) (v : Z) : list Z :=
  match i, a with
  | O, [] => [v]
  | O, _ :: r => v :: r
  | S j, [] => 0 :: array_set [] j v
  | S j, x :: r => x :: array_set r j v
  end.

(** Field updates. *)
Definition set_ext_hdr_proto_id v n :=
  mkNlri v (ext_hdr_nlri_identifier n) (local_node_value n)
    (remote_node_value n) (llri_local n) (llri_remote n) (i4ia_value n)
    (i4na_value n) (i6ia_value n) (i6na_value n) (mid_value n) (ort_value n)
    (ipreach_prefix n) (ipreach_value n).
Definition set_ext_hdr_nlri_identifier v n :=
  mkNlri (ext_hdr_proto_id n) v (local_node_value n)
    (remote_node_value n) (llri_local n) (llri_remote n) (i4ia_value n)
    (i4na_value n) (i6ia_value n) (i6na_value n) (mid_value n) (ort_value n)
    (ipreach_prefix n) (ipreach_value n).
Definition set_local_node_value v n :=
  mkNlri (ext_hdr_proto_id n) (ext_hdr_nlri_identifier n) v
    (remote_node_value n) (llri_local n) (llri_remote n) (i4ia_value n)
    (i4na_value n) (i6ia_value n) (i6na_value n) (mid_value n) (ort_value n)
    (ipreach_prefix n) (ipreach_value n).
Definition set_remote_node_value v n :=
  mkNlri (ext_hdr_proto_id n) (ext_hdr_nlri_identifier n)
    (local_node_value n) v (llri_local n) (llri_remote n) (i4ia_value n)
    (i4na_value n) (i6ia_value n) (i6na_value n) (mid_value n) (ort_value n)
    (ipreach_prefix n) (ipreach_value n).
Definition set_llri_local v n :=
  mkNlri (ext_hdr_proto_id n) (ext_hdr_nlri_identifier n)
    (local_node_value n) (remote_node_value n) v (llri_remote n)
    (i4ia_value n) (i4na_value n) (i6ia_value n) (i6na_value n)
    (mid_value n) (ort_value n) (ipreach_prefix n) (ipreach_value n).
Definition set_llri_remote v n :=
  mkNlri (ext_hdr_proto_id n) (ext_hdr_nlri_identifier n)
    (local_node_value n) (remote_node_value n) (llri_local n) v
    (i4ia_value n) (i4na_value n) (i6ia_value n) (i6na_value n)
    (mid_value n) (ort_value n) (ipreach_prefix n) (ipreach_value n).
Definition set_i4ia_value v n :=
  mkNlri (ext_hdr_proto_id n) (ext_hdr_nlri_identifier n)
    (local_node_value n) (remote_node_value n) (llri_local n)
    (llri_remote n) v (i4na_value n) (i6ia_value n) (i6na_value n)
    (mid_value n) (ort_value n) (ipreach_prefix n) (ipreach_value n).
Definition set_i4na_value v n :=
  mkNlri (ext_hdr_proto_id n) (ext_hdr_nlri_identifier n)
    (local_node_value n) (remote_node_value n) (llri_local n)
    (llri_remote n) (i4ia_value n) v (i6ia_value n) (i6na_value n)
    (mid_value n) (ort_value n) (ipreach_prefix n) (ipreach_value n).
Definition set_i6ia_value v n :=
  mkNlri (ext_hdr_proto_id n) (ext_hdr_nlri_identifier n)
    (local_node_value n) (remote_node_value n) (llri_local n)
    (llri_remote n) (i4ia_value n) (i4na_value n) v (i6na_value n)
    (mid_value n) (ort_value n) (ipreach_prefix n) (ipreach_value n).
Definition set_mid_value v n :=
  mkNlri (ext_hdr_proto_id n) (ext_hdr_nlri_identifier n)
    (local_node_value n) (remote_node_value n) (llri_local n)
    (llri_remote n) (i4ia_value n) (i4na_value n) (i6ia_value n)
    (i6na_value n) v (ort_value n) (ipreach_prefix n) (ipreach_value n).
Definition set_ort_value v n :=
  mkNlri (ext_hdr_proto_id n) (ext_hdr_nlri_identifier n)
    (local_node_value n) (remote_node_value n) (llri_local n)
    (llri_remote n) (i4ia_value n) (i4na_value n) (i6ia_value n)
    (i6na_value n) (mid_value n) v (ipreach_prefix n) (ipreach_value n).
Definition set_ipreach_prefix v n :=
  mkNlri (ext_hdr_proto_id n) (ext_hdr_nlri_identifier n)
    (local_node_value n) (remote_node_value n) (llri_local n)
    (llri_remote n) (i4ia_value n) (i4na_value n) (i6ia_value n)
    (i6na_value n) (mid_value n) (ort_value n) v (ipreach_value n).
Definition set_ipreach_value v n :=
  mkNlri (ext_hdr_proto_id n) (ext_hdr_nlri_identifier n)
    (local_node_value n) (remote_node_value n) (llri_local n)
    (llri_remote n) (i4ia_value n) (i4na_value n) (i6ia_value n)
    (i6na_value n) (mid_value n) (ort_value n) (ipreach_prefix n) v.

(** ** The node descriptor sub-TLVs

    The same [switch (node_type)] stands in the body of the four descriptor
    loops of the file; the copies differ only in the node whose [value] the
    bytes are copied to. *)
Inductive node_sel : Type := local_node | remote_node.

(** [stream_get(attr->mp_bgpls_nlri-><node>->value, s, n)] *)
Definition stream_get_node (dst : node_sel) (n : nat) : M unit :=
  bs <- get n ;;
  match dst with
  | local_node =>
      set_nlri (fun a => set_local_node_value (memcpy (local_node_value a) bs) a)
  | remote_node =>
      set_nlri (fun a => set_remote_node_value (memcpy (remote_node_value a) bs) a)
  end.

(** One pass through the body of a descriptor loop: the two [stream_getw]
    and the [switch]. [fixed_dst] is the node named in the three fixed-length
    cases, [rid_dst] the node named in the IGP Router-ID case; [length] is
    the length of the enclosing TLV, which is what the messages print. *)
Definition descriptor_sub_tlv (host : string) (length : Z)
  (fixed_dst rid_dst : node_sel) : M unit :=
  node_type <- getw ;;
  node_length <- getw ;;
  if node_type =? BGP_NLRI_TLV_AUTONOMOUS_SYSTEM then
    stream_get_node fixed_dst BGP_NLRI_TLV_LEN_AUTONOMOUS_SYSTEM
  else if node_type =? BGP_NLRI_TLV_BGP_LS_IDENTIFIER then
    stream_get_node fixed_dst BGP_NLRI_TLV_LEN_BGP_LS_IDENTIFIER
  else if node_type =? BGP_NLRI_TLV_AREA_ID then
    stream_get_node fixed_dst BGP_NLRI_TLV_LEN_AREA_ID
  else if node_type =? BGP_NLRI_TLV_IGP_ROUTER_ID then
    if node_length =? BGP_NLRI_IS_IS_NON_PSEUDONODE then
      stream_get_node rid_dst (Z.to_nat BGP_NLRI_IS_IS_NON_PSEUDONODE)
    else if node_length =? BGP_NLRI_IS_IS_PSEUDONODE then
      stream_get_node rid_dst (Z.to_nat BGP_NLRI_IS_IS_PSEUDONODE)
    else if node_length =? BGP_NLRI_OSPF_NON_PSEUDONODE then
      stream_get_node rid_dst (Z.to_nat BGP_NLRI_OSPF_NON_PSEUDONODE)
    else if node_length =? BGP_NLRI_OSPF_PSEUDONODE then
      stream_get_node rid_dst (Z.to_nat BGP_NLRI_OSPF_PSEUDONODE)
    else
      zlog_info (InvalidIgpRouterId host length)
  else
    zlog_info (InvalidNodeDescriptor host length).

(** [while (stream_get_getp(s) < nlri_node_endp) { ... }]. Every pass reads
    at least the four bytes of a sub-TLV header, so [nlri_node_endp] minus
    the position at entry bounds the number of passes; [descriptor_loop]
    below starts the recursion with that much fuel. *)
Fixpoint descriptor_loop_fuel (fuel : nat) (host : string) (length : Z)
  (fixed_dst rid_dst : node_sel) (nlri_node_endp : nat) : M unit :=
  match fuel with
  | O => ret tt
  | S fuel' =>
      p <- get_getp ;;
      if (p <? nlri_node_endp)%nat then
        descriptor_sub_tlv host length fixed_dst rid_dst ;;;
        descriptor_loop_fuel fuel' host length fixed_dst rid_dst nlri_node_endp
      else ret tt
  end.

Definition descriptor_loop (host : string) (length : Z)
  (fixed_dst rid_dst : node_sel) (nlri_node_endp : nat) : M unit :=
  p <- get_getp ;;
  descriptor_loop_fuel (nlri_node_endp - p) host length fixed_dst rid_dst
    nlri_node_endp.

(** [for (i = 0; i <= (n - 1); i++) mid->value[i] = stream_getw(s);]
    with [count] passes left. *)
Fixpoint mt_id_loop (count : nat) (i : nat) : M unit :=
  match count with
  | O => ret tt
  | S count' =>
      v <- getw ;;
      set_nlri (fun a => set_mid_value (array_set (mid_value a) i v) a) ;;;
      mt_id_loop count' (S i)
  end.

(** The four reads every decoder starts with; the result is [(type, length)]. *)
Definition read_ext_hdr : M (Z * Z) :=
  proto_id <- getc ;;
  set_nlri (set_ext_hdr_proto_id proto_id) ;;;
  nlri_identifier <- getq ;;
  set_nlri (set_ext_hdr_nlri_identifier nlri_identifier) ;;;
  type <- getw ;;
  length <- getw ;;
  ret (type, length).

(** ** [bgp_mp_node_decode] *)
Definition node_decode (host : string) : M bgp_attr_parse_ret :=
  tl <- read_ext_hdr ;;
  let '(type, length) := tl in
  (if negb (type =? BGP_NLRI_TLV_LOCAL_NODE_DESCRIPTORS)
   then zlog_info (InvalidNodeDescriptor host length)
   else ret tt) ;;;
  p <- get_getp ;;
  let nlri_node_endp := (p + Z.to_nat length)%nat in
  (* the loop body ends in an unconditional [break] *)
  p' <- get_getp ;;
  (if (p' <? nlri_node_endp)%nat
   then descriptor_sub_tlv host length local_node local_node
   else ret tt) ;;;
  ret BGP_ATTR_PARSE_PROCEED.

(** ** [bgp_mp_link_decode] *)
Definition link_decode (host : string) : M bgp_attr_parse_ret :=
  tl <- read_ext_hdr ;;
  let '(type, length) := tl in
  p <- get_getp ;;
  let nlri_node_endp := (p + Z.to_nat length)%nat in
  (if type =? BGP_NLRI_TLV_LOCAL_NODE_DESCRIPTORS then
     descriptor_loop host length local_node local_node nlri_node_endp
   else if type =? BGP_NLRI_TLV_REMOTE_NODE_DESCRIPTORS then
     descriptor_loop host length local_node remote_node nlri_node_endp
   else if type =? BGP_NLRI_TLV_LINK_LOCAL_REMOTE_IDENTIFIERS then
     node_type <- getw ;;
     node_length <- getw ;;
     v <- getw ;;
     set_nlri (set_llri_local v) ;;;
     w <- getw ;;
     set_nlri (set_llri_remote w)
   else if type =? BGP_NLRI_TLV_IPV4_INTERFACE_ADDRESS then
     node_type <- getw ;;
     node_length <- getw ;;
     a <- get_ipv4 ;;
     set_nlri (set_i4ia_value a)
   else if type =? BGP_NLRI_TLV_IPV4_NEIGHBOR_ADDRESS then
     node_type <- getw ;;
     node_length <- getw ;;
     a <- get_ipv4 ;;
     set_nlri (set_i4na_value a)
   else if type =? BGP_NLRI_TLV_IPV6_INTERFACE_ADDRESS then
     node_type <- getw ;;
     node_length <- getw ;;
     bs <- get BGP_NLRI_TLV_LEN_IPV6_INTERFACE_ADDRESS ;;
     set_nlri (fun a => set_i6ia_value (memcpy (i6ia_value a) bs) a)
   else if type =? BGP_NLRI_TLV_IPV6_NEIGHBOR_ADDRESS then
     node_type <- getw ;;
     node_length <- getw ;;
     (* the source names [i6ia] here as well *)
     bs <- get BGP_NLRI_TLV_LEN_IPV6_NEIGHBOR_ADDRESS ;;
     set_nlri (fun a => set_i6ia_value (memcpy (i6ia_value a) bs) a)
   else if type =? BGP_NLRI_TLV_MULTI_TOPOLOGY_ID then
     node_type <- getw ;;
     node_length <- getw ;;
     let n := node_length / 2 in
     mt_id_loop (Z.to_nat n) 0
   else ret tt) ;;;
  ret BGP_ATTR_PARSE_PROCEED.

(** ** [bgp_mp_prefix_decode] *)
Definition prefix_decode (host : string) : M bgp_attr_parse_ret :=
  tl <- read_ext_hdr ;;
  let '(type, length) := tl in
  if type =? BGP_NLRI_TLV_LOCAL_NODE_DESCRIPTORS then
    p <- get_getp ;;
    let nlri_node_endp := (p + Z.to_nat length)%nat in
    descriptor_loop host length local_node local_node nlri_node_endp ;;;
    ret BGP_ATTR_PARSE_PROCEED
  else if type =? BGP_NLRI_TLV_MULTI_TOPOLOGY_ID then
    node_type <- getw ;;
    node_length <- getw ;;
    let n := node_length / 2 in
    mt_id_loop (Z.to_nat n) 0 ;;;
    ret BGP_ATTR_PARSE_PROCEED
  else if type =? BGP_NLRI_TLV_OSPF_ROUTE_TYPE then
    node_type <- getw ;;
    node_length <- getw ;;
    v <- getc ;;
    set_nlri (set_ort_value v) ;;;
    ret BGP_ATTR_PARSE_PROCEED
  else if type =? BGP_NLRI_TLV_IP_REACHABILITY_INFORMATION then
    node_type <- getw ;;
    node_length <- getw ;;
    prefix <- getc ;;
    set_nlri (set_ipreach_prefix prefix) ;;;
    bs <- get (Z.to_nat prefix) ;;
    set_nlri (fun a => set_ipreach_value (memcpy (ipreach_value a) bs) a) ;;;
    ret BGP_ATTR_PARSE_PROCEED
  else
    zlog_info (InvalidLinkStateIsisTlv host length) ;;;
    ret BGP_ATTR_PARSE_ERROR_NOTIFYPLS.

(** The C entry points: the arguments and the stream go in, the status
    comes out with the state the call leaves behind. *)
Definition run (d : string -> M bgp_attr_parse_ret)
  (args : bgp_attr_parser_args) (s : stream)
  : option (bgp_attr_parse_ret * dstate) :=
  d (peer_host args) (mkDstate s (attr_mp_bgpls_nlri args) []).

Definition bgp_mp_node_decode := run node_decode.
Definition bgp_mp_link_decode := run link_decode.
Definition bgp_mp_prefix_decode := run prefix_decode.

(** The top-level TLV header as it stands on the wire: behind the protocol
    id (one byte) and the identifier (eight bytes), two bytes of type and
    two bytes of length; [None] when the stream holds fewer than these
    thirteen bytes. *)
Definition top_level_tlv (s : stream) : option (Z * Z) :=
  if (getp s + 13 <=? endp s)%nat then
    Some (be_value (firstn 2 (skipn (getp s + 9) (data s))),
          be_value (firstn 2 (skipn (getp s + 11) (data s))))
  else None.

(** An NLRI on the wire: protocol id, 64-bit identifier, then one TLV
    header and what follows it. *)
Definition nlri_bytes (proto_id : Z) (identifier : list Z) (type length : Z)
  (rest : list Z) : list byte :=
  bytes (proto_id :: identifier ++
         [type / 256; type mod 256; length / 256; length mod 256] ++ rest).

(** ** Notions the properties are stated with *)

Local Open Scope nat_scope.

(** [advances m lo hi]: when [m] succeeds it leaves the buffer alone, moves
    the position forward by at least [lo] and at most [hi] bytes and only
    appends to the log; and it does succeed when [hi] bytes can be read. *)
Definition advances {A} (m : M A) (lo hi : nat) : Prop :=
  forall st,
    (forall a st', m st = Some (a, st') ->
       data (strm st') = data (strm st) /\
       getp (strm st) + lo <= getp (strm st') <= getp (strm st) + hi /\
       exists l, zlog st' = zlog st ++ l) /\
    (getp (strm st) + hi <= endp (strm st) ->
     exists a st', m st = Some (a, st')).

(** [returns_only m r]: when [m] returns, it returns [r]. *)
Definition returns_only {A} (m : M A) (r : A) : Prop :=
  forall st a st', m st = Some (a, st') -> a = r.


(** The state behind the thirteen bytes of protocol id, identifier and
    top-level TLV header. *)
Definition after_ext_hdr (st : dstate) : dstate :=
  let s := strm st in
  mkDstate
    (mkStream (data s) (getp s + 13))
    (set_ext_hdr_nlri_identifier
       (be_value (firstn 8 (skipn (getp s + 1) (data s))))
       (set_ext_hdr_proto_id
          (be_value (firstn 1 (skipn (getp s) (data s)))) (nlri st)))
    (zlog st).

(** [keeps g m]: [m] leaves the part [g] of the decoded NLRI as it was. *)
Definition keeps {A X} (g : mp_bgpls_nlri -> X) (m : M A) : Prop :=
  forall st a st', m st = Some (a, st') -> g (nlri st') = g (nlri st).

(** [forward m lo]: when [m] succeeds it leaves the buffer alone, moves the
    position forward by at least [lo] bytes, to a place that is still
    inside the buffer unless the position did not move at all, and only
    appends to the log. *)
Definition forward {A} (m : M A) (lo : nat) : Prop :=
  forall st a st', m st = Some (a, st') ->
    data (strm st') = data (strm st) /\
    getp (strm st) + lo <= getp (strm st') /\
    (getp (strm st') = getp (strm st) \/ getp (strm st') <= endp (strm st)) /\
    exists l, zlog st' = zlog st ++ l.

(** The big-endian value of the [n] bytes that stand [off] bytes behind the
    read position. *)
Definition wire_at (s : stream) (off n : nat) : Z :=
  be_value (firstn n (skipn (getp s + off) (data s))).

(** The bytes of value a descriptor sub-TLV of the given type and declared
    length is passed by. *)
Definition sub_tlv_width (node_type node_length : Z) : nat :=
  if ((node_type =? BGP_NLRI_TLV_AUTONOMOUS_SYSTEM) ||
      (node_type =? BGP_NLRI_TLV_BGP_LS_IDENTIFIER) ||
      (node_type =? BGP_NLRI_TLV_AREA_ID))%Z%bool
  then 4
  else if (node_type =? BGP_NLRI_TLV_IGP_ROUTER_ID)%Z then
    if ((node_length =? BGP_NLRI_IS_IS_NON_PSEUDONODE) ||
        (node_length =? BGP_NLRI_IS_IS_PSEUDONODE) ||
        (node_length =? BGP_NLRI_OSPF_NON_PSEUDONODE) ||
        (node_length =? BGP_NLRI_OSPF_PSEUDONODE))%Z%bool
    then Z.to_nat node_length
    else 0
  else 0.

(** The parts of the decoded NLRI that stand outside what a decoder names:
    for the node decoder everything but the header fields and the local
    node, for the link decoder the IPv6 neighbor address and the two fields
    of the prefix decoder, for the prefix decoder the remote node and the
    fields of a link. *)
Definition outside_node_decode (n : mp_bgpls_nlri) :=
  (remote_node_value n, llri_local n, llri_remote n, i4ia_value n,
   i4na_value n, i6ia_value n, i6na_value n, mid_value n, ort_value n,
   ipreach_prefix n, ipreach_value n).
Definition outside_link_decode (n : mp_bgpls_nlri) :=
  (i6na_value n, ort_value n, ipreach_prefix n, ipreach_value n).
Definition outside_prefix_decode (n : mp_bgpls_nlri) :=
  (remote_node_value n, llri_local n, llri_remote n, i4ia_value n,
   i4na_value n, i6ia_value n, i6na_value n).

(** The two fields every decoder sets first. *)
Definition ext_hdr (n : mp_bgpls_nlri) : Z * Z :=
  (ext_hdr_proto_id n, ext_hdr_nlri_identifier n).

Local Open Scope Z_scope.

(** The arguments of a first call: a peer, nothing decoded yet. *)
Definition args0 : bgp_attr_parser_args := mkArgs "192.0.2.1" empty_nlri.

(** An attribute whose local node already holds a value. *)
Definition args_local_ff : bgp_attr_parser_args :=
  mkArgs "192.0.2.1"
    (set_local_node_value (bytes [255; 255; 255; 255]) empty_nlri).

(** A node NLRI whose top-level TLV has the type 300, not Local Node
    Descriptors, a declared length of 8 and an Autonomous System sub-TLV,
    65000, as value. *)
Definition unexpected_type_nlri : list byte :=
  nlri_bytes 1 [0; 0; 0; 0; 0; 0; 0; 1] 300 8 [2; 0; 0; 4; 0; 0; 253; 232].

(** The same header with a declared length of 2 and two bytes of value. *)
Definition unexpected_type_short_nlri : list byte :=
  nlri_bytes 1 [0; 0; 0; 0; 0; 0; 0; 1] 300 2 [0; 0].

(** A node NLRI whose Local Node Descriptors TLV (16 bytes) holds two
    sub-TLVs: Autonomous System 65000 and BGP-LS Identifier 7. *)
Definition two_sub_tlv_nlri (type : Z) : list byte :=
  nlri_bytes 1 [0; 0; 0; 0; 0; 0; 0; 1] type 16
    [2; 0; 0; 4; 0; 0; 253; 232;
     2; 1; 0; 4; 0; 0; 0; 7].

(** A link NLRI whose Remote Node Descriptors TLV holds one Autonomous
    System sub-TLV, 65000. *)
Definition remote_as_nlri : list byte :=
  nlri_bytes 1 [0; 0; 0; 0; 0; 0; 0; 1] 257 8 [2; 0; 0; 4; 0; 0; 253; 232].

(** A link NLRI whose Remote Node Descriptors TLV holds one IGP Router-ID
    sub-TLV of six bytes. *)
Definition remote_router_id_nlri : list byte :=
  nlri_bytes 1 [0; 0; 0; 0; 0; 0; 0; 1] 257 10
    [2; 3; 0; 6; 1; 2; 3; 4; 5; 6].

(** The buffer of the prefix scenario: IP Reachability Information,
    declared length 5, value bytes 24, 10, 0, 0. *)
Definition ip_reachability_scenario : list byte :=
  nlri_bytes 1 [0; 0; 0; 0; 0; 0; 0; 1] 265 5 [24; 10; 0; 0].

(** The buffer of the link scenario: Link Local/Remote Identifiers,
    declared length 4, value bytes 0, 5, 0, 9. *)
Definition link_identifiers_scenario : list byte :=
  nlri_bytes 1 [0; 0; 0; 0; 0; 0; 0; 1] 258 4 [0; 5; 0; 9].

End Nlri.

(* ================================================================== *)
(** * bgpd/bgp_bgpls_nlri.c : the attribute TLV walker                 *)
(* ================================================================== *)

Module Walker.
Import Stream.
Local Open Scope Z_scope.

(** ** Attribute TLV code points

    Modelled from the spec: bgpd/bgp_ls.h is not among the sources. The
    numbers are those of the wire format the specification fixes (RFC 7752,
    section 3.3) and of the table in the comment that precedes
    [bgp_mp_prefix_decode]. *)
Definition BGP_NLRI_TLV_MULTI_TOPOLOGY_ID : Z := 263.
Definition BGP_NLRI_TLV_NODE_FLAG_BITS : Z := 1024.
Definition BGP_NLRI_TLV_OPAQUE_NODE_PROPERTIES : Z := 1025.
Definition BGP_NLRI_TLV_NODE_NAME : Z := 1026.
Definition BGP_NLRI_TLV_IS_IS_AREA_IDENTIFIER : Z := 1027.
Definition BGP_NLRI_TLV_IPV4_ROUTER_ID_OF_LOCAL_NODE : Z := 1028.
Definition BGP_NLRI_TLV_IPV6_ROUTER_ID_OF_LOCAL_NODE : Z := 1029.
Definition BGP_NLRI_TLV_IPV4_ROUTER_ID_OF_REMOTE_NODE : Z := 1030.
Definition BGP_NLRI_TLV_IPV6_ROUTER_ID_OF_REMOTE_NODE : Z := 1031.
Definition BGP_NLRI_TLV_ADMINISTRATIVE_GROUP_COLOR : Z := 1088.
Definition BGP_NLRI_TLV_MAX_LINK_BANDWIDTH : Z := 1089.
Definition BGP_NLRI_TLV_MAX_RESERVABLE_LINK_BANDWIDTH : Z := 1090.
Definition BGP_NLRI_TLV_UNRESERVED_BANDWIDTH : Z := 1091.
Definition BGP_NLRI_TLV_TE_DEFAULT_METRIC : Z := 1092.
Definition BGP_NLRI_TLV_LINK_PROTECTION_TYPE : Z := 1093.
Definition BGP_NLRI_TLV_MPLS_PROTOCOL_MASK : Z := 1094.
Definition BGP_NLRI_TLV_IGP_METRIC : Z := 1095.
Definition BGP_NLRI_TLV_SHARED_RISK_LINK_GROUP : Z := 1096.
Definition BGP_NLRI_TLV_OPAQUE_LINK_ATTRIBUTE : Z := 1097.
Definition BGP_NLRI_TLV_LINK_NAME_ATTRIBUTE : Z := 1098.
Definition BGP_NLRI_TLV_IGP_FLAGS : Z := 1152.
Definition BGP_NLRI_TLV_ROUTE_TAG : Z := 1153.
Definition BGP_NLRI_TLV_EXTENDED_TAG : Z := 1154.
Definition BGP_NLRI_TLV_PREFIX_METRIC : Z := 1155.
Definition BGP_NLRI_TLV_OSPF_FORWARDING_ADDRESS : Z := 1156.
Definition BGP_NLRI_TLV_OPAQUE_PREFIX_ATTRIBUTE : Z := 1157.

Definition BGP_NLRI_TLV_LEN_IPV4_FOWARDING_ADDRESS : Z := 4.
Definition BGP_NLRI_TLV_LEN_IPV6_FOWARDING_ADDRESS : Z := 16.

(** [sizeof(struct te_tlv_nlri_header)]: two 16-bit fields. *)
Definition BGP_TLV_HDR_SIZE : Z := 4.

(** lib/command.h *)
Definition CMD_WARNING : Z := 1.

(** ** Output *)

(** A call of [vty_out] or [zlog_debug]: the format string as it stands in
    the source and the arguments. An argument printed with [%p] is the
    offset it points to, one printed with [%pI4] or [%pI6] the bytes of the
    address, a [float] its 32 bits. *)
Inductive sink_event : Type :=
| vty_out (fmt : string) (args : list Z)
| zlog_debug (fmt : string) (args : list Z).

Inductive endianness : Type := LittleEndian | BigEndian.

(** ** What a formatter does: reads and output

    [reads] lists the offsets of the bytes read so far, counted from
    [&te->header]; [out] what has been printed. *)
Record wstate : Type := mkWstate {
  reads : list nat;
  out : list sink_event
}.

Definition W (A : Type) : Type := wstate -> option (A * wstate).

Definition ret {A} (a : A) : W A := fun st => Some (a, st).
Definition bind {A B} (m : W A) (f : A -> W B) : W B :=
  fun st => match m st with
            | Some (a, st') => f a st'
            | None => None
            end.
Definition fail {A} : W A := fun _ => None.

Notation "x <- m ;; k" := (bind m (fun x => k))
  (at level 61, m at next level, right associativity).
Notation "m ;;; k" := (bind m (fun _ => k))
  (at level 61, right associativity).

Definition print (e : sink_event) : W unit :=
  fun st => Some (tt, mkWstate (reads st) (out st ++ [e])).

Section Platform.

(** The byte order of the host, and [sizeof] of a pointer on it. *)
Variable host : endianness.
Variable sizeof_pointer : Z.

(** Modelled from the spec: the macros [BGP_TLV_BODY_SIZE], [BGP_TLV_SIZE]
    and [BGP_TLV_HDR_NEXT] of bgpd/bgp_ls.h are not among the sources. A
    formatter returns "the number of bytes it consumed (header + value)" so
    that the walker can advance: [BGP_TLV_SIZE] is the header size plus the
    size of the body, and [BGP_TLV_HDR_NEXT] is that many bytes further.
    The size of the body is a function of the declared length that is left
    open here (the declared length itself, or its round-up to a multiple of
    four). *)
Variable BGP_TLV_BODY_SIZE : nat -> nat.

(** The bytes at and behind [&te->header]; a read outside them has no
    defined result. *)
Variable mem : list byte.

(** [vty != NULL] *)
Variable vty : bool.

(** *** Memory *)

Definition ld_bytes (off n : nat) : W (list byte) :=
  fun st =>
    if (off + n <=? List.length mem)%nat
    then Some (firstn n (skipn off mem),
               mkWstate (reads st ++ seq off n) (out st))
    else None.

(** The value of an integer object of the host that holds the bytes [bs]. *)
Definition host_value (bs : list byte) : Z :=
  match host with
  | BigEndian => be_value bs
  | LittleEndian => be_value (rev bs)
  end.

(** An [n]-byte integer field at [off], as the host reads it. *)
Definition ld (off n : nat) : W Z :=
  bs <- ld_bytes off n ;; ret (host_value bs).

(** An address printed with [%pI4] or [%pI6]: its bytes. *)
Definition ld_addr (off n : nat) : W (list Z) :=
  bs <- ld_bytes off n ;; ret (map (fun b => Z.of_N (Byte.to_N b)) bs).

Definition ntohs (v : Z) : Z :=
  let v := v mod 65536 in
  match host with
  | BigEndian => v
  | LittleEndian => (v mod 256) * 256 + v / 256
  end.

Definition ntohl (v : Z) : Z :=
  let v := v mod 4294967296 in
  match host with
  | BigEndian => v
  | LittleEndian =>
      (((v mod 256) * 256 + (v / 256) mod 256) * 256
       + (v / 65536) mod 256) * 256 + v / 16777216
  end.

(** [ntohf]: the 32 bits of the float, in host order. *)
Definition ntohf (v : Z) : Z := ntohl v.

(** [if (vty != NULL) vty_out(vty, vfmt, ...); else zlog_debug(lfmt, ...);] *)
Definition show (vfmt lfmt : string) (args : list Z) : W unit :=
  if vty then print (vty_out vfmt args) else print (zlog_debug lfmt args).

(** *** The header of a TLV at [tlvh] *)

Definition nlri_type (tlvh : nat) : W Z := ld tlvh 2.
Definition nlri_length (tlvh : nat) : W Z := ld (tlvh + 2) 2.
(** The value starts behind the header. *)
Definition value (tlvh : nat) : nat := tlvh + 4.

Definition BGP_TLV_SIZE (tlvh : nat) : W Z :=
  len <- nlri_length tlvh ;;
  ret (BGP_TLV_HDR_SIZE + Z.of_nat (BGP_TLV_BODY_SIZE (Z.to_nat (ntohs len)))).

Definition BGP_TLV_HDR_NEXT (tlvh : nat) : W nat :=
  sz <- BGP_TLV_SIZE tlvh ;; ret (tlvh + Z.to_nat sz)%nat.

(** [return BGP_TLV_SIZE(tlvh);] in a function that returns [uint16_t]. *)
Definition return_tlv_size (tlvh : nat) : W Z :=
  sz <- BGP_TLV_SIZE tlvh ;; ret (sz mod 65536).

(** [for (i = 0; i < n; i++) show(..., i, conv(top->value[i]));] over
    elements of [width] bytes, with [count] passes left. *)
Fixpoint show_values (vfmt lfmt : string) (conv : Z -> Z) (width : nat)
  (tlvh : nat) (count : nat) (i : nat) : W unit :=
  match count with
  | O => ret tt
  | S count' =>
      v <- ld (value tlvh + width * i) width ;;
      show vfmt lfmt [Z.of_nat i; conv v] ;;;
      show_values vfmt lfmt conv width tlvh count' (S i)
  end.

(** *** The formatters

    The struct declarations of bgpd/bgp_ls.h are not among the sources: the
    value of a TLV is taken to stand behind its four-byte header, its fields
    with the widths RFC 7752 gives them. *)

Definition show_vty_multi_topology_identifier (tlvh : nat) : W Z :=
  len <- nlri_length tlvh ;;
  let n := ntohs len / 2 in
  show "  Multi Topology ID number: %d\n" "  Multi Topology ID number: %d" [n] ;;;
  show_values " ID   #%d: %d\n" "   ID   #%d: %d" ntohs 2 tlvh (Z.to_nat n) 0 ;;;
  return_tlv_size tlvh.

Definition show_vty_node_flag_bits (tlvh : nat) : W Z :=
  v <- ld (value tlvh) 1 ;;
  show "    Node flag bits: %d\n" "      Node flag bits: %d" [v mod 256] ;;;
  return_tlv_size tlvh.

Definition show_vty_opaque_node_properties (tlvh : nat) : W Z :=
  show "    Opaque Node Properties: %p\n" "     Opaque Node Properties: %p"
    [Z.of_nat (value tlvh)] ;;;
  return_tlv_size tlvh.

Definition show_vty_node_name (tlvh : nat) : W Z :=
  show "    Node name: %p\n" "     Node name: %p" [Z.of_nat (value tlvh)] ;;;
  return_tlv_size tlvh.

Definition show_vty_is_is_area_identifier (tlvh : nat) : W Z :=
  show "    IS-IS Area Identifier: %p\n" "     IS-IS Area Identifier: %p"
    [Z.of_nat (value tlvh)] ;;;
  return_tlv_size tlvh.

Definition show_vty_ipv4_router_id_of_local_node (tlvh : nat) : W Z :=
  a <- ld_addr (value tlvh) 4 ;;
  show " IPv4 Router ID of local node: %pI4\n"
       "   IPv4 Router ID of local node: %pI4" a ;;;
  return_tlv_size tlvh.

Definition show_vty_ipv6_router_id_of_local_node (tlvh : nat) : W Z :=
  a <- ld_addr (value tlvh) 16 ;;
  show "	 IPv6 Router ID of local node: %pI6\n"
       "   IPv6 Router ID of local node: %pI6" a ;;;
  return_tlv_size tlvh.

Definition show_vty_ipv4_router_id_of_remote_node (tlvh : nat) : W Z :=
  a <- ld_addr (value tlvh) 4 ;;
  show " IPv4 Router ID of remote node: %pI4\n"
       "   IPv4 Router ID of remote node: %pI4" a ;;;
  return_tlv_size tlvh.

Definition show_vty_ipv6_router_id_of_remote_node (tlvh : nat) : W Z :=
  a <- ld_addr (value tlvh) 16 ;;
  show " IPv6 Router ID of remote node: %pI6\n"
       "   IPv6 Router ID of remote node: %pI6" a ;;;
  return_tlv_size tlvh.

Definition show_vty_admin_grp_color (tlvh : nat) : W Z :=
  v <- ld (value tlvh) 4 ;;
  show "    Administrative Group: 0x%x\n" "      Administrative Group: 0x%x"
    [ntohl v] ;;;
  return_tlv_size tlvh.

Definition show_vty_max_link_bw (tlvh : nat) : W Z :=
  v <- ld (value tlvh) 4 ;;
  let fval := ntohf v in
  show "    Maximum Bandwidth: %g (Bytes/sec)\n"
       "      Maximum Bandwidth: %g (Bytes/sec)" [fval] ;;;
  return_tlv_size tlvh.

Definition show_vty_max_rsv_bw (tlvh : nat) : W Z :=
  v <- ld (value tlvh) 4 ;;
  let fval := ntohf v in
  show "    Maximum Reservable Bandwidth: %g (Bytes/sec)\n"
       "      Maximum Reservable Bandwidth: %g (Bytes/sec)" [fval] ;;;
  return_tlv_size tlvh.

(** [for (i = 0; i < 8; i += 2)], with [count] passes left. *)
Fixpoint show_unrsv_pairs (tlvh : nat) (count : nat) (i : nat) : W unit :=
  match count with
  | O => ret tt
  | S count' =>
      v1 <- ld (value tlvh + 4 * i) 4 ;;
      let fval1 := ntohf v1 in
      v2 <- ld (value tlvh + 4 * (i + 1)) 4 ;;
      let fval2 := ntohf v2 in
      show "      [%d]: %g (Bytes/sec),\t[%d]: %g (Bytes/sec)\n"
           "        [%d]: %g (Bytes/sec), [%d]: %g (Bytes/sec)"
           [Z.of_nat i; fval1; Z.of_nat (i + 1); fval2] ;;;
      show_unrsv_pairs tlvh count' (i + 2)
  end.

Definition show_vty_unrsv_bw (tlvh : nat) : W Z :=
  show "    Unreserved Bandwidth:\n" "      Unreserved Bandwidth:" [] ;;;
  show_unrsv_pairs tlvh 4 0 ;;;
  return_tlv_size tlvh.

Definition show_vty_te_metric (tlvh : nat) : W Z :=
  v <- ld (value tlvh) 4 ;;
  show "    Traffic Engineering Metric: %u\n"
       "      Traffic Engineering Metric: %u" [ntohl v] ;;;
  return_tlv_size tlvh.

Definition show_vty_link_protection_type (tlvh : nat) : W Z :=
  v <- ld (value tlvh) 2 ;;
  show "  Link Protection Type: %d\n" "    Link Protection Type: %d"
    [ntohs v] ;;;
  return_tlv_size tlvh.

Definition show_vty_mpls_protocol_mask (tlvh : nat) : W Z :=
  v <- ld (value tlvh) 1 ;;
  show "    MPLS Protocol Mask: %c\n" "      MPLS Protocol Mask: %c"
    [ntohs v mod 256] ;;;
  return_tlv_size tlvh.

Definition show_vty_igp_metric (tlvh : nat) : W Z :=
  v <- ld (value tlvh) 1 ;;
  show "    IGP Metric: %u\n" "    IGP Metric: %u" [ntohs v] ;;;
  return_tlv_size tlvh.

Definition show_vty_shared_risk_link_group (tlvh : nat) : W Z :=
  len <- nlri_length tlvh ;;
  let n := ntohs len / sizeof_pointer in
  show "  Shared Risk Link Group Number: %d\n"
       "  Shared Risk Link Group Number: %d" [n] ;;;
  show_values " Value n°   #%d: %d\n" "  Value n°  #%d: %d" ntohs 4 tlvh
    (Z.to_nat n) 0 ;;;
  return_tlv_size tlvh.

Definition show_vty_opaque_link_attribute (tlvh : nat) : W Z :=
  show "    Opaque Link attributes: %p\n" "    Opaque Link attributes: %p"
    [Z.of_nat (value tlvh)] ;;;
  return_tlv_size tlvh.

Definition show_vty_link_name_attribute (tlvh : nat) : W Z :=
  show "    Link Name: %p\n" "    Link Name: %p" [Z.of_nat (value tlvh)] ;;;
  return_tlv_size tlvh.

Definition show_vty_bgp_nlri_tlv_igp_flags (tlvh : nat) : W Z :=
  v <- ld (value tlvh) 1 ;;
  show "    IGP Flags: %u\n" "    IGP Flags: %u" [ntohs v mod 256] ;;;
  return_tlv_size tlvh.

Definition show_vty_bgp_nlri_tlv_route_tag (tlvh : nat) : W Z :=
  len <- nlri_length tlvh ;;
  let n := ntohs len / sizeof_pointer in
  show "  Route Tag(s): %d\n" "  Route Tag(s): %d" [n] ;;;
  show_values " Value n°   #%d: %x\n" "  Value n°  #%d: %x" ntohl 4 tlvh
    (Z.to_nat n) 0 ;;;
  return_tlv_size tlvh.

Definition show_vty_bgp_nlri_tlv_extended_tag (tlvh : nat) : W Z :=
  len <- nlri_length tlvh ;;
  let n := ntohs len / sizeof_pointer in
  show "  Extended Route Tag(s): %d\n" "  Extended Route Tag(s): %d" [n] ;;;
  show_values " Value n°   #%d: %llu\n" "  Value n°  #%d: %llu" ntohl 8 tlvh
    (Z.to_nat n) 0 ;;;
  return_tlv_size tlvh.

Definition show_vty_bgp_nlri_tlv_prefix_metric (tlvh : nat) : W Z :=
  v <- ld (value tlvh) 4 ;;
  show "    Prefix Metric: %u\n" "    Prefix Metric: %u" [ntohl v] ;;;
  return_tlv_size tlvh.

Definition show_bgp_nlri_tlv_ospf_fowarding_adress (tlvh : nat) : W Z :=
  (if vty then
     len <- nlri_length tlvh ;;
     (if len =? BGP_NLRI_TLV_LEN_IPV4_FOWARDING_ADDRESS then
        a <- ld_addr (value tlvh) 4 ;;
        print (vty_out " IPv4 OSPF Fowarding Address: %pI4\n" a)
      else ret tt) ;;;
     len' <- nlri_length tlvh ;;
     (if len' =? BGP_NLRI_TLV_LEN_IPV6_FOWARDING_ADDRESS then
        a <- ld_addr (value tlvh) 16 ;;
        print (vty_out "	 IPv6 OSPF Fowarding Address: %pI6\n" a)
      else ret tt)
   else
     a4 <- ld_addr (value tlvh) 4 ;;
     print (zlog_debug "   IPv4 OSPF Fowarding Address: %pI4" a4) ;;;
     a6 <- ld_addr (value tlvh) 16 ;;
     print (zlog_debug "   IPv6 OSPF Fowarding Address: %pI6" a6)) ;;;
  return_tlv_size tlvh.

Definition show_bgp_nlri_tlv_opaque_prefix_attribute (tlvh : nat) : W Z :=
  show "    Opaque prefix Attribute: %p\n" "    Opaque prefix Attribute: %p"
    [Z.of_nat (value tlvh)] ;;;
  return_tlv_size tlvh.

(** The dump loop of [show_vty_unknown_tlv]:
    [for (i = 0; i < tlvh->nlri_length; i++)], [v] pointing to the header
    itself, with [count] passes left. *)
Fixpoint dump_bytes (tlvh : nat) (count : nat) (i : nat) (rtn : Z) : W unit :=
  match count with
  | O => ret tt
  | S count' =>
      b <- ld (tlvh + i) 1 ;;
      print (vty_out " %#.2x" [b]) ;;;
      (if rtn =? 8 then
         print (vty_out "\n             [%.2x]" [Z.of_nat i + 1]) ;;;
         dump_bytes tlvh count' (S i) 1
       else
         dump_bytes tlvh count' (S i) (rtn + 1))
  end.

Definition show_vty_unknown_tlv (tlvh : nat) : W Z :=
  (if vty then
     len <- nlri_length tlvh ;;
     if negb (len =? 0) then
       ty <- nlri_type tlvh ;;
       print (vty_out "    Unknown TLV: [type(%#.2x), length(%#.2x)]\n"
                [ty; len]) ;;;
       print (vty_out "       Dump: [00]" []) ;;;
       dump_bytes tlvh (Z.to_nat len) 0 1 ;;;
       print (vty_out "\n" [])
     else
       ty <- nlri_type tlvh ;;
       print (vty_out "    Unknown TLV: [type(%#.2x), length(%#.2x)]\n"
                [ty; len])
   else
     ty <- nlri_type tlvh ;;
     len <- nlri_length tlvh ;;
     print (zlog_debug "      Unknown TLV: [type(%#.2x), length(%#.2x)]"
              [ty; len])) ;;;
  ret BGP_TLV_HDR_SIZE.

(** *** The walker *)

(** The cases of the [switch]: code point and formatter. *)
Definition registry : list (Z * (nat -> W Z)) :=
  [ (BGP_NLRI_TLV_MULTI_TOPOLOGY_ID, show_vty_multi_topology_identifier);
    (BGP_NLRI_TLV_NODE_FLAG_BITS, show_vty_node_flag_bits);
    (BGP_NLRI_TLV_OPAQUE_NODE_PROPERTIES, show_vty_opaque_node_properties);
    (BGP_NLRI_TLV_NODE_NAME, show_vty_node_name);
    (BGP_NLRI_TLV_IS_IS_AREA_IDENTIFIER, show_vty_is_is_area_identifier);
    (BGP_NLRI_TLV_IPV4_ROUTER_ID_OF_LOCAL_NODE,
     show_vty_ipv4_router_id_of_local_node);
    (BGP_NLRI_TLV_IPV6_ROUTER_ID_OF_LOCAL_NODE,
     show_vty_ipv6_router_id_of_local_node);
    (BGP_NLRI_TLV_IPV4_ROUTER_ID_OF_REMOTE_NODE,
     show_vty_ipv4_router_id_of_remote_node);
    (BGP_NLRI_TLV_IPV6_ROUTER_ID_OF_REMOTE_NODE,
     show_vty_ipv6_router_id_of_remote_node);
    (BGP_NLRI_TLV_ADMINISTRATIVE_GROUP_COLOR, show_vty_admin_grp_color);
    (BGP_NLRI_TLV_MAX_LINK_BANDWIDTH, show_vty_max_link_bw);
    (BGP_NLRI_TLV_MAX_RESERVABLE_LINK_BANDWIDTH, show_vty_max_rsv_bw);
    (BGP_NLRI_TLV_UNRESERVED_BANDWIDTH, show_vty_unrsv_bw);
    (BGP_NLRI_TLV_TE_DEFAULT_METRIC, show_vty_te_metric);
    (BGP_NLRI_TLV_LINK_PROTECTION_TYPE, show_vty_link_protection_type);
    (BGP_NLRI_TLV_MPLS_PROTOCOL_MASK, show_vty_mpls_protocol_mask);
    (BGP_NLRI_TLV_IGP_METRIC, show_vty_igp_metric);
    (BGP_NLRI_TLV_SHARED_RISK_LINK_GROUP, show_vty_shared_risk_link_group);
    (BGP_NLRI_TLV_OPAQUE_LINK_ATTRIBUTE, show_vty_opaque_link_attribute);
    (BGP_NLRI_TLV_LINK_NAME_ATTRIBUTE, show_vty_link_name_attribute);
    (BGP_NLRI_TLV_IGP_FLAGS, show_vty_bgp_nlri_tlv_igp_flags);
    (BGP_NLRI_TLV_ROUTE_TAG, show_vty_bgp_nlri_tlv_route_tag);
    (BGP_NLRI_TLV_EXTENDED_TAG, show_vty_bgp_nlri_tlv_extended_tag);
    (BGP_NLRI_TLV_PREFIX_METRIC, show_vty_bgp_nlri_tlv_prefix_metric);
    (BGP_NLRI_TLV_OSPF_FORWARDING_ADDRESS,
     show_bgp_nlri_tlv_ospf_fowarding_adress);
    (BGP_NLRI_TLV_OPAQUE_PREFIX_ATTRIBUTE,
     show_bgp_nlri_tlv_opaque_prefix_attribute) ].

Fixpoint lookup (cases : list (Z * (nat -> W Z))) (type : Z)
  : option (nat -> W Z) :=
  match cases with
  | [] => None
  | (code, f) :: rest => if type =? code then Some f else lookup rest type
  end.

(** [switch (ntohs(tlvh->nlri_type)) { ... default: ... }]: the number the
    formatter returns. *)
Definition render_tlv (tlvh : nat) : W Z :=
  ty <- nlri_type tlvh ;;
  match lookup registry (ntohs ty) with
  | Some formatter => formatter tlvh
  | None => show_vty_unknown_tlv tlvh
  end.

(** One pass of the [for] loop: the body, [sum += ...] on a [uint16_t], and
    the step [tlvh = BGP_TLV_HDR_NEXT(tlvh)] ([next] is never set). *)
Definition walker_iteration (tlvh : nat) (sum : Z) : W (nat * Z) :=
  r <- render_tlv tlvh ;;
  let sum' := (sum + r) mod 65536 in
  next <- BGP_TLV_HDR_NEXT tlvh ;;
  ret (next, sum').

(** [for (; sum < te->header.nlri_length; ...)], with [fuel] passes
    allowed. *)
Fixpoint walk (fuel : nat) (tlvh : nat) (sum : Z) : W Z :=
  match fuel with
  | O => fail
  | S fuel' =>
      total <- nlri_length 0 ;;
      if sum <? total then
        ns <- walker_iteration tlvh sum ;;
        walk fuel' (fst ns) (snd ns)
      else ret sum
  end.

(** The loop from [tlvh] on. A pass reads the header at [tlvh] and moves
    [tlvh] at least four bytes on, so the bytes of [mem] from [tlvh] on
    bound the number of passes, and the fuel given here never runs out. *)
Definition walk_from (tlvh : nat) (sum : Z) : W Z :=
  walk (S (List.length mem - tlvh)) tlvh sum.

Definition show_bgp_linkstate_print_detail : W Z :=
  print (zlog_debug "BGP-LS: Show database TE detail" []) ;;;
  ty <- nlri_type 0 ;;
  if ty =? 0 then ret CMD_WARNING
  else walk_from 0 0.

(** The size of the TLV at [tlvh] as [BGP_TLV_SIZE] computes it from the
    length field on the wire. *)
Definition tlv_size (tlvh : nat) : nat :=
  (4 + BGP_TLV_BODY_SIZE (Z.to_nat (be_value (firstn 2 (skipn (tlvh + 2) mem)))))%nat.

End Platform.

Definition start : wstate := mkWstate [] [].

(** A type code with a case of its own in the [switch]. *)
Definition registered (type : Z) : bool :=
  existsb (Z.eqb type)
    [BGP_NLRI_TLV_MULTI_TOPOLOGY_ID; BGP_NLRI_TLV_NODE_FLAG_BITS;
     BGP_NLRI_TLV_OPAQUE_NODE_PROPERTIES; BGP_NLRI_TLV_NODE_NAME;
     BGP_NLRI_TLV_IS_IS_AREA_IDENTIFIER;
     BGP_NLRI_TLV_IPV4_ROUTER_ID_OF_LOCAL_NODE;
     BGP_NLRI_TLV_IPV6_ROUTER_ID_OF_LOCAL_NODE;
     BGP_NLRI_TLV_IPV4_ROUTER_ID_OF_REMOTE_NODE;
     BGP_NLRI_TLV_IPV6_ROUTER_ID_OF_REMOTE_NODE;
     BGP_NLRI_TLV_ADMINISTRATIVE_GROUP_COLOR;
     BGP_NLRI_TLV_MAX_LINK_BANDWIDTH;
     BGP_NLRI_TLV_MAX_RESERVABLE_LINK_BANDWIDTH;
     BGP_NLRI_TLV_UNRESERVED_BANDWIDTH; BGP_NLRI_TLV_TE_DEFAULT_METRIC;
     BGP_NLRI_TLV_LINK_PROTECTION_TYPE; BGP_NLRI_TLV_MPLS_PROTOCOL_MASK;
     BGP_NLRI_TLV_IGP_METRIC; BGP_NLRI_TLV_SHARED_RISK_LINK_GROUP;
     BGP_NLRI_TLV_OPAQUE_LINK_ATTRIBUTE; BGP_NLRI_TLV_LINK_NAME_ATTRIBUTE;
     BGP_NLRI_TLV_IGP_FLAGS; BGP_NLRI_TLV_ROUTE_TAG;
     BGP_NLRI_TLV_EXTENDED_TAG; BGP_NLRI_TLV_PREFIX_METRIC;
     BGP_NLRI_TLV_OSPF_FORWARDING_ADDRESS;
     BGP_NLRI_TLV_OPAQUE_PREFIX_ATTRIBUTE].

(** The 16-bit field at [off] as it stands on the wire (network order). *)
Definition wire16 (mem : list byte) (off : nat) : Z :=
  be_value (firstn 2 (skipn off mem)).

(** The byte a [vty_out(vty, " %#.2x", v[i])] of the dump loop prints;
    nothing for any other line. *)
Definition dumped (e : sink_event) : list Z :=
  match e with
  | vty_out fmt [b] => if String.eqb fmt " %#.2x" then [b] else []
  | _ => []
  end.

(** A line that goes where [vty] says: to the terminal when it is set, to
    the log when it is not. *)
Definition to_sink (vty : bool) (e : sink_event) : bool :=
  match e with
  | vty_out _ _ => vty
  | zlog_debug _ _ => negb vty
  end.

(** [writes_to vty m]: what [m] prints is appended to the output, and every
    line of it goes where [vty] says. *)
Definition writes_to {A} (vty : bool) (m : W A) : Prop :=
  forall st a st', m st = Some (a, st') ->
    exists l, out st' = out st ++ l /\ forallb (to_sink vty) l = true.


(** The byte at [off], as a number. *)
Definition wire8 (mem : list byte) (off : nat) : Z :=
  be_value (firstn 1 (skipn off mem)).

(** The bytes of an address at [off]. *)
Definition addr_at (mem : list byte) (off n : nat) : list Z :=
  map (fun b => Z.of_N (Byte.to_N b)) (firstn n (skipn off mem)).

(** ** Notions the properties are stated with *)

(** [returns_only m r]: when [m] returns, it returns [r]. *)
Definition returns_only {A} (m : W A) (r : A) : Prop :=
  forall st a st', m st = Some (a, st') -> a = r.

(** The walker between two loop tests: where [tlvh] points, the running
    total, and what has been read and printed. *)
Definition config : Type := (nat * Z * wstate)%type.

Section Passes.
Variable host : endianness.
Variable sizeof_pointer : Z.
Variable BGP_TLV_BODY_SIZE : nat -> nat.
Variable mem : list byte.
Variable vty : bool.

(** One pass of the loop: the test succeeds and the body runs. *)
Inductive pass : config -> config -> Prop :=
| pass_intro tlvh sum st total st1 tlvh' sum' st2 :
    nlri_length host mem 0 st = Some (total, st1) ->
    sum < total ->
    walker_iteration host sizeof_pointer BGP_TLV_BODY_SIZE mem vty tlvh sum st1
      = Some ((tlvh', sum'), st2) ->
    pass (tlvh, sum, st) (tlvh', sum', st2).


End Passes.

(** The two candidates for [BGP_TLV_BODY_SIZE]: the declared length, and
    the declared length rounded up to a multiple of four. *)
Definition body_exact (n : nat) : nat := n.
Definition body_roundup (n : nat) : nat := (4 * ((n + 3) / 4))%nat.

(** ** Reads and running total, as the specification words them *)



(** ** Attributes used in the examples *)

(** An attribute that is one Unreserved Bandwidth TLV (type 1091) of
    declared length 8, in a buffer of 40 bytes. *)
Definition unreserved_bw_attribute : list byte :=
  bytes ([4; 67; 0; 8] ++ repeat 170 36).

(** An attribute whose header has an unregistered type (1) and declared
    length 16, followed by three more unknown TLVs of length 0. *)
Definition unknown_chain_attribute : list byte :=
  bytes ([0; 1; 0; 16] ++ repeat 0 16 ++
         [0; 2; 0; 0] ++ [0; 3; 0; 0] ++ [0; 3; 0; 0]).





(** A line of the unreserved-bandwidth formatter: the two values of
    indices [i] and [i + 1]. *)
Definition unrsv_line (host : endianness) (mem : list byte) (vty : bool)
  (tlvh i : nat) : sink_event :=
  (if vty
   then vty_out "      [%d]: %g (Bytes/sec),\t[%d]: %g (Bytes/sec)\n"
   else zlog_debug "        [%d]: %g (Bytes/sec), [%d]: %g (Bytes/sec)")
    [Z.of_nat i;
     ntohf host (host_value host (firstn 4 (skipn (tlvh + 4 + 4 * i) mem)));
     Z.of_nat (i + 1);
     ntohf host
       (host_value host (firstn 4 (skipn (tlvh + 4 + 4 * (i + 1)) mem)))].

End Walker.

(* ================================================================== *)
(** * Properties of [lib_isis_format_id]                               *)
(* ================================================================== *)

Section IsisFacts.
Import Isis.

Lemma fmt_02x_no_nul (b : byte) : no_nul (fmt_02x b).
Proof. destruct b; repeat constructor. Qed.

Lemma fmt_02x_shape (b : byte) :
  exists h l, fmt_02x b = [h; l] /\
              Ascii.eqb h NUL = false /\ Ascii.eqb l NUL = false.
Proof. destruct b; do 2 eexists; repeat split. Qed.

Lemma c_string_app (l r : list ascii) :
  no_nul l -> c_string (l ++ NUL :: r) = l.
Proof.
  induction 1 as [|c l Hc _ IH]; simpl.
  - reflexivity.
  - rewrite Hc, IH. reflexivity.
Qed.

Lemma overwrite_length (buf w : list ascii) :
  List.length (overwrite buf w) = List.length buf.
Proof.
  revert buf; induction w as [|x w IH]; intros [|c b]; simpl; auto.
Qed.

Lemma write_at_length (buf : list ascii) (off : nat) (w : list ascii) :
  List.length (write_at buf off w) = List.length buf.
Proof.
  revert buf; induction off as [|o IH]; intros buf; cbn [write_at].
  - apply overwrite_length.
  - destruct buf; simpl; auto.
Qed.

Lemma snprintf_length (buf : list ascii) (off size : nat) (s : list ascii) :
  List.length (snprintf buf off size s) = List.length buf.
Proof. destruct size; simpl; auto using write_at_length. Qed.

Lemma format_into_length (rv : list ascii) id len :
  List.length (format_into rv id len) = List.length rv.
Proof.
  unfold format_into. destruct id as [id|].
  - destruct (len <? 6); [apply snprintf_length|].
    destruct (7 <? len), (6 <? len); rewrite ?snprintf_length; reflexivity.
  - apply snprintf_length.
Qed.

(** A buffer of [FORMAT_ID_SIZE] characters, spelled out. *)
Lemma buffer_21 (rv : list ascii) :
  List.length rv = FORMAT_ID_SIZE ->
  exists c0 c1 c2 c3 c4 c5 c6 c7 c8 c9 c10 c11 c12 c13 c14 c15 c16 c17 c18
         c19 c20,
    rv = [c0; c1; c2; c3; c4; c5; c6; c7; c8; c9; c10; c11; c12; c13; c14;
          c15; c16; c17; c18; c19; c20].
Proof.
  unfold FORMAT_ID_SIZE. intros H.
  do 21 (destruct rv as [|? rv]; [discriminate H|]).
  destruct rv; [|discriminate H].
  repeat eexists.
Qed.

Lemma c_string_no_nul_cons (c : ascii) (l : list ascii) :
  Ascii.eqb c NUL = false -> c_string (c :: l) = c :: c_string l.
Proof. intros H; simpl; rewrite H; reflexivity. Qed.

(** The text left in the buffer is the text of the specification, whatever
    the buffer held before. *)
Lemma format_into_text (rv : list ascii) id len :
  List.length rv = FORMAT_ID_SIZE ->
  string_of_list_ascii (c_string (format_into rv id len)) = spec_text id len.
Proof.
  intros H. destruct (buffer_21 rv H) as
    (c0 & c1 & c2 & c3 & c4 & c5 & c6 & c7 & c8 & c9 & c10 & c11 & c12 & c13
     & c14 & c15 & c16 & c17 & c18 & c19 & c20 & ->).
  unfold format_into, spec_text.
  destruct id as [id|]; [|reflexivity].
  destruct (Nat.ltb_spec len 6); [reflexivity|].
  f_equal.
  destruct (fmt_02x_shape (id_at id 0)) as (h0 & l0 & -> & ? & ?).
  destruct (fmt_02x_shape (id_at id 1)) as (h1 & l1 & -> & ? & ?).
  destruct (fmt_02x_shape (id_at id 2)) as (h2 & l2 & -> & ? & ?).
  destruct (fmt_02x_shape (id_at id 3)) as (h3 & l3 & -> & ? & ?).
  destruct (fmt_02x_shape (id_at id 4)) as (h4 & l4 & -> & ? & ?).
  destruct (fmt_02x_shape (id_at id 5)) as (h5 & l5 & -> & ? & ?).
  destruct (fmt_02x_shape (id_at id 6)) as (h6 & l6 & -> & ? & ?).
  destruct (fmt_02x_shape (id_at id 7)) as (h7 & l7 & -> & ? & ?).
  destruct (Nat.ltb_spec 7 len), (Nat.ltb_spec 6 len); try lia;
    cbn [snprintf FORMAT_ID_SIZE Nat.sub
    firstn app write_at overwrite];
    repeat (rewrite c_string_no_nul_cons by (assumption || reflexivity));
    reflexivity.
Qed.

Lemma ring_4 (ring : list (list ascii)) :
  List.length ring = FORMAT_BUF_COUNT ->
  exists b0 b1 b2 b3, ring = [b0; b1; b2; b3].
Proof.
  unfold FORMAT_BUF_COUNT. intros H.
  do 4 (destruct ring as [|? ring]; [discriminate H|]).
  destruct ring; [|discriminate H]. repeat eexists.
Qed.

Lemma next_buf_lt (cur : nat) : next_buf cur < FORMAT_BUF_COUNT.
Proof.
  unfold next_buf, FORMAT_BUF_COUNT.
  destruct (Nat.leb_spec 4 (S cur)); lia.
Qed.

(** One call: the statics stay well-shaped, the chosen buffer is the next of
    the ring, and no other buffer is touched. *)
Lemma lib_isis_format_id_step (st : format_state) id len :
  wf_state st ->
  let r := lib_isis_format_id st id len in
  wf_state (snd r) /\
  fst r = next_buf (cur_buf st) /\
  cur_buf (snd r) = fst r /\
  string_at (snd r) (fst r) = spec_text id len /\
  forall j, j <> fst r ->
    ring_at (buf_ring (snd r)) j = ring_at (buf_ring st) j.
Proof.
  intros (Hlen & Hall & Hcur).
  destruct st as [ring cur]; simpl in *.
  destruct (ring_4 ring Hlen) as (b0 & b1 & b2 & b3 & ->).
  inversion_clear Hall as [|? ? L0 Hall1].
  inversion_clear Hall1 as [|? ? L1 Hall2].
  inversion_clear Hall2 as [|? ? L2 Hall3].
  inversion_clear Hall3 as [|? ? L3 _].
  unfold FORMAT_BUF_COUNT in Hcur.
  assert (Hc : cur = 0 \/ cur = 1 \/ cur = 2 \/ cur = 3) by lia.
  unfold lib_isis_format_id, string_at, wf_state; simpl.
  destruct Hc as [-> | [-> | [-> | ->]]]; cbn [next_buf FORMAT_BUF_COUNT
    Nat.leb ring_at nth update_buf firstn skipn app List.length];
    (split; [split; [reflexivity|split; [|unfold FORMAT_BUF_COUNT; lia]];
             repeat constructor; rewrite ?format_into_length; assumption|]);
    (split; [reflexivity|]); (split; [reflexivity|]);
    (split; [apply format_into_text; assumption|]);
    intros j Hj; do 4 (destruct j as [|j]; [reflexivity || congruence|]);
    destruct j; reflexivity.
Qed.

(** The buffer index after [k] further calls. *)
Lemma next_buf_cases (cur : nat) :
  cur < FORMAT_BUF_COUNT ->
  (cur = 0 /\ next_buf cur = 1) \/ (cur = 1 /\ next_buf cur = 2) \/
  (cur = 2 /\ next_buf cur = 3) \/ (cur = 3 /\ next_buf cur = 0).
Proof.
  unfold FORMAT_BUF_COUNT; intros H.
  assert (Hc : cur = 0 \/ cur = 1 \/ cur = 2 \/ cur = 3) by lia.
  destruct Hc as [-> | [-> | [-> | ->]]]; cbn; tauto.
Qed.

(** A sequence of calls keeps the statics well-shaped and moves the current
    index once per call. *)
Lemma calls_wf (args : list (option (list byte) * nat)) :
  forall st, wf_state st ->
    wf_state (calls st args) /\
    cur_buf (calls st args) =
      Nat.iter (List.length args) next_buf (cur_buf st).
Proof.
  induction args as [|[id len] args IH]; intros st Hwf;
    cbn [calls List.length].
  - simpl; auto.
  - destruct (lib_isis_format_id_step id len Hwf) as (Hwf1 & Hrv & Hcur & _).
    destruct (IH _ Hwf1) as (Hwf2 & Hcur2).
    split; [assumption|].
    rewrite Hcur2, Hcur, Hrv. symmetry. apply Nat.iter_succ_r.
Qed.

(** A buffer that none of the calls selects keeps its contents. *)
Lemma calls_keep (args : list (option (list byte) * nat)) :
  forall st p,
    wf_state st ->
    (forall k, 1 <= k <= List.length args ->
               Nat.iter k next_buf (cur_buf st) <> p) ->
    ring_at (buf_ring (calls st args)) p = ring_at (buf_ring st) p.
Proof.
  induction args as [|[id len] args IH]; intros st p Hwf Hk;
    cbn [calls List.length] in *.
  - reflexivity.
  - destruct (lib_isis_format_id_step id len Hwf) as
      (Hwf1 & Hrv & Hcur & _ & Hkeep).
    rewrite IH; [|assumption|].
    + apply Hkeep. rewrite Hrv. intros E.
      apply (Hk 1); [simpl; lia|]. simpl. congruence.
    + intros k Hkk. rewrite Hcur, Hrv.
      specialize (Hk (S k)). rewrite Nat.iter_succ_r in Hk.
      apply Hk. simpl. lia.
Qed.

Lemma iter_next_buf_ne (cur k : nat) :
  cur < FORMAT_BUF_COUNT -> 1 <= k <= 3 ->
  Nat.iter k next_buf cur <> cur.
Proof.
  unfold FORMAT_BUF_COUNT. intros Hc Hk.
  assert (Hc' : cur = 0 \/ cur = 1 \/ cur = 2 \/ cur = 3) by lia.
  assert (Hk' : k = 1 \/ k = 2 \/ k = 3) by lia.
  destruct Hc' as [-> | [-> | [-> | ->]]];
    destruct Hk' as [-> | [-> | ->]]; cbn; discriminate.
Qed.

Lemma iter_next_buf_4 (cur : nat) :
  cur < FORMAT_BUF_COUNT -> Nat.iter 4 next_buf cur = cur.
Proof.
  unfold FORMAT_BUF_COUNT. intros Hc.
  assert (Hc' : cur = 0 \/ cur = 1 \/ cur = 2 \/ cur = 3) by lia.
  destruct Hc' as [-> | [-> | [-> | ->]]]; reflexivity.
Qed.

(** C10. [lib_isis_format_id] leaves in the buffer it returns the text
    "unknown" when [id] is null, "Short ID" when [id] is not null and
    [len < 6], and otherwise the first six bytes as "xxxx.xxxx.xxxx" with
    ".xx" of [id[6]] appended when [len > 6] and "-xx" of [id[7]] appended
    when [len > 7]. The buffer returned is the next one of the ring of four
    statics: its contents, and so the returned string, stay what they were
    during the next three calls (whatever their arguments), and the fourth
    call after it returns the same buffer, rewritten with its own text. *)
Theorem lib_isis_format_id_ring (st : format_state)
  (id : option (list byte)) (len : nat) :
  wf_state st ->
  let rv := fst (lib_isis_format_id st id len) in
  let st1 := snd (lib_isis_format_id st id len) in
  string_at st1 rv = spec_text id len /\
  rv = next_buf (cur_buf st) /\ rv < FORMAT_BUF_COUNT /\
  (forall args, List.length args <= 3 ->
     ring_at (buf_ring (calls st1 args)) rv = ring_at (buf_ring st1) rv /\
     string_at (calls st1 args) rv = spec_text id len) /\
  (forall args id' len', List.length args = 3 ->
     let r4 := lib_isis_format_id (calls st1 args) id' len' in
     fst r4 = rv /\ string_at (snd r4) rv = spec_text id' len').
Proof.
  intros Hwf rv st1.
  destruct (lib_isis_format_id_step id len Hwf) as
    (Hwf1 & Hrv & Hcur & Htext & _).
  fold rv in Hrv, Hcur, Htext. fold st1 in Hwf1, Hcur, Htext.
  assert (Hlt : rv < FORMAT_BUF_COUNT) by (rewrite Hrv; apply next_buf_lt).
  assert (Hkeep : forall args, List.length args <= 3 ->
            ring_at (buf_ring (calls st1 args)) rv =
            ring_at (buf_ring st1) rv).
  { intros args Hargs. apply calls_keep; [assumption|].
    intros k Hk. rewrite Hcur. apply iter_next_buf_ne; [assumption|lia]. }
  repeat split; try assumption.
  - apply Hkeep; assumption.
  - unfold string_at in *. rewrite Hkeep by assumption. exact Htext.
  - destruct (calls_wf args Hwf1) as (Hwf4 & Hcur4).
    destruct (lib_isis_format_id_step id' len' Hwf4) as (_ & Hrv4 & _).
    rewrite Hrv4, Hcur4, Hcur, H.
    change (Nat.iter 4 next_buf rv = rv).
    apply iter_next_buf_4; assumption.
  - destruct (calls_wf args Hwf1) as (Hwf4 & Hcur4).
    destruct (lib_isis_format_id_step id' len' Hwf4) as
      (_ & Hrv4 & _ & Htext4 & _).
    replace rv with (fst (lib_isis_format_id (calls st1 args) id' len')).
    + exact Htext4.
    + rewrite Hrv4, Hcur4, Hcur, H.
      change (Nat.iter 4 next_buf rv = rv).
      apply iter_next_buf_4; assumption.
Qed.

Lemma initial_state_wf : wf_state initial_state.
Proof.
  unfold wf_state, initial_state, FORMAT_BUF_COUNT, FORMAT_ID_SIZE; simpl.
  repeat split; [repeat constructor | lia].
Defined.

Lemma lib_isis_format_id_ring_witness :
  wf_state initial_state /\
  let id := Some [x49; x00; x01; xab; xcd; xef; x07; x1f] in
  let rv := fst (lib_isis_format_id initial_state id 8) in
  let st1 := snd (lib_isis_format_id initial_state id 8) in
  string_at st1 rv = spec_text id 8 /\
  rv = next_buf (cur_buf initial_state) /\ rv < FORMAT_BUF_COUNT /\
  (forall args, List.length args <= 3 ->
     ring_at (buf_ring (calls st1 args)) rv = ring_at (buf_ring st1) rv /\
     string_at (calls st1 args) rv = spec_text id 8) /\
  (forall args id' len', List.length args = 3 ->
     let r4 := lib_isis_format_id (calls st1 args) id' len' in
     fst r4 = rv /\ string_at (snd r4) rv = spec_text id' len').
Proof.
  split.
  - exact initial_state_wf.
  - exact (@lib_isis_format_id_ring initial_state
             (Some [x49; x00; x01; xab; xcd; xef; x07; x1f]) 8
             initial_state_wf).
Defined.

Example format_id_system_id :
  let r := lib_isis_format_id initial_state
             (Some [x49; x00; x01; xab; xcd; xef]) 6 in
  fst r = 1 /\ string_at (snd r) 1 = "4900.01ab.cdef"%string.
Proof. split; reflexivity. Qed.

Example format_id_lsp_id :
  let r := lib_isis_format_id initial_state
             (Some [x49; x00; x01; xab; xcd; xef; x07; x1f]) 8 in
  string_at (snd r) (fst r) = "4900.01ab.cdef.07-1f"%string.
Proof. reflexivity. Qed.

Example format_id_short_after_long :
  let st1 := calls initial_state
               [(Some [x49; x00; x01; xab; xcd; xef; x07; x1f], 8);
                (None, 0); (None, 0); (None, 0)] in
  let r := lib_isis_format_id st1 (Some [x01]) 1 in
  fst r = 1 /\ string_at (snd r) 1 = "Short ID"%string.
Proof. split; reflexivity. Qed.

End IsisFacts.

(* ================================================================== *)
(** * Further properties of lib/isis.c                                 *)
(* ================================================================== *)

Section IsisMoreFacts.
Import Isis.

(** ** Strings in buffers *)

Lemma c_string_no_nul (l : list ascii) : no_nul (c_string l).
Proof.
  induction l as [|c l IH]; simpl; [constructor|].
  destruct (Ascii.eqb c NUL) eqn:E; constructor; assumption.
Qed.

Lemma c_string_length_le (l : list ascii) :
  List.length (c_string l) <= List.length l.
Proof.
  induction l as [|c l IH]; simpl; [lia|].
  destruct (Ascii.eqb c NUL); simpl; lia.
Qed.

(** A buffer whose string is shorter than the buffer is that string, a
    NUL, and a rest. *)
Lemma c_string_split (l : list ascii) :
  List.length (c_string l) < List.length l ->
  exists r, l = c_string l ++ NUL :: r.
Proof.
  induction l as [|c l IH]; simpl; [lia|].
  destruct (Ascii.eqb_spec c NUL) as [->|N]; simpl.
  - intros _. exists l. reflexivity.
  - intros H. destruct IH as (r & E); [lia|].
    exists r. rewrite <- E. reflexivity.
Qed.

Lemma write_at_app (t r w : list ascii) :
  write_at (t ++ r) (List.length t) w = t ++ overwrite r w.
Proof.
  induction t as [|c t IH]; simpl; [reflexivity|]. rewrite IH. reflexivity.
Qed.

Lemma overwrite_fits (r w : list ascii) :
  List.length w <= List.length r ->
  overwrite r w = w ++ skipn (List.length w) r.
Proof.
  revert r; induction w as [|x w IH]; intros r H; simpl.
  - destruct r; reflexivity.
  - destruct r as [|c r]; simpl in *; [lia|]. rewrite IH by lia. reflexivity.
Qed.

Lemma no_nul_app (a b : list ascii) : no_nul a -> no_nul b -> no_nul (a ++ b).
Proof. unfold no_nul. intros; apply Forall_app; auto. Qed.

Lemma no_nul_firstn (n : nat) (a : list ascii) : no_nul a -> no_nul (firstn n a).
Proof.
  unfold no_nul. intros H. revert n.
  induction H as [|c a Hc _ IH]; intros [|n]; simpl; constructor; auto.
Qed.

Lemma firstn_firstn_app {A} (n : nat) (l m : list A) :
  firstn n (firstn n l ++ m) = firstn n (l ++ m).
Proof.
  revert l; induction n as [|n IH]; intros l; [reflexivity|].
  destruct l as [|c l]; [reflexivity|].
  simpl. rewrite IH. reflexivity.
Qed.

(** [strlcat] on a buffer of [size] characters that holds a string: the
    new string is the old one and [src], cut to [size - 1] characters. *)
Lemma strlcat_text (buf src : list ascii) (size : nat) :
  List.length buf = size ->
  List.length (c_string buf) < size ->
  no_nul src ->
  List.length (strlcat buf src size) = size /\
  c_string (strlcat buf src size) =
    firstn (size - 1) (c_string buf ++ src).
Proof.
  intros Hlen Hstr Hsrc. unfold strlcat.
  rewrite (firstn_all2 buf) by lia.
  destruct (Nat.ltb_spec (List.length (c_string buf)) size); [|lia].
  split; [rewrite write_at_length; assumption|].
  destruct (c_string_split buf) as (r & E); [lia|].
  set (t := c_string buf) in *.
  set (w := firstn (size - List.length t - 1) src).
  assert (Hw : List.length w <= size - List.length t - 1)
    by (unfold w; rewrite length_firstn; lia).
  assert (Hr : List.length r = size - List.length t - 1).
  { rewrite E in Hlen. rewrite length_app in Hlen. simpl in Hlen. lia. }
  rewrite E at 1. rewrite write_at_app.
  rewrite overwrite_fits by (rewrite length_app; simpl; lia).
  rewrite <- app_assoc. cbn [app].
  rewrite app_assoc.
  rewrite c_string_app.
  2:{ apply no_nul_app; [apply c_string_no_nul|].
      unfold w. apply no_nul_firstn. assumption. }
  unfold w. rewrite firstn_app.
  rewrite (firstn_all2 t) by lia.
  f_equal. f_equal. lia.
Qed.

(** ** [lib_isonet_print] *)

Lemma tbuf_text_pair (b : byte) :
  tbuf_text (fmt_02x b) = fmt_02x b /\
  tbuf_text (fmt_02x b ++ ["."%char]) = fmt_02x b ++ ["."%char] /\
  no_nul (fmt_02x b ++ ["."%char]).
Proof.
  destruct (fmt_02x_shape b) as (h & l & -> & Hh & Hl).
  unfold tbuf_text. cbn. rewrite Hh, Hl. cbn.
  repeat split; repeat constructor; assumption.
Qed.

(** The text one pass of the loop appends. *)
Lemma isonet_loop_text (from : list byte) (n : nat) :
  forall count i buf,
    i + count = n ->
    List.length buf = ISONET_SIZE ->
    List.length (c_string buf) < ISONET_SIZE ->
    let r := isonet_loop count i (Z.of_nat n) from buf in
    List.length r = ISONET_SIZE /\
    c_string r =
      firstn 50
        (c_string buf ++
         List.concat
           (map (fun i => fmt_02x (id_at from i) ++
                          (if Nat.even i && negb (S i =? n) then ["."%char]
                           else []))
                (seq i count))).
Proof.
  induction count as [|c IH]; intros i buf Hn Hlen Hstr; cbn [isonet_loop].
  - split; [assumption|]. cbn [seq map List.concat]. rewrite app_nil_r.
    symmetry. apply firstn_all2. unfold ISONET_SIZE in *. lia.
  - cbv zeta.
    destruct (tbuf_text_pair (id_at from i)) as (T1 & T2 & T3).
    set (piece := fmt_02x (id_at from i) ++
                  (if Nat.even i && negb (S i =? n) then ["."%char] else [])).
    assert (Hpiece :
      (if Nat.odd i then tbuf_text (fmt_02x (id_at from i))
       else if (Z.of_nat i =? Z.of_nat n - 1)%Z
            then tbuf_text (fmt_02x (id_at from i))
            else tbuf_text (fmt_02x (id_at from i) ++ ["."%char])) = piece).
    { unfold piece. rewrite <- Nat.negb_even.
      destruct (Nat.even i); cbn [negb andb].
      - destruct (Z.eqb_spec (Z.of_nat i) (Z.of_nat n - 1)),
                 (Nat.eqb_spec (S i) n); try lia; cbn [negb].
        + rewrite T1, app_nil_r. reflexivity.
        + exact T2.
      - rewrite T1, app_nil_r. reflexivity. }
    rewrite Hpiece.
    assert (Np : no_nul piece).
    { unfold piece. destruct (Nat.even i && negb (S i =? n)); [exact T3|].
      rewrite app_nil_r. apply fmt_02x_no_nul. }
    destruct (strlcat_text buf Hlen Hstr Np) as (L1 & S1).
    destruct (IH (S i) (strlcat buf piece ISONET_SIZE)) as (L2 & S2);
      [lia|assumption| |].
    { rewrite S1, length_firstn. unfold ISONET_SIZE. lia. }
    split; [exact L2|].
    rewrite S2, S1. change (ISONET_SIZE - 1) with 50.
    rewrite firstn_firstn_app. cbn [seq map List.concat].
    fold piece. rewrite <- app_assoc. reflexivity.
Qed.

Lemma overwrite_nul (buf : list ascii) :
  buf <> [] ->
  List.length (overwrite buf [NUL]) = List.length buf /\
  c_string (overwrite buf [NUL]) = [].
Proof.
  destruct buf as [|c b]; [congruence|]. intros _.
  split; [apply overwrite_length|reflexivity].
Qed.

(** The buffer after a call with a non-null [from]. *)
Lemma lib_isonet_print_buffer (isonet : list ascii) (from : list byte)
  (len : Z) :
  List.length isonet = ISONET_SIZE ->
  List.length (snd (lib_isonet_print isonet (Some from) len)) = ISONET_SIZE /\
  c_string (snd (lib_isonet_print isonet (Some from) len)) =
    firstn 50 (isonet_groups from (Z.to_nat len)).
Proof.
  intros Hlen. unfold lib_isonet_print. cbn [fst snd].
  destruct (@overwrite_nul isonet) as (L0 & S0).
  { intros ->. discriminate Hlen. }
  destruct (Z.le_gt_cases len 0) as [Hneg|Hpos].
  - replace (Z.to_nat len) with 0 by lia. cbn [isonet_loop].
    rewrite S0. split; [lia|reflexivity].
  - destruct (@isonet_loop_text from (Z.to_nat len) (Z.to_nat len) 0
                (overwrite isonet [NUL])) as (L & S);
      [reflexivity|lia
      |rewrite S0; cbn [List.length]; unfold ISONET_SIZE; lia|].
    rewrite Z2Nat.id in L, S by lia.
    split; [exact L|]. rewrite S, S0. reflexivity.
Qed.

(** X1. For a non-null [from], [lib_isonet_print] returns the global
    buffer, which keeps its 51 characters and then holds, whatever it held
    before, the first 50 characters of: two hexadecimal digits a byte, with
    a dot behind every byte of even index except the last one. A negative
    [len] gives the empty string. *)
Theorem lib_isonet_print_text (isonet : list ascii) (from : list byte)
  (len : Z) :
  List.length isonet = ISONET_SIZE ->
  let r := lib_isonet_print isonet (Some from) len in
  fst r = isonet_buffer /\
  List.length (snd r) = ISONET_SIZE /\
  isonet_string (fst r) (snd r) =
    string_of_list_ascii (firstn 50 (isonet_groups from (Z.to_nat len))) /\
  ((len <= 0)%Z -> isonet_string (fst r) (snd r) = EmptyString).
Proof.
  intros Hlen r.
  destruct (lib_isonet_print_buffer isonet from len Hlen) as (L & S).
  assert (Hs : isonet_string (fst r) (snd r) =
               string_of_list_ascii (c_string (snd r))) by reflexivity.
  rewrite Hs. unfold r. rewrite S.
  split; [reflexivity|]. split; [exact L|]. split; [reflexivity|].
  intros Hneg. replace (Z.to_nat len) with 0 by lia. reflexivity.
Qed.

Lemma lib_isonet_print_text_witness :
  isonet_string
    (fst (lib_isonet_print (repeat NUL ISONET_SIZE)
            (Some [x49; x00; x01]) 3))
    (snd (lib_isonet_print (repeat NUL ISONET_SIZE)
            (Some [x49; x00; x01]) 3)) =
  string_of_list_ascii (firstn 50 (isonet_groups [x49; x00; x01] 3)).
Proof.
  apply (@lib_isonet_print_text (repeat NUL ISONET_SIZE) [x49; x00; x01] 3).
  reflexivity.
Defined.

Example isonet_area_address :
  let r := lib_isonet_print (repeat NUL ISONET_SIZE)
             (Some [x49; x00; x01]) 3 in
  isonet_string (fst r) (snd r) = "49.0001"%string.
Proof. reflexivity. Qed.

Example isonet_net :
  let r := lib_isonet_print (repeat NUL ISONET_SIZE)
             (Some [x49; x00; x01; x19; x21; x68; x00; x10; x01; x00]) 10 in
  isonet_string (fst r) (snd r) = "49.0001.1921.6800.1001.00"%string.
Proof. reflexivity. Qed.

Lemma isonet_groups_app (from : list byte) (n k : nat) :
  k <= n ->
  isonet_groups from n =
  List.concat
    (map (fun i => fmt_02x (id_at from i) ++
                   (if Nat.even i && negb (S i =? n) then ["."%char] else []))
         (seq 0 k)) ++
  List.concat
    (map (fun i => fmt_02x (id_at from i) ++
                   (if Nat.even i && negb (S i =? n) then ["."%char] else []))
         (seq k (n - k))).
Proof.
  intros H. unfold isonet_groups.
  assert (Hseq : seq 0 n = seq 0 k ++ seq k (n - k)).
  { replace n with (k + (n - k)) at 1 by lia. apply seq_app. }
  rewrite Hseq, map_app, concat_app. reflexivity.
Qed.

(** Behind the twentieth byte nothing changes the first fifty characters. *)
Lemma isonet_groups_first_20 (from : list byte) (n : nat) :
  20 <= n -> firstn 50 (isonet_groups from n) = isonet_groups from 20.
Proof.
  intros H. rewrite (isonet_groups_app from H).
  assert (E : List.concat
               (map (fun i => fmt_02x (id_at from i) ++
                      (if Nat.even i && negb (S i =? n) then ["."%char]
                       else []))
                    (seq 0 20)) = isonet_groups from 20).
  { unfold isonet_groups. f_equal. apply map_ext_in. intros i Hi.
    apply in_seq in Hi.
    destruct (Nat.even i) eqn:Ev; cbn [andb]; [|reflexivity].
    destruct (Nat.eqb_spec (S i) n), (Nat.eqb_spec (S i) 20);
      try reflexivity; try lia.
    subst. assert (i = 19) by lia. subst i. discriminate Ev. }
  rewrite E.
  rewrite firstn_app.
  assert (L : List.length (isonet_groups from 20) = 50) by reflexivity.
  rewrite L, Nat.sub_diag, firstn_O, app_nil_r.
  apply firstn_all2. lia.
Qed.

(** X2. Up to twenty bytes are printed in full: the string has
    [2 * len + len / 2] characters and ends with the two digits of the last
    byte, without a dot behind it. From twenty bytes on the string is the
    one of the first twenty bytes, fifty characters long: what follows is
    dropped in silence. *)
Theorem lib_isonet_print_length (isonet : list ascii) (from : list byte)
  (len : Z) :
  List.length isonet = ISONET_SIZE ->
  let text := c_string (snd (lib_isonet_print isonet (Some from) len)) in
  let n := Z.to_nat len in
  (n <= 20 ->
   text = isonet_groups from n /\
   List.length text = 2 * n + n / 2 /\
   (1 <= n ->
    skipn (List.length text - 2) text = fmt_02x (id_at from (n - 1)))) /\
  (20 <= n ->
   text = isonet_groups from 20 /\ List.length text = 50).
Proof.
  intros Hlen text n.
  destruct (lib_isonet_print_buffer isonet from len Hlen) as (_ & S).
  fold text in S. fold n in S. split.
  - intros Hn.
    assert (F : List.length (isonet_groups from n) = 2 * n + n / 2 /\
                (1 <= n ->
                 skipn (List.length (isonet_groups from n) - 2)
                   (isonet_groups from n) = fmt_02x (id_at from (n - 1)))).
    { clear -Hn.
      do 21 (destruct n as [|n];
             [split; [reflexivity|intros H; first [lia|reflexivity]]|]).
      lia. }
    destruct F as (F1 & F2).
    assert (E : text = isonet_groups from n).
    { rewrite S. apply firstn_all2. rewrite F1.
      assert (n / 2 <= 10) by (apply Nat.Div0.div_le_upper_bound; lia). lia. }
    rewrite E. auto.
  - intros Hn. rewrite S, isonet_groups_first_20 by assumption.
    split; reflexivity.
Qed.

Lemma lib_isonet_print_length_witness :
  c_string (snd (lib_isonet_print (repeat NUL ISONET_SIZE)
                   (Some [x49; x00; x01]) 3)) =
  isonet_groups [x49; x00; x01] 3.
Proof.
  apply (@lib_isonet_print_length (repeat NUL ISONET_SIZE) [x49; x00; x01] 3
           eq_refl).
  vm_compute. lia.
Defined.

(** X3. There is one buffer for all calls: a string obtained from an
    earlier call reads, after the next call, as the text of that next call,
    and as the empty string when the next call was made with a null
    pointer, which returns the literal "unknown" but has emptied the
    buffer first. *)
Theorem lib_isonet_print_overwrites (isonet : list ascii)
  (from1 : list byte) (len1 : Z) (from2 : option (list byte)) (len2 : Z) :
  List.length isonet = ISONET_SIZE ->
  let r1 := lib_isonet_print isonet (Some from1) len1 in
  let r2 := lib_isonet_print (snd r1) from2 len2 in
  isonet_string (fst r1) (snd r2) =
    match from2 with
    | None => EmptyString
    | Some f2 =>
        string_of_list_ascii (firstn 50 (isonet_groups f2 (Z.to_nat len2)))
    end /\
  (from2 = None -> isonet_string (fst r2) (snd r2) = "unknown"%string).
Proof.
  intros Hlen r1 r2.
  destruct (lib_isonet_print_buffer isonet from1 len1 Hlen) as (L1 & _).
  fold r1 in L1. split.
  - change (fst r1) with isonet_buffer. unfold isonet_string.
    destruct from2 as [f2|].
    + destruct (lib_isonet_print_buffer (snd r1) f2 len2 L1) as (_ & S2).
      fold r2 in S2. rewrite S2. reflexivity.
    + unfold r2, lib_isonet_print at 1. cbn [snd].
      destruct (@overwrite_nul (snd r1)) as (_ & S0).
      { intros E. rewrite E in L1. discriminate L1. }
      rewrite S0. reflexivity.
  - intros ->. reflexivity.
Qed.

Lemma lib_isonet_print_overwrites_witness :
  isonet_string
    (fst (lib_isonet_print (repeat NUL ISONET_SIZE) (Some [x49; x00; x01]) 3))
    (snd (lib_isonet_print
            (snd (lib_isonet_print (repeat NUL ISONET_SIZE)
                    (Some [x49; x00; x01]) 3))
            None 0)) = EmptyString.
Proof.
  apply (@lib_isonet_print_overwrites (repeat NUL ISONET_SIZE)
           [x49; x00; x01] 3 None 0 eq_refl).
Defined.

(** ** [lib_isis_format_id] can be read back *)

Lemma unhex_fmt_02x (b : byte) : unhex (fmt_02x b) = Some b.
Proof. destruct b; reflexivity. Qed.

Lemma fmt_02x_inj (b b' : byte) : fmt_02x b = fmt_02x b' -> b = b'.
Proof.
  intros E. apply (f_equal unhex) in E. rewrite !unhex_fmt_02x in E.
  congruence.
Qed.

Lemma string_of_list_ascii_inj (l l' : list ascii) :
  string_of_list_ascii l = string_of_list_ascii l' -> l = l'.
Proof.
  intros E. apply (f_equal list_ascii_of_string) in E.
  rewrite !list_ascii_of_string_of_list_ascii in E. exact E.
Qed.

Ltac shape_at id k :=
  let h := fresh "h" in let l := fresh "l" in let E := fresh "E" in
  destruct (fmt_02x_shape (id_at id k)) as (h & l & E & _ & _);
  rewrite E in *.

Lemma spec_text_inj (id id' : list byte) (len len' : nat) :
  6 <= len -> 6 <= len' ->
  spec_text (Some id) len = spec_text (Some id') len' ->
  Nat.min len 8 = Nat.min len' 8 /\
  forall i, i < Nat.min len 8 -> id_at id i = id_at id' i.
Proof.
  intros H6 H6' E. unfold spec_text in E.
  destruct (Nat.ltb_spec len 6); [lia|].
  destruct (Nat.ltb_spec len' 6); [lia|].
  apply string_of_list_ascii_inj in E.
  assert (F : forall k, fmt_02x (id_at id k) = fmt_02x (id_at id' k) ->
                        id_at id k = id_at id' k)
    by (intros k; apply fmt_02x_inj).
  pose proof (F 0) as F0. pose proof (F 1) as F1. pose proof (F 2) as F2.
  pose proof (F 3) as F3. pose proof (F 4) as F4. pose proof (F 5) as F5.
  pose proof (F 6) as F6. pose proof (F 7) as F7. clear F.
  shape_at id 0. shape_at id 1. shape_at id 2. shape_at id 3.
  shape_at id 4. shape_at id 5. shape_at id 6. shape_at id 7.
  shape_at id' 0. shape_at id' 1. shape_at id' 2. shape_at id' 3.
  shape_at id' 4. shape_at id' 5. shape_at id' 6. shape_at id' 7.
  destruct (Nat.ltb_spec 6 len), (Nat.ltb_spec 7 len),
           (Nat.ltb_spec 6 len'), (Nat.ltb_spec 7 len');
    try lia; cbn [app] in E; try discriminate E;
    injection E; intros; subst;
    (split; [lia|]); intros k Hk;
    do 8 (destruct k as [|k]; [first [solve [auto] | lia]|]); lia.
Qed.

(** X4. The text of an identifier of at least six bytes tells the bytes:
    when two calls return the same string, the two identifiers show the
    same number of bytes (six, seven or eight) and agree on every byte
    shown. *)
Theorem lib_isis_format_id_injective (st st' : format_state)
  (id id' : list byte) (len len' : nat) :
  wf_state st -> wf_state st' -> 6 <= len -> 6 <= len' ->
  let r := lib_isis_format_id st (Some id) len in
  let r' := lib_isis_format_id st' (Some id') len' in
  string_at (snd r) (fst r) = string_at (snd r') (fst r') ->
  Nat.min len 8 = Nat.min len' 8 /\
  forall i, i < Nat.min len 8 -> id_at id i = id_at id' i.
Proof.
  intros Hwf Hwf' H6 H6' r r' E.
  destruct (lib_isis_format_id_step (Some id) len Hwf) as (_ & _ & _ & T & _).
  destruct (lib_isis_format_id_step (Some id') len' Hwf')
    as (_ & _ & _ & T' & _).
  fold r in T. fold r' in T'. rewrite T, T' in E.
  exact (@spec_text_inj id id' len len' H6 H6' E).
Qed.

Lemma lib_isis_format_id_injective_witness :
  Nat.min 7 8 = Nat.min 7 8 /\
  forall i, i < Nat.min 7 8 ->
    id_at [x49; x00; x01; xab; xcd; xef; x07] i =
    id_at [x49; x00; x01; xab; xcd; xef; x07; x1f] i.
Proof.
  apply (@lib_isis_format_id_injective initial_state initial_state
           [x49; x00; x01; xab; xcd; xef; x07]
           [x49; x00; x01; xab; xcd; xef; x07; x1f] 7 7
           initial_state_wf initial_state_wf); [lia|lia|reflexivity].
Defined.

End IsisMoreFacts.

(* ================================================================== *)
(** * Properties of the NLRI decoders                                  *)
(* ================================================================== *)

Section DecoderFacts.
Import Stream Nlri.

(** ** Reading from the stream *)

Lemma stream_get_some (n : nat) (s : stream) :
  getp s + n <= endp s ->
  stream_get n s =
    Some (firstn n (skipn (getp s) (data s)), mkStream (data s) (getp s + n)).
Proof.
  intros H. unfold stream_get.
  destruct (Nat.leb_spec (getp s + n) (endp s)); [reflexivity|lia].
Qed.

Lemma stream_get_none (n : nat) (s : stream) :
  endp s < getp s + n -> stream_get n s = None.
Proof.
  intros H. unfold stream_get.
  destruct (Nat.leb_spec (getp s + n) (endp s)); [lia|reflexivity].
Qed.

(** ** How far a decoder step moves the read position *)

Lemma advances_ret {A} (a : A) : advances (ret a) 0 0.
Proof.
  intros st; split.
  - intros a' st' E; inversion E; subst.
    repeat split; try lia. exists []. symmetry; apply app_nil_r.
  - intros _. eexists _, _. reflexivity.
Qed.

Lemma advances_get_getp : advances get_getp 0 0.
Proof.
  intros st; split.
  - intros a' st' E; inversion E; subst.
    repeat split; try lia. exists []. symmetry; apply app_nil_r.
  - intros _. eexists _, _. reflexivity.
Qed.

Lemma advances_set_nlri f : advances (set_nlri f) 0 0.
Proof.
  intros st; split.
  - intros a' st' E; inversion E; subst; simpl.
    repeat split; try lia. exists []. symmetry; apply app_nil_r.
  - intros _. eexists _, _. reflexivity.
Qed.

Lemma advances_zlog_info m : advances (zlog_info m) 0 0.
Proof.
  intros st; split.
  - intros a' st' E; inversion E; subst; simpl.
    repeat split; try lia. eexists; reflexivity.
  - intros _. eexists _, _. reflexivity.
Qed.

Lemma advances_get (n : nat) : advances (get n) n n.
Proof.
  intros st; split.
  - intros a st'. unfold get, on_stream, stream_get.
    destruct (Nat.leb_spec (getp (strm st) + n) (endp (strm st)));
      [|discriminate].
    intros E; inversion E; subst; simpl.
    repeat split; try lia. exists []. symmetry; apply app_nil_r.
  - intros H. unfold get, on_stream. rewrite stream_get_some by assumption.
    eexists _, _. reflexivity.
Qed.

Lemma advances_get_be (n : nat) : advances (on_stream (stream_get_be n)) n n.
Proof.
  intros st; split.
  - intros a st'. unfold on_stream, stream_get_be, stream_get.
    destruct (Nat.leb_spec (getp (strm st) + n) (endp (strm st)));
      [|discriminate].
    intros E; inversion E; subst; simpl.
    repeat split; try lia. exists []. symmetry; apply app_nil_r.
  - intros H. unfold on_stream, stream_get_be.
    rewrite stream_get_some by assumption.
    eexists _, _. reflexivity.
Qed.

Lemma advances_getc : advances getc 1 1.
Proof. apply advances_get_be. Qed.
Lemma advances_getw : advances getw 2 2.
Proof. apply advances_get_be. Qed.
Lemma advances_getq : advances getq 8 8.
Proof. apply advances_get_be. Qed.
Lemma advances_get_ipv4 : advances get_ipv4 4 4.
Proof. apply advances_get. Qed.

Lemma advances_bind {A B} (m : M A) (f : A -> M B) lo1 hi1 lo2 hi2 :
  advances m lo1 hi1 -> (forall a, advances (f a) lo2 hi2) ->
  advances (bind m f) (lo1 + lo2) (hi1 + hi2).
Proof.
  intros Hm Hf st; split.
  - intros b st'. unfold bind.
    destruct (m st) as [[a st1]|] eqn:E1; [|discriminate].
    intros E2.
    destruct (Hm st) as [Hm1 _]. destruct (Hm1 _ _ E1) as (D1 & P1 & l1 & L1).
    destruct (Hf a st1) as [Hf1 _]. destruct (Hf1 _ _ E2) as (D2 & P2 & l2 & L2).
    repeat split; try lia; try congruence.
    exists (l1 ++ l2). rewrite L2, L1. symmetry; apply app_assoc.
  - intros H. unfold bind.
    destruct (Hm st) as [Hm1 Hm2].
    destruct Hm2 as (a & st1 & E1); [lia|].
    rewrite E1.
    destruct (Hm1 _ _ E1) as (D1 & P1 & _).
    destruct (Hf a st1) as [_ Hf2].
    apply Hf2. unfold endp in *. rewrite D1. lia.
Qed.

Lemma advances_weaken {A} (m : M A) lo hi lo' hi' :
  advances m lo hi -> lo' <= lo -> hi <= hi' -> advances m lo' hi'.
Proof.
  intros Hm Hlo Hhi st. destruct (Hm st) as [H1 H2]. split.
  - intros a st' E. destruct (H1 _ _ E) as (D & P & L).
    repeat split; try lia; assumption.
  - intros H. apply H2. lia.
Qed.

Lemma advances_if {A} (b : bool) (m1 m2 : M A) lo hi :
  advances m1 lo hi -> advances m2 lo hi ->
  advances (if b then m1 else m2) lo hi.
Proof. destruct b; auto. Qed.

Lemma bind_inv {A B} (m : M A) (f : A -> M B) st b st' :
  bind m f st = Some (b, st') ->
  exists a st1, m st = Some (a, st1) /\ f a st1 = Some (b, st').
Proof.
  unfold bind. destruct (m st) as [[a st1]|]; [|discriminate].
  intros E. exists a, st1. auto.
Qed.

Lemma advances_bind_exact {A B} (m : M A) (f : A -> M B) n lo hi :
  advances m n n -> n <= hi ->
  (forall a, advances (f a) (lo - n) (hi - n)) ->
  advances (bind m f) lo hi.
Proof.
  intros Hm Hn Hf.
  eapply advances_weaken with (lo := n + (lo - n)) (hi := n + (hi - n));
    [|lia|lia].
  apply advances_bind; assumption.
Qed.

Create HintDb adv.
#[local] Hint Resolve advances_ret advances_get_getp advances_set_nlri
  advances_zlog_info advances_getc advances_getw advances_getq
  advances_get advances_get_ipv4 advances_if : adv.

(** Proves [advances m lo hi] for given [lo] and [hi] along the structure
    of [m]. *)
Ltac adv_tac :=
  repeat lazymatch goal with
  | |- advances (bind _ _) _ _ =>
      eapply advances_bind_exact;
      [solve [eauto with adv] | cbv; lia | intros ?; cbn [Nat.sub]]
  | |- advances (if _ then _ else _) _ _ => apply advances_if
  | |- advances (match ?d with local_node => _ | remote_node => _ end) _ _ =>
      destruct d
  | |- advances (let '(_, _) := ?p in _) _ _ => destruct p
  | |- advances _ _ _ =>
      eapply advances_weaken;
      [solve [eauto with adv] | cbv; lia | cbv; lia]
  end.

Lemma advances_stream_get_node dst n : advances (stream_get_node dst n) n n.
Proof.
  unfold stream_get_node.
  eapply advances_weaken with (lo := n + 0) (hi := n + 0); [|lia|lia].
  apply advances_bind; [apply advances_get|].
  intros bs. destruct dst; apply advances_set_nlri.
Qed.

#[local] Hint Resolve advances_stream_get_node : adv.

(** A descriptor sub-TLV takes its four-byte header and at most eight bytes
    of value. *)
Lemma advances_descriptor_sub_tlv host length fixed_dst rid_dst :
  advances (descriptor_sub_tlv host length fixed_dst rid_dst) 4 12.
Proof. unfold descriptor_sub_tlv. adv_tac. Qed.

#[local] Hint Resolve advances_descriptor_sub_tlv : adv.

Lemma advances_read_ext_hdr : advances read_ext_hdr 13 13.
Proof. unfold read_ext_hdr. adv_tac. Qed.

#[local] Hint Resolve advances_read_ext_hdr : adv.

(** The node decoder reads the thirteen bytes of the header and at most one
    descriptor sub-TLV. *)
Lemma advances_node_decode host : advances (node_decode host) 13 25.
Proof.
  unfold node_decode. adv_tac.
  eapply advances_weaken with (lo := 0 + 0) (hi := 12 + 0); [|lia|lia].
  apply advances_bind; [|intros ?]; adv_tac.
Qed.

(** ** Values read from the stream *)

Lemma be_value_acc_bounds (bs : list byte) : forall acc,
  (0 <= acc)%Z ->
  (0 <= fold_left (fun a b => a * 256 + Z.of_N (Byte.to_N b)) bs acc
     < (acc + 1) * 256 ^ Z.of_nat (List.length bs))%Z.
Proof.
  induction bs as [|b bs IH]; intros acc Hacc.
  - simpl. lia.
  - cbn [fold_left List.length].
    pose proof (Byte.to_N_bounded b) as Hb.
    specialize (IH (acc * 256 + Z.of_N (Byte.to_N b))%Z).
    rewrite Nat2Z.inj_succ, Z.pow_succ_r by lia.
    assert (Hp : (0 < 256 ^ Z.of_nat (List.length bs))%Z)
      by (apply Z.pow_pos_nonneg; lia).
    nia.
Qed.

Lemma be_value_bounds (bs : list byte) :
  (0 <= be_value bs < 256 ^ Z.of_nat (List.length bs))%Z.
Proof.
  pose proof (@be_value_acc_bounds bs 0%Z) as H. unfold be_value. lia.
Qed.

Lemma stream_get_length n s bs s' :
  stream_get n s = Some (bs, s') -> List.length bs <= n.
Proof.
  unfold stream_get. destruct (_ <=? _); [|discriminate].
  intros [= <- _]. apply firstn_le_length.
Qed.

Lemma getw_range st v st' :
  getw st = Some (v, st') -> (0 <= v < 65536)%Z.
Proof.
  unfold getw, on_stream, stream_getw, stream_get_be.
  destruct (stream_get 2 (strm st)) as [[bs s']|] eqn:E; [|discriminate].
  intros [= <- _].
  pose proof (be_value_bounds bs) as H.
  pose proof (stream_get_length _ _ E) as L.
  assert (256 ^ Z.of_nat (List.length bs) <= 256 ^ 2)%Z
    by (apply Z.pow_le_mono_r; lia).
  change (256 ^ 2)%Z with 65536%Z in *. lia.
Qed.

(** ** The loops *)

Lemma advances_mt_id_loop (count : nat) : forall i,
  advances (mt_id_loop count i) (2 * count) (2 * count).
Proof.
  induction count as [|c IH]; intros i; cbn [mt_id_loop].
  - apply advances_ret.
  - eapply advances_weaken with (lo := 2 + (0 + 2 * c)) (hi := 2 + (0 + 2 * c));
      [|lia|lia].
    apply advances_bind; [apply advances_getw|intros v].
    apply advances_bind; [apply advances_set_nlri|intros _]. apply IH.
Qed.

(** Fuel beyond the distance to the end of the scope changes nothing. *)
Lemma descriptor_loop_fuel_enough host length fixed_dst rid_dst e :
  forall k k' st,
    e - getp (strm st) <= k -> e - getp (strm st) <= k' ->
    descriptor_loop_fuel k host length fixed_dst rid_dst e st =
    descriptor_loop_fuel k' host length fixed_dst rid_dst e st.
Proof.
  induction k as [|k IH]; intros k' st Hk Hk'.
  - destruct k' as [|k']; [reflexivity|].
    cbn [descriptor_loop_fuel]. unfold bind, get_getp, stream_get_getp.
    destruct (Nat.ltb_spec (getp (strm st)) e); [lia|reflexivity].
  - destruct k' as [|k'].
    + cbn [descriptor_loop_fuel]. unfold bind, get_getp, stream_get_getp.
      destruct (Nat.ltb_spec (getp (strm st)) e); [lia|reflexivity].
    + cbn [descriptor_loop_fuel]. unfold bind at 1 3, get_getp, stream_get_getp.
      destruct (Nat.ltb_spec (getp (strm st)) e); [|reflexivity].
      unfold bind.
      destruct (descriptor_sub_tlv host length fixed_dst rid_dst st)
        as [[u st1]|] eqn:E; [|reflexivity].
      destruct (advances_descriptor_sub_tlv host length fixed_dst rid_dst st)
        as [Hadv _].
      destruct (Hadv _ _ E) as (_ & P & _).
      apply IH; lia.
Qed.

(** The loop as the [while] of the source reads: test, one pass, again. *)
Lemma descriptor_loop_unfold host length fixed_dst rid_dst e st :
  descriptor_loop host length fixed_dst rid_dst e st =
  if getp (strm st) <? e
  then (descriptor_sub_tlv host length fixed_dst rid_dst ;;;
        descriptor_loop host length fixed_dst rid_dst e) st
  else Some (tt, st).
Proof.
  unfold descriptor_loop at 1. unfold bind at 1, get_getp, stream_get_getp.
  destruct (Nat.ltb_spec (getp (strm st)) e) as [Hlt|Hge].
  - destruct (e - getp (strm st)) as [|k] eqn:Ek; [lia|].
    cbn [descriptor_loop_fuel]. unfold bind at 1, get_getp, stream_get_getp.
    destruct (Nat.ltb_spec (getp (strm st)) e); [|lia].
    unfold bind.
    destruct (descriptor_sub_tlv host length fixed_dst rid_dst st)
      as [[u st1]|] eqn:E; [|reflexivity].
    destruct (advances_descriptor_sub_tlv host length fixed_dst rid_dst st)
      as [Hadv _].
    destruct (Hadv _ _ E) as (_ & P & _).
    unfold descriptor_loop, bind, get_getp, stream_get_getp.
    apply descriptor_loop_fuel_enough; lia.
  - replace (e - getp (strm st)) with 0 by lia. reflexivity.
Qed.

(** The loop comes to an end when the buffer reaches eleven bytes past the
    end of the scope: a pass starts before that end and reads twelve bytes
    at most. *)
Lemma descriptor_loop_fuel_returns host length fixed_dst rid_dst e :
  forall k st,
    e + 11 <= endp (strm st) ->
    exists st',
      descriptor_loop_fuel k host length fixed_dst rid_dst e st =
      Some (tt, st').
Proof.
  induction k as [|k IH]; intros st Hend.
  - eexists; reflexivity.
  - cbn [descriptor_loop_fuel]. unfold bind at 1, get_getp, stream_get_getp.
    destruct (Nat.ltb_spec (getp (strm st)) e); [|eexists; reflexivity].
    destruct (advances_descriptor_sub_tlv host length fixed_dst rid_dst st)
      as [Hadv Hok].
    destruct Hok as ([] & st1 & E); [lia|].
    unfold bind. rewrite E.
    destruct (Hadv _ _ E) as (D & _ & _).
    apply IH. unfold endp in *. rewrite D. assumption.
Qed.

Lemma descriptor_loop_returns host length fixed_dst rid_dst e st :
  e + 11 <= endp (strm st) ->
  exists st', descriptor_loop host length fixed_dst rid_dst e st = Some (tt, st').
Proof.
  intros H. unfold descriptor_loop, bind, get_getp.
  apply descriptor_loop_fuel_returns; assumption.
Qed.

(** ** The status a decoder returns *)

Lemma returns_only_ret {A} (r : A) : returns_only (ret r) r.
Proof. intros st a st' [= <- _]. reflexivity. Qed.

Lemma returns_only_bind {A B} (m : M A) (f : A -> M B) (r : B) :
  (forall a, returns_only (f a) r) -> returns_only (bind m f) r.
Proof.
  intros Hf st b st' E.
  destruct (bind_inv _ _ _ E) as (a & st1 & _ & E2).
  exact (Hf a _ _ _ E2).
Qed.

Lemma returns_only_if {A} (b : bool) (m1 m2 : M A) (r : A) :
  returns_only m1 r -> returns_only m2 r ->
  returns_only (if b then m1 else m2) r.
Proof. destruct b; auto. Qed.

Ltac returns_tac :=
  repeat lazymatch goal with
  | |- returns_only (bind _ _) _ => apply returns_only_bind; intros ?
  | |- returns_only (if _ then _ else _) _ => apply returns_only_if
  | |- returns_only (let '(_, _) := ?p in _) _ => destruct p
  | |- returns_only (ret _) _ => apply returns_only_ret
  end.

Lemma node_decode_returns_proceed host :
  returns_only (node_decode host) BGP_ATTR_PARSE_PROCEED.
Proof. unfold node_decode. returns_tac. Qed.

Lemma link_decode_returns_proceed host :
  returns_only (link_decode host) BGP_ATTR_PARSE_PROCEED.
Proof. unfold link_decode. returns_tac. Qed.

(** ** The header every decoder starts with *)

Lemma read_ext_hdr_spec (st : dstate) :
  read_ext_hdr st =
  match top_level_tlv (strm st) with
  | Some tl => Some (tl, after_ext_hdr st)
  | None => None
  end.
Proof.
  destruct st as [[d g] n l].
  unfold read_ext_hdr, top_level_tlv, after_ext_hdr, bind, ret, getc, getq,
    getw, set_nlri, on_stream, stream_getc, stream_getq, stream_getw,
    stream_get_be, stream_get, endp; cbn [strm data getp nlri zlog].
  destruct (Nat.leb_spec (g + 13) (List.length d)) as [H|H].
  - destruct (Nat.leb_spec (g + 1) (List.length d)); [|lia].
    cbn [strm data getp nlri zlog].
    destruct (Nat.leb_spec (g + 1 + 8) (List.length d)); [|lia].
    cbn [strm data getp nlri zlog].
    destruct (Nat.leb_spec (g + 1 + 8 + 2) (List.length d)); [|lia].
    cbn [strm data getp nlri zlog].
    destruct (Nat.leb_spec (g + 1 + 8 + 2 + 2) (List.length d)); [|lia].
    replace (g + 1 + 8 + 2 + 2) with (g + 13) by lia.
    replace (g + 1 + 8 + 2) with (g + 11) by lia.
    replace (g + 1 + 8) with (g + 9) by lia.
    reflexivity.
  - destruct (Nat.leb_spec (g + 1) (List.length d)); [|reflexivity].
    cbn [strm data getp nlri zlog].
    destruct (Nat.leb_spec (g + 1 + 8) (List.length d)); [|reflexivity].
    cbn [strm data getp nlri zlog].
    destruct (Nat.leb_spec (g + 1 + 8 + 2) (List.length d)); [|reflexivity].
    cbn [strm data getp nlri zlog].
    destruct (Nat.leb_spec (g + 1 + 8 + 2 + 2) (List.length d)); [lia|].
    reflexivity.
Qed.

Lemma bind_read_ext_hdr {B} (f : Z * Z -> M B) (st : dstate) :
  bind read_ext_hdr f st =
  match top_level_tlv (strm st) with
  | Some tl => f tl (after_ext_hdr st)
  | None => None
  end.
Proof.
  unfold bind. rewrite read_ext_hdr_spec.
  destruct (top_level_tlv (strm st)); reflexivity.
Qed.

Lemma top_level_tlv_range s type length :
  top_level_tlv s = Some (type, length) ->
  (0 <= type < 65536 /\ 0 <= length < 65536)%Z /\ getp s + 13 <= endp s.
Proof.
  unfold top_level_tlv.
  destruct (Nat.leb_spec (getp s + 13) (endp s)); [|discriminate].
  intros [= <- <-].
  assert (B : forall l : list byte, (0 <= be_value (firstn 2 l) < 65536)%Z).
  { intros l. pose proof (be_value_bounds (firstn 2 l)) as Hb.
    pose proof (firstn_le_length 2 l) as L.
    assert (256 ^ Z.of_nat (List.length (firstn 2 l)) <= 256 ^ 2)%Z
      by (apply Z.pow_le_mono_r; lia).
    change (256 ^ 2)%Z with 65536%Z in *. lia. }
  split; [split; apply B | assumption].
Qed.

Lemma bind_some {A B} (m : M A) (f : A -> M B) st a st1 :
  m st = Some (a, st1) -> bind m f st = f a st1.
Proof. intros E. unfold bind. rewrite E. reflexivity. Qed.

Lemma advances_returns {A} (m : M A) lo hi st :
  advances m lo hi -> getp (strm st) + hi <= endp (strm st) ->
  exists a st', m st = Some (a, st').
Proof. intros H. apply (H st). Qed.

(** The multi-topology case: a second header, then [node_length / 2]
    words. *)
Lemma mt_id_case_returns st :
  (Z.of_nat (getp (strm st)) + 65538 <= Z.of_nat (endp (strm st)))%Z ->
  exists st',
    (node_type <- getw ;;
     node_length <- getw ;;
     mt_id_loop (Z.to_nat (node_length / 2)) 0) st = Some (tt, st').
Proof.
  intros H.
  destruct (advances_getw st) as [A1 S1].
  destruct S1 as (node_type & st1 & E1); [lia|].
  destruct (A1 _ _ E1) as (D1 & P1 & _).
  destruct (advances_getw st1) as [A2 S2].
  destruct S2 as (node_length & st2 & E2); [unfold endp in *; rewrite D1; lia|].
  destruct (A2 _ _ E2) as (D2 & P2 & _).
  pose proof (getw_range _ E2) as R.
  destruct (@advances_mt_id_loop (Z.to_nat (node_length / 2)) 0 st2)
    as [_ S3].
  destruct S3 as ([] & st3 & E3).
  { unfold endp in *. rewrite D2, D1.
    assert (node_length / 2 < 32768)%Z
      by (apply Z.div_lt_upper_bound; lia).
    assert (0 <= node_length / 2)%Z by (apply Z.div_pos; lia).
    lia. }
  exists st3. unfold bind. rewrite E1, E2. exact E3.
Qed.

(** With 65559 readable bytes no read of the link decoder can fail: the
    header takes 13, a descriptor scope ends at most 65535 bytes later
    and a pass that starts inside it reads at most 12 bytes. *)
Lemma link_decode_returns host st :
  (Z.of_nat (getp (strm st)) + 65559 <= Z.of_nat (endp (strm st)))%Z ->
  exists r st', link_decode host st = Some (r, st').
Proof.
  intros H. unfold link_decode. rewrite bind_read_ext_hdr.
  destruct (top_level_tlv (strm st)) as [[type length]|] eqn:Etl.
  2:{ unfold top_level_tlv in Etl.
      destruct (Nat.leb_spec (getp (strm st) + 13) (endp (strm st)));
        [discriminate|lia]. }
  destruct (top_level_tlv_range _ Etl) as ((_ & Hlen) & _).
  set (st1 := after_ext_hdr st).
  assert (G1 : getp (strm st1) = getp (strm st) + 13) by reflexivity.
  assert (N1 : endp (strm st1) = endp (strm st)) by reflexivity.
  unfold bind at 1, get_getp, stream_get_getp. rewrite G1.
  match goal with
  | |- exists r st', bind ?m _ _ = _ =>
      assert (Hbig : exists st2, m st1 = Some (tt, st2))
  end.
  { destruct (type =? BGP_NLRI_TLV_LOCAL_NODE_DESCRIPTORS)%Z.
    { apply descriptor_loop_returns. lia. }
    destruct (type =? BGP_NLRI_TLV_REMOTE_NODE_DESCRIPTORS)%Z.
    { apply descriptor_loop_returns. lia. }
    destruct (type =? BGP_NLRI_TLV_LINK_LOCAL_REMOTE_IDENTIFIERS)%Z.
    { match goal with
      | |- exists st2, ?m _ = _ => assert (Ha : advances m 0 8) by adv_tac
      end.
      destruct (advances_returns st1 Ha) as ([] & st2 & E); [lia|].
      exists st2; exact E. }
    destruct (type =? BGP_NLRI_TLV_IPV4_INTERFACE_ADDRESS)%Z.
    { match goal with
      | |- exists st2, ?m _ = _ => assert (Ha : advances m 0 8) by adv_tac
      end.
      destruct (advances_returns st1 Ha) as ([] & st2 & E); [lia|].
      exists st2; exact E. }
    destruct (type =? BGP_NLRI_TLV_IPV4_NEIGHBOR_ADDRESS)%Z.
    { match goal with
      | |- exists st2, ?m _ = _ => assert (Ha : advances m 0 8) by adv_tac
      end.
      destruct (advances_returns st1 Ha) as ([] & st2 & E); [lia|].
      exists st2; exact E. }
    destruct (type =? BGP_NLRI_TLV_IPV6_INTERFACE_ADDRESS)%Z.
    { match goal with
      | |- exists st2, ?m _ = _ => assert (Ha : advances m 0 20) by adv_tac
      end.
      destruct (advances_returns st1 Ha) as ([] & st2 & E); [lia|].
      exists st2; exact E. }
    destruct (type =? BGP_NLRI_TLV_IPV6_NEIGHBOR_ADDRESS)%Z.
    { match goal with
      | |- exists st2, ?m _ = _ => assert (Ha : advances m 0 20) by adv_tac
      end.
      destruct (advances_returns st1 Ha) as ([] & st2 & E); [lia|].
      exists st2; exact E. }
    destruct (type =? BGP_NLRI_TLV_MULTI_TOPOLOGY_ID)%Z.
    { apply mt_id_case_returns. lia. }
    eexists; reflexivity. }
  destruct Hbig as (st2 & E). rewrite (@bind_some _ _ _ _ _ _ _ E).
  eexists _, _. reflexivity.
Qed.

Lemma node_decode_returns
  (args : bgp_attr_parser_args) (s : stream) :
  25 <= STREAM_READABLE s ->
  exists st, run node_decode args s = Some (BGP_ATTR_PARSE_PROCEED, st).
Proof.
  unfold run, STREAM_READABLE. intros H.
  destruct (advances_returns
              (mkDstate s (attr_mp_bgpls_nlri args) [])
              (advances_node_decode (peer_host args))) as (r & st & E).
  - simpl. lia.
  - exists st. rewrite E. f_equal. f_equal.
    eapply node_decode_returns_proceed; exact E.
Qed.

(** C9. Whatever the buffer and the attribute, a status that
    [bgp_mp_node_decode] or [bgp_mp_link_decode] returns is
    [BGP_ATTR_PARSE_PROCEED]: no path of either function returns an error
    status. The only way not to return it is a read past the end of the
    stream, inside the byte cursor; with 25 readable bytes for the node
    decoder and 65559 for the link decoder no read can fail, and the status
    is returned. *)
Theorem node_and_link_decode_only_proceed
  (args : bgp_attr_parser_args) (s : stream) :
  (forall r st, bgp_mp_node_decode args s = Some (r, st) ->
                r = BGP_ATTR_PARSE_PROCEED) /\
  (forall r st, bgp_mp_link_decode args s = Some (r, st) ->
                r = BGP_ATTR_PARSE_PROCEED) /\
  (25 <= STREAM_READABLE s ->
   exists st, bgp_mp_node_decode args s = Some (BGP_ATTR_PARSE_PROCEED, st)) /\
  ((65559 <= Z.of_nat (STREAM_READABLE s))%Z ->
   exists st, bgp_mp_link_decode args s = Some (BGP_ATTR_PARSE_PROCEED, st)).
Proof.
  unfold bgp_mp_node_decode, bgp_mp_link_decode, run, STREAM_READABLE.
  repeat split.
  - intros r st E. eapply node_decode_returns_proceed; exact E.
  - intros r st E. eapply link_decode_returns_proceed; exact E.
  - intros H.
    apply (node_decode_returns args s H).
  - intros H.
    destruct (@link_decode_returns (peer_host args)
                (mkDstate s (attr_mp_bgpls_nlri args) [])) as (r & st & E).
    + simpl. lia.
    + exists st. rewrite E. f_equal. f_equal.
      eapply link_decode_returns_proceed; exact E.
Qed.

Lemma node_and_link_decode_only_proceed_witness :
  (exists st,
     bgp_mp_node_decode (mkArgs "peer" empty_nlri)
       (mkStream (repeat x00 25) 0) = Some (BGP_ATTR_PARSE_PROCEED, st)) /\
  (exists st,
     bgp_mp_link_decode (mkArgs "peer" empty_nlri)
       (mkStream (repeat x00 (N.to_nat 65559)) 0) =
     Some (BGP_ATTR_PARSE_PROCEED, st)).
Proof.
  split.
  - apply (node_and_link_decode_only_proceed (mkArgs "peer" empty_nlri)
             (mkStream (repeat x00 25) 0)).
    vm_compute. lia.
  - apply (node_and_link_decode_only_proceed (mkArgs "peer" empty_nlri)
             (mkStream (repeat x00 (N.to_nat 65559)) 0)).
    vm_compute. discriminate.
Defined.

(** ** The prefix decoder and its fatal case *)

Lemma prefix_decode_cases host st :
  match top_level_tlv (strm st) with
  | None => prefix_decode host st = None
  | Some (type, length) =>
      if ((type =? BGP_NLRI_TLV_LOCAL_NODE_DESCRIPTORS) ||
          (type =? BGP_NLRI_TLV_MULTI_TOPOLOGY_ID) ||
          (type =? BGP_NLRI_TLV_OSPF_ROUTE_TYPE) ||
          (type =? BGP_NLRI_TLV_IP_REACHABILITY_INFORMATION))%Z
      then forall r st', prefix_decode host st = Some (r, st') ->
                         r = BGP_ATTR_PARSE_PROCEED
      else prefix_decode host st =
           Some (BGP_ATTR_PARSE_ERROR_NOTIFYPLS,
                 mkDstate (strm (after_ext_hdr st)) (nlri (after_ext_hdr st))
                   (zlog st ++ [InvalidLinkStateIsisTlv host length]))
  end.
Proof.
  unfold prefix_decode. rewrite bind_read_ext_hdr.
  destruct (top_level_tlv (strm st)) as [[type length]|]; [|reflexivity].
  destruct (type =? BGP_NLRI_TLV_LOCAL_NODE_DESCRIPTORS)%Z; cbn [orb].
  { intros r st'. apply returns_only_bind. intros ?. returns_tac. }
  destruct (type =? BGP_NLRI_TLV_MULTI_TOPOLOGY_ID)%Z; cbn [orb].
  { intros r st'. apply returns_only_bind. intros ?. returns_tac. }
  destruct (type =? BGP_NLRI_TLV_OSPF_ROUTE_TYPE)%Z; cbn [orb].
  { intros r st'. apply returns_only_bind. intros ?. returns_tac. }
  destruct (type =? BGP_NLRI_TLV_IP_REACHABILITY_INFORMATION)%Z; cbn [orb].
  { intros r st'. apply returns_only_bind. intros ?. returns_tac. }
  reflexivity.
Qed.

Lemma bind_zlog_info {B} (m : zlog_msg) (f : unit -> M B) (st : dstate) :
  bind (zlog_info m) f st =
  f tt (mkDstate (strm st) (nlri st) (zlog st ++ [m])).
Proof. reflexivity. Qed.

(** On a top-level type that is not Local Node Descriptors the node decoder
    logs the fact, and goes on to return [BGP_ATTR_PARSE_PROCEED]. *)
Lemma node_decode_unexpected_type host st type length r st' :
  top_level_tlv (strm st) = Some (type, length) ->
  type <> BGP_NLRI_TLV_LOCAL_NODE_DESCRIPTORS ->
  node_decode host st = Some (r, st') ->
  r = BGP_ATTR_PARSE_PROCEED /\
  exists l, zlog st' = zlog st ++ InvalidNodeDescriptor host length :: l.
Proof.
  intros Etl Hty E. split.
  - eapply node_decode_returns_proceed; exact E.
  - unfold node_decode in E. rewrite bind_read_ext_hdr, Etl in E.
    apply Z.eqb_neq in Hty. rewrite Hty in E. cbn [negb] in E.
    rewrite bind_zlog_info in E.
    match type of E with
    | ?m ?s2 = _ =>
        assert (Ha : advances m 0 12);
        [|destruct (proj1 (Ha s2) _ _ E) as (_ & _ & l & L)]
    end.
    { adv_tac.
      eapply advances_weaken with (lo := 0 + 0) (hi := 12 + 0); [|lia|lia].
      apply advances_bind; [|intros ?]; adv_tac. }
    exists l. rewrite L. cbn [zlog after_ext_hdr].
    rewrite <- app_assoc. reflexivity.
Qed.

(** C4 (the code departs from the claim). The prefix decoder returns the
    parse-error status [BGP_ATTR_PARSE_ERROR_NOTIFYPLS] exactly when the
    stream holds a top-level TLV header whose type is none of Local Node
    Descriptors, Multi-Topology ID, OSPF Route Type and IP Reachability
    Information, and returns no other status than that one and
    [BGP_ATTR_PARSE_PROCEED]. The node decoder, on a top-level type other
    than Local Node Descriptors, logs "sent invalid Node Descriptor" and
    any status it returns is [BGP_ATTR_PARSE_PROCEED]; but it does not only
    log and return: it goes on into its descriptor pass over the TLV it has
    just called invalid. On a TLV of type 300 and declared length 8 that
    holds an Autonomous System sub-TLV it overwrites the value of the local
    node with the four bytes of the sub-TLV and returns with the read
    position at byte 21; on a TLV of type 300 and declared length 2 the
    pass asks for the four bytes of a sub-TLV header, the byte cursor
    fails and no status is returned. *)
Theorem prefix_decode_fatal_node_decode_goes_on
  (args : bgp_attr_parser_args) (s : stream) :
  ((exists st, bgp_mp_prefix_decode args s =
               Some (BGP_ATTR_PARSE_ERROR_NOTIFYPLS, st)) <->
   (exists type length,
      top_level_tlv s = Some (type, length) /\
      type <> BGP_NLRI_TLV_LOCAL_NODE_DESCRIPTORS /\
      type <> BGP_NLRI_TLV_MULTI_TOPOLOGY_ID /\
      type <> BGP_NLRI_TLV_OSPF_ROUTE_TYPE /\
      type <> BGP_NLRI_TLV_IP_REACHABILITY_INFORMATION)) /\
  (forall r st, bgp_mp_prefix_decode args s = Some (r, st) ->
     r = BGP_ATTR_PARSE_PROCEED \/ r = BGP_ATTR_PARSE_ERROR_NOTIFYPLS) /\
  (forall type length,
     top_level_tlv s = Some (type, length) ->
     type <> BGP_NLRI_TLV_LOCAL_NODE_DESCRIPTORS ->
     (forall r st, bgp_mp_node_decode args s = Some (r, st) ->
        r = BGP_ATTR_PARSE_PROCEED /\
        In (InvalidNodeDescriptor (peer_host args) length) (zlog st)) /\
     (25 <= STREAM_READABLE s ->
      exists st, bgp_mp_node_decode args s =
                 Some (BGP_ATTR_PARSE_PROCEED, st))) /\
  (exists st,
     bgp_mp_node_decode args_local_ff (mkStream unexpected_type_nlri 0) =
       Some (BGP_ATTR_PARSE_PROCEED, st) /\
     top_level_tlv (mkStream unexpected_type_nlri 0) = Some (300, 8)%Z /\
     zlog st = [InvalidNodeDescriptor (peer_host args_local_ff) 8] /\
     local_node_value (attr_mp_bgpls_nlri args_local_ff) =
       bytes [255; 255; 255; 255]%Z /\
     local_node_value (nlri st) = bytes [0; 0; 253; 232]%Z /\
     getp (strm st) = 21) /\
  (top_level_tlv (mkStream unexpected_type_short_nlri 0) = Some (300, 2)%Z /\
   List.length unexpected_type_short_nlri = 15 /\
   bgp_mp_node_decode args0 (mkStream unexpected_type_short_nlri 0) = None).
Proof.
  assert (Hconcrete :
    (exists st,
       bgp_mp_node_decode args_local_ff (mkStream unexpected_type_nlri 0) =
         Some (BGP_ATTR_PARSE_PROCEED, st) /\
       top_level_tlv (mkStream unexpected_type_nlri 0) = Some (300, 8)%Z /\
       zlog st = [InvalidNodeDescriptor (peer_host args_local_ff) 8] /\
       local_node_value (attr_mp_bgpls_nlri args_local_ff) =
         bytes [255; 255; 255; 255]%Z /\
       local_node_value (nlri st) = bytes [0; 0; 253; 232]%Z /\
       getp (strm st) = 21) /\
    (top_level_tlv (mkStream unexpected_type_short_nlri 0) = Some (300, 2)%Z /\
     List.length unexpected_type_short_nlri = 15 /\
     bgp_mp_node_decode args0 (mkStream unexpected_type_short_nlri 0) = None)).
  { split.
    - eexists. split; [vm_compute; reflexivity|].
      repeat split; vm_compute; reflexivity.
    - repeat split; vm_compute; reflexivity. }
  destruct Hconcrete as (Hc1 & Hc2).
  unfold bgp_mp_prefix_decode, bgp_mp_node_decode, run.
  set (st0 := mkDstate s (attr_mp_bgpls_nlri args) []).
  pose proof (prefix_decode_cases (peer_host args) st0) as Hc.
  change (strm st0) with s in Hc.
  split; [split|split; [|split; [|split; [exact Hc1|exact Hc2]]]].
  - intros (st & E).
    destruct (top_level_tlv s) as [[type length]|]; [|congruence].
    exists type, length. split; [reflexivity|].
    destruct (type =? BGP_NLRI_TLV_LOCAL_NODE_DESCRIPTORS)%Z eqn:E1;
      [specialize (Hc _ _ E); discriminate|].
    destruct (type =? BGP_NLRI_TLV_MULTI_TOPOLOGY_ID)%Z eqn:E2;
      [specialize (Hc _ _ E); discriminate|].
    destruct (type =? BGP_NLRI_TLV_OSPF_ROUTE_TYPE)%Z eqn:E3;
      [specialize (Hc _ _ E); discriminate|].
    destruct (type =? BGP_NLRI_TLV_IP_REACHABILITY_INFORMATION)%Z eqn:E4;
      [specialize (Hc _ _ E); discriminate|].
    apply Z.eqb_neq in E1, E2, E3, E4. auto.
  - intros (type & length & Etl & N1 & N2 & N3 & N4).
    rewrite Etl in Hc.
    apply Z.eqb_neq in N1, N2, N3, N4.
    rewrite N1, N2, N3, N4 in Hc. cbn [orb] in Hc.
    eexists; exact Hc.
  - intros r st E.
    destruct (top_level_tlv s) as [[type length]|]; [|congruence].
    destruct (_ || _)%bool.
    + left. exact (Hc _ _ E).
    + right. congruence.
  - intros type length Etl Hty. split.
    + intros r st E.
      destruct (@node_decode_unexpected_type (peer_host args) st0 type length
                  r st Etl Hty E) as (Hr & l & L).
      split; [exact Hr|]. rewrite L. cbn [zlog st0 app]. left; reflexivity.
    + intros H.
      apply (node_decode_returns args s H).
Qed.

Lemma prefix_decode_fatal_node_decode_goes_on_witness :
  (exists st,
     bgp_mp_prefix_decode args0
       (mkStream (nlri_bytes 1 [0; 0; 0; 0; 0; 0; 0; 1] 300 12
                    [0; 0; 0; 0; 0; 0; 0; 0; 0; 0; 0; 0])%Z 0) =
     Some (BGP_ATTR_PARSE_ERROR_NOTIFYPLS, st)) /\
  (exists st,
     bgp_mp_node_decode args0
       (mkStream (nlri_bytes 1 [0; 0; 0; 0; 0; 0; 0; 1] 300 12
                    [0; 0; 0; 0; 0; 0; 0; 0; 0; 0; 0; 0])%Z 0) =
     Some (BGP_ATTR_PARSE_PROCEED, st)).
Proof.
  destruct (prefix_decode_fatal_node_decode_goes_on args0
              (mkStream (nlri_bytes 1 [0; 0; 0; 0; 0; 0; 0; 1] 300 12
                           [0; 0; 0; 0; 0; 0; 0; 0; 0; 0; 0; 0])%Z 0))
    as (H1 & _ & H3 & _).
  split.
  - apply H1. exists 300%Z, 12%Z. repeat split; discriminate.
  - apply (H3 300%Z 12%Z); [reflexivity|discriminate|vm_compute; lia].
Defined.

(** ** The node decoder and the second sub-TLV *)

(** C2 (the code departs from the claim). The node decoder leaves its
    descriptor loop after the first pass: it never reads more than the
    header and one sub-TLV, 25 bytes in all. On a Local Node Descriptors
    scope of 16 bytes that holds two sub-TLVs it returns with the read
    position at byte 21, eight bytes before the end of the scope, and only
    the first sub-TLV copied; the loop of the link decoder, on the same
    bytes, runs to byte 29 and copies both. *)
Theorem node_decode_stops_after_first_sub_tlv :
  (forall args s r st,
     bgp_mp_node_decode args s = Some (r, st) ->
     getp (strm st) <= getp s + 25) /\
  (exists st,
     bgp_mp_node_decode args0 (mkStream (two_sub_tlv_nlri 256) 0) =
       Some (BGP_ATTR_PARSE_PROCEED, st) /\
     getp (strm st) = 21 /\ endp (strm st) = 29 /\
     local_node_value (nlri st) = bytes [0; 0; 253; 232]%Z) /\
  (exists st,
     bgp_mp_link_decode args0 (mkStream (two_sub_tlv_nlri 256) 0) =
       Some (BGP_ATTR_PARSE_PROCEED, st) /\
     getp (strm st) = 29 /\
     local_node_value (nlri st) = bytes [0; 0; 0; 7]%Z).
Proof.
  split; [|split].
  - intros args s r st E.
    destruct (advances_node_decode (peer_host args)
                (mkDstate s (attr_mp_bgpls_nlri args) [])) as [H _].
    destruct (H _ _ E) as (_ & P & _). simpl in P. lia.
  - eexists. split; [vm_compute; reflexivity|]. repeat split.
  - eexists. split; [vm_compute; reflexivity|]. repeat split.
Qed.

Lemma node_decode_stops_after_first_sub_tlv_witness :
  exists st,
    bgp_mp_node_decode args0 (mkStream (two_sub_tlv_nlri 256) 0) =
      Some (BGP_ATTR_PARSE_PROCEED, st) /\
    getp (strm st) <= 0 + 25.
Proof.
  destruct node_decode_stops_after_first_sub_tlv as (H1 & (st & E & _) & _).
  exists st. split; [exact E|].
  exact (H1 args0 (mkStream (two_sub_tlv_nlri 256) 0) _ st E).
Defined.

(** ** Remote node descriptors in the link decoder *)

(** C5 (the code departs from the claim). Inside a Remote Node Descriptors
    TLV the link decoder copies an Autonomous System sub-TLV (and likewise
    the BGP-LS Identifier and the OSPF Area-ID) to the value of the local
    node and leaves the remote node as it was; only the IGP Router-ID goes
    to the remote node. *)
Theorem link_decode_remote_as_goes_to_local_node :
  (exists st,
     bgp_mp_link_decode args0 (mkStream remote_as_nlri 0) =
       Some (BGP_ATTR_PARSE_PROCEED, st) /\
     local_node_value (nlri st) = bytes [0; 0; 253; 232]%Z /\
     remote_node_value (nlri st) = remote_node_value empty_nlri) /\
  (exists st,
     bgp_mp_link_decode args0 (mkStream remote_router_id_nlri 0) =
       Some (BGP_ATTR_PARSE_PROCEED, st) /\
     local_node_value (nlri st) = local_node_value empty_nlri /\
     remote_node_value (nlri st) = bytes [1; 2; 3; 4; 5; 6]%Z).
Proof.
  split; (eexists; split; [vm_compute; reflexivity|]); split; reflexivity.
Qed.

(** ** Link identifiers *)

(** On the buffer of the scenario the four value bytes are taken for a
    second header and the decoder runs out of input: the identifiers are
    not set to 5 and 9. *)
Lemma link_identifiers_scenario_fails :
  ~ exists st,
      bgp_mp_link_decode args0 (mkStream link_identifiers_scenario 0) =
        Some (BGP_ATTR_PARSE_PROCEED, st) /\
      llri_local (nlri st) = 5%Z /\ llri_remote (nlri st) = 9%Z.
Proof.
  intros (st & E & _).
  assert (N : bgp_mp_link_decode args0 (mkStream link_identifiers_scenario 0)
              = None) by (vm_compute; reflexivity).
  congruence.
Qed.

(** C6 (amended). In a link NLRI whose top-level TLV is of type 258 the
    decoder takes the four bytes that follow the TLV header for a second
    (type, length) header, whatever they are, and reads the two 16-bit
    identifiers from the four bytes after it: with the bytes 0, 5, 0, 9
    there, the identifiers are 5 and 9. *)
Theorem link_identifiers_follow_second_header
  (args : bgp_attr_parser_args)
  (proto i0 i1 i2 i3 i4 i5 i6 i7 l0 l1 t0 t1 n0 n1 a b c d : byte)
  (rest : list byte) :
  exists st,
    bgp_mp_link_decode args
      (mkStream ([proto; i0; i1; i2; i3; i4; i5; i6; i7;
                  x01; x02; l0; l1; t0; t1; n0; n1; a; b; c; d] ++ rest) 0) =
      Some (BGP_ATTR_PARSE_PROCEED, st) /\
    llri_local (nlri st) = be_value [a; b] /\
    llri_remote (nlri st) = be_value [c; d] /\
    getp (strm st) = 21.
Proof.
  unfold bgp_mp_link_decode, run.
  eexists. split; [cbn; reflexivity|].
  split; [reflexivity|]. split; [reflexivity|]. reflexivity.
Qed.

Example link_identifiers_5_9 :
  exists st,
    bgp_mp_link_decode args0
      (mkStream (nlri_bytes 1 [0; 0; 0; 0; 0; 0; 0; 1] 258 4
                   [1; 2; 0; 4; 0; 5; 0; 9])%Z 0) =
      Some (BGP_ATTR_PARSE_PROCEED, st) /\
    llri_local (nlri st) = 5%Z /\ llri_remote (nlri st) = 9%Z.
Proof. eexists. split; [vm_compute; reflexivity|]. split; reflexivity. Qed.

(** ** IP reachability *)

(** On the buffer of the scenario the four value bytes are taken for a
    second header and the decoder runs out of input before the prefix
    length: the field is not set to 24 and 10.0.0. *)
Lemma ip_reachability_scenario_fails :
  ~ exists st,
      bgp_mp_prefix_decode args0 (mkStream ip_reachability_scenario 0) =
        Some (BGP_ATTR_PARSE_PROCEED, st) /\
      ipreach_prefix (nlri st) = 24%Z /\
      ipreach_value (nlri st) = bytes [10; 0; 0]%Z.
Proof.
  intros (st & E & _).
  assert (N : bgp_mp_prefix_decode args0 (mkStream ip_reachability_scenario 0)
              = None) by (vm_compute; reflexivity).
  congruence.
Qed.

Lemma stream_get_at (pre bs rest : list byte) :
  stream_get (List.length bs)
    (mkStream (pre ++ bs ++ rest) (List.length pre)) =
  Some (bs, mkStream (pre ++ bs ++ rest) (List.length pre + List.length bs)).
Proof.
  unfold stream_get, endp; cbn [data getp].
  rewrite !length_app.
  destruct (Nat.leb_spec (List.length pre + List.length bs)
              (List.length pre + (List.length bs + List.length rest)));
    [|lia].
  rewrite skipn_app, skipn_all, Nat.sub_diag. cbn [app skipn].
  rewrite firstn_app, firstn_all, Nat.sub_diag. cbn [firstn].
  rewrite app_nil_r. reflexivity.
Qed.

(** C3 (amended). In a prefix NLRI whose top-level TLV is IP Reachability
    Information the decoder takes the four bytes that follow the TLV header
    for a second (type, length) header, reads the next byte as the prefix
    length [p], and then copies [p] bytes, as many as the value of that
    byte and not [ceil(p / 8)], to the value of the field. *)
Theorem prefix_ip_reachability_reads_prefix_bytes
  (args : bgp_attr_parser_args)
  (proto i0 i1 i2 i3 i4 i5 i6 i7 l0 l1 t0 t1 n0 n1 p : byte)
  (bs rest : list byte) :
  List.length bs = N.to_nat (Byte.to_N p) ->
  exists st,
    bgp_mp_prefix_decode args
      (mkStream ([proto; i0; i1; i2; i3; i4; i5; i6; i7;
                  x01; x09; l0; l1; t0; t1; n0; n1; p] ++ bs ++ rest) 0) =
      Some (BGP_ATTR_PARSE_PROCEED, st) /\
    ipreach_prefix (nlri st) = Z.of_N (Byte.to_N p) /\
    ipreach_value (nlri st) =
      memcpy (ipreach_value (attr_mp_bgpls_nlri args)) bs /\
    getp (strm st) = 18 + List.length bs.
Proof.
  intros Hlen.
  unfold bgp_mp_prefix_decode, run.
  eexists. split.
  - cbn.
    replace (Z.to_nat (Z.of_N (to_N p))) with (List.length bs) by lia.
    unfold bind at 1, get, on_stream. cbn [strm].
    pose proof (stream_get_at
                  [proto; i0; i1; i2; i3; i4; i5; i6; i7;
                   x01; x09; l0; l1; t0; t1; n0; n1; p] bs rest) as G.
    cbn [List.length app] in G. rewrite G.
    reflexivity.
  - split; [reflexivity|]. split; reflexivity.
Qed.

Lemma prefix_ip_reachability_reads_prefix_bytes_witness :
  exists st,
    bgp_mp_prefix_decode args0
      (mkStream ([x01; x00; x00; x00; x00; x00; x00; x00; x01;
                  x01; x09; x00; x1d; x00; x00; x00; x00; x18] ++
                 bytes [10; 0; 0; 0; 0; 0; 0; 0; 0; 0; 0; 0;
                        0; 0; 0; 0; 0; 0; 0; 0; 0; 0; 0; 0]%Z ++ []) 0) =
      Some (BGP_ATTR_PARSE_PROCEED, st) /\
    ipreach_prefix (nlri st) = 24%Z /\
    ipreach_value (nlri st) =
      memcpy (ipreach_value (attr_mp_bgpls_nlri args0))
        (bytes [10; 0; 0; 0; 0; 0; 0; 0; 0; 0; 0; 0;
                0; 0; 0; 0; 0; 0; 0; 0; 0; 0; 0; 0]%Z) /\
    getp (strm st) = 18 + 24.
Proof.
  apply (@prefix_ip_reachability_reads_prefix_bytes args0
           x01 x00 x00 x00 x00 x00 x00 x00 x01 x00 x1d x00 x00 x00 x00 x18
           (bytes [10; 0; 0; 0; 0; 0; 0; 0; 0; 0; 0; 0;
                   0; 0; 0; 0; 0; 0; 0; 0; 0; 0; 0; 0]%Z) []).
  reflexivity.
Defined.

Example prefix_ip_reachability_3_bytes :
  exists st,
    bgp_mp_prefix_decode args0
      (mkStream (nlri_bytes 1 [0; 0; 0; 0; 0; 0; 0; 1] 265 8
                   [0; 0; 0; 0; 3; 10; 0; 0])%Z 0) =
      Some (BGP_ATTR_PARSE_PROCEED, st) /\
    ipreach_prefix (nlri st) = 3%Z /\
    ipreach_value (nlri st) = bytes [10; 0; 0]%Z.
Proof. eexists. split; [vm_compute; reflexivity|]. split; reflexivity. Qed.

(** With the prefix length 24 behind the second header and only three
    bytes after it, the decoder runs out of input: it asks for 24 bytes. *)
Example prefix_ip_reachability_24_needs_24_bytes :
  bgp_mp_prefix_decode args0
    (mkStream (nlri_bytes 1 [0; 0; 0; 0; 0; 0; 0; 1] 265 8
                 [0; 0; 0; 0; 24; 10; 0; 0])%Z 0) = None.
Proof. vm_compute. reflexivity. Qed.


(** ** What the decoders leave alone *)

Lemma keeps_ret {A X} (g : mp_bgpls_nlri -> X) (a : A) : keeps g (ret a).
Proof. intros st a' st' E. injection E as _ <-. reflexivity. Qed.

Lemma keeps_bind {A B X} (g : mp_bgpls_nlri -> X) (m : M A) (f : A -> M B) :
  keeps g m -> (forall a, keeps g (f a)) -> keeps g (bind m f).
Proof.
  intros Hm Hf st b st' E.
  destruct (bind_inv _ _ _ E) as (a & st1 & E1 & E2).
  rewrite (Hf _ _ _ _ E2). exact (Hm _ _ _ E1).
Qed.

Lemma keeps_if {A X} (g : mp_bgpls_nlri -> X) (b : bool) (m1 m2 : M A) :
  keeps g m1 -> keeps g m2 -> keeps g (if b then m1 else m2).
Proof. destruct b; auto. Qed.

Lemma keeps_on_stream {A X} (g : mp_bgpls_nlri -> X)
  (rd : stream -> option (A * stream)) : keeps g (on_stream rd).
Proof.
  intros st a st'. unfold on_stream.
  destruct (rd (strm st)) as [[a' s']|]; [|discriminate].
  intros E. injection E as _ <-. reflexivity.
Qed.

Lemma keeps_get_getp {X} (g : mp_bgpls_nlri -> X) : keeps g get_getp.
Proof. intros st a st' E. injection E as _ <-. reflexivity. Qed.

Lemma keeps_zlog_info {X} (g : mp_bgpls_nlri -> X) m : keeps g (zlog_info m).
Proof. intros st a st' E. injection E as _ <-. reflexivity. Qed.

Lemma keeps_set_nlri {X} (g : mp_bgpls_nlri -> X) f :
  (forall n, g (f n) = g n) -> keeps g (set_nlri f).
Proof. intros H st a st' E. injection E as _ <-. apply H. Qed.

Lemma keeps_descriptor_loop {X} (g : mp_bgpls_nlri -> X)
  host length fixed_dst rid_dst e :
  keeps g (descriptor_sub_tlv host length fixed_dst rid_dst) ->
  keeps g (descriptor_loop host length fixed_dst rid_dst e).
Proof.
  intros Hs. unfold descriptor_loop.
  apply keeps_bind; [apply keeps_get_getp|intros p].
  generalize (e - p) as k.
  induction k as [|k IH]; cbn [descriptor_loop_fuel].
  - apply keeps_ret.
  - apply keeps_bind; [apply keeps_get_getp|intros p'].
    apply keeps_if; [|apply keeps_ret].
    apply keeps_bind; [assumption|intros _; assumption].
Qed.

Lemma keeps_mt_id_loop {X} (g : mp_bgpls_nlri -> X) :
  (forall v n, g (set_mid_value v n) = g n) ->
  forall count i, keeps g (mt_id_loop count i).
Proof.
  intros Hg. induction count as [|c IH]; intros i; cbn [mt_id_loop].
  - apply keeps_ret.
  - apply keeps_bind; [apply keeps_on_stream|intros v].
    apply keeps_bind; [|intros _; apply IH].
    apply keeps_set_nlri. intros n. apply Hg.
Qed.

(** Proves [keeps g m] along the structure of [m], for a part [g] that the
    field updates of [m] do not name. *)
Ltac keeps_tac :=
  repeat lazymatch goal with
  | |- keeps _ (bind _ _) => apply keeps_bind; [|intros ?]
  | |- keeps _ (match ?d with local_node => _ | remote_node => _ end) =>
      destruct d
  | |- keeps _ (if _ then _ else _) => apply keeps_if
  | |- keeps _ (let '(_, _) := ?p in _) => destruct p
  | |- keeps _ (ret _) => apply keeps_ret
  | |- keeps _ get_getp => apply keeps_get_getp
  | |- keeps _ (zlog_info _) => apply keeps_zlog_info
  | |- keeps _ (set_nlri _) => apply keeps_set_nlri; intros ?; reflexivity
  | |- keeps _ getc => apply keeps_on_stream
  | |- keeps _ getw => apply keeps_on_stream
  | |- keeps _ getq => apply keeps_on_stream
  | |- keeps _ get_ipv4 => apply keeps_on_stream
  | |- keeps _ (get _) => apply keeps_on_stream
  | |- keeps _ (descriptor_loop _ _ _ _ _) => apply keeps_descriptor_loop
  | |- keeps _ (descriptor_sub_tlv _ _ _ _) =>
      unfold descriptor_sub_tlv, stream_get_node
  | |- keeps _ (mt_id_loop _ _) =>
      apply keeps_mt_id_loop; intros ? ?; reflexivity
  end.

(** What a decoder has done when the header is read. *)
Lemma decode_after_ext_hdr {B} (f : Z * Z -> M B) (st : dstate) r st' :
  bind read_ext_hdr f st = Some (r, st') ->
  exists tl, top_level_tlv (strm st) = Some tl /\
             f tl (after_ext_hdr st) = Some (r, st').
Proof.
  rewrite bind_read_ext_hdr.
  destruct (top_level_tlv (strm st)) as [tl|]; [|discriminate].
  intros E. exists tl. auto.
Qed.

(** The part [g] of the NLRI when a decoder that starts with the header
    returns: what it was behind the header. *)
Ltac frame_tac g E :=
  apply decode_after_ext_hdr in E; destruct E as (? & _ & E);
  match type of E with
  | ?m ?s1 = Some _ =>
      let K := fresh "K" in
      assert (K : keeps g m) by keeps_tac;
      apply K in E; cbv beta in E
  end.

(** X5. Whatever the stream holds, a call of [bgp_mp_node_decode] that
    returns has set the protocol id and the identifier from the first nine
    bytes and has written to nothing else than the value of the local node:
    the remote node, the link identifiers, the four addresses, the
    multi-topology identifiers, the route type and the prefix are as they
    were. *)
Theorem node_decode_writes_header_and_local_node_only
  (args : bgp_attr_parser_args) (s : stream) r st :
  bgp_mp_node_decode args s = Some (r, st) ->
  ext_hdr (nlri st) = (wire_at s 0 1, wire_at s 1 8) /\
  outside_node_decode (nlri st) =
    outside_node_decode (attr_mp_bgpls_nlri args).
Proof.
  unfold bgp_mp_node_decode, run, node_decode. intros E.
  frame_tac (fun n => (ext_hdr n, outside_node_decode n)) E.
  pose proof (f_equal fst E) as E1. pose proof (f_equal snd E) as E2.
  cbn [fst snd] in E1, E2.
  unfold wire_at. rewrite Nat.add_0_r.
  rewrite E1, E2. split; reflexivity.
Qed.

Lemma node_decode_writes_header_and_local_node_only_witness :
  exists st,
    bgp_mp_node_decode args0 (mkStream (two_sub_tlv_nlri 256) 0) =
      Some (BGP_ATTR_PARSE_PROCEED, st) /\
    ext_hdr (nlri st) = (1, 1)%Z /\
    outside_node_decode (nlri st) = outside_node_decode empty_nlri.
Proof.
  eexists. split; [vm_compute; reflexivity|].
  apply (@node_decode_writes_header_and_local_node_only args0
           (mkStream (two_sub_tlv_nlri 256) 0) BGP_ATTR_PARSE_PROCEED).
  vm_compute. reflexivity.
Defined.

(** X6. Whatever the stream holds, a call of [bgp_mp_link_decode] that
    returns has set the protocol id and the identifier from the first nine
    bytes and has not written to the IPv6 neighbor address, nor to the
    route type or the prefix. *)
Theorem link_decode_never_writes_ipv6_neighbor
  (args : bgp_attr_parser_args) (s : stream) r st :
  bgp_mp_link_decode args s = Some (r, st) ->
  ext_hdr (nlri st) = (wire_at s 0 1, wire_at s 1 8) /\
  outside_link_decode (nlri st) =
    outside_link_decode (attr_mp_bgpls_nlri args).
Proof.
  unfold bgp_mp_link_decode, run, link_decode. intros E.
  frame_tac (fun n => (ext_hdr n, outside_link_decode n)) E.
  pose proof (f_equal fst E) as E1. pose proof (f_equal snd E) as E2.
  cbn [fst snd] in E1, E2.
  unfold wire_at. rewrite Nat.add_0_r.
  rewrite E1, E2. split; reflexivity.
Qed.

Lemma link_decode_never_writes_ipv6_neighbor_witness :
  exists st,
    bgp_mp_link_decode args0
      (mkStream (nlri_bytes 2 [0; 0; 0; 0; 0; 0; 0; 9] 262 16
                   [0; 0; 0; 16; 32; 1; 13; 184; 0; 0; 0; 0;
                    0; 0; 0; 0; 0; 0; 0; 1])%Z 0) =
      Some (BGP_ATTR_PARSE_PROCEED, st) /\
    ext_hdr (nlri st) = (2, 9)%Z /\
    outside_link_decode (nlri st) = outside_link_decode empty_nlri.
Proof.
  eexists. split; [vm_compute; reflexivity|].
  apply (@link_decode_never_writes_ipv6_neighbor args0
           (mkStream (nlri_bytes 2 [0; 0; 0; 0; 0; 0; 0; 9] 262 16
                        [0; 0; 0; 16; 32; 1; 13; 184; 0; 0; 0; 0;
                         0; 0; 0; 0; 0; 0; 0; 1])%Z 0)
           BGP_ATTR_PARSE_PROCEED).
  vm_compute. reflexivity.
Defined.

(** X7. Whatever the stream holds, a call of [bgp_mp_prefix_decode] that
    returns, with either status, has set the protocol id and the identifier
    from the first nine bytes and has not written to the remote node, the
    link identifiers or the four addresses. *)
Theorem prefix_decode_writes_no_link_field
  (args : bgp_attr_parser_args) (s : stream) r st :
  bgp_mp_prefix_decode args s = Some (r, st) ->
  ext_hdr (nlri st) = (wire_at s 0 1, wire_at s 1 8) /\
  outside_prefix_decode (nlri st) =
    outside_prefix_decode (attr_mp_bgpls_nlri args).
Proof.
  unfold bgp_mp_prefix_decode, run, prefix_decode. intros E.
  frame_tac (fun n => (ext_hdr n, outside_prefix_decode n)) E.
  pose proof (f_equal fst E) as E1. pose proof (f_equal snd E) as E2.
  cbn [fst snd] in E1, E2.
  unfold wire_at. rewrite Nat.add_0_r.
  rewrite E1, E2. split; reflexivity.
Qed.

Lemma prefix_decode_writes_no_link_field_witness :
  exists st,
    bgp_mp_prefix_decode args0
      (mkStream (nlri_bytes 3 [0; 0; 0; 0; 0; 0; 1; 0] 264 1
                   [0; 0; 0; 1; 2])%Z 0) =
      Some (BGP_ATTR_PARSE_PROCEED, st) /\
    ext_hdr (nlri st) = (3, 256)%Z /\
    outside_prefix_decode (nlri st) = outside_prefix_decode empty_nlri.
Proof.
  eexists. split; [vm_compute; reflexivity|].
  apply (@prefix_decode_writes_no_link_field args0
           (mkStream (nlri_bytes 3 [0; 0; 0; 0; 0; 0; 1; 0] 264 1
                        [0; 0; 0; 1; 2])%Z 0)
           BGP_ATTR_PARSE_PROCEED).
  vm_compute. reflexivity.
Defined.

(** ** Where the read position stands when a decoder returns *)

Lemma forward_ret {A} (a : A) : forward (ret a) 0.
Proof.
  intros st a' st' E. injection E as _ <-.
  repeat split; [lia|left; reflexivity|].
  exists []. symmetry; apply app_nil_r.
Qed.

Lemma forward_get_getp : forward get_getp 0.
Proof.
  intros st a' st' E. injection E as _ <-.
  repeat split; [lia|left; reflexivity|].
  exists []. symmetry; apply app_nil_r.
Qed.

Lemma forward_set_nlri f : forward (set_nlri f) 0.
Proof.
  intros st a' st' E. injection E as _ <-. cbn [strm zlog].
  repeat split; [lia|left; reflexivity|].
  exists []. symmetry; apply app_nil_r.
Qed.

Lemma forward_zlog_info m : forward (zlog_info m) 0.
Proof.
  intros st a' st' E. injection E as _ <-. cbn [strm zlog].
  repeat split; [lia|left; reflexivity|].
  eexists; reflexivity.
Qed.

Lemma forward_get (n : nat) : forward (get n) n.
Proof.
  intros st a st'. unfold get, on_stream, stream_get.
  destruct (Nat.leb_spec (getp (strm st) + n) (endp (strm st)));
    [|discriminate].
  intros E. injection E as _ <-. cbn [strm zlog data getp].
  repeat split; [lia|right; assumption|].
  exists []. symmetry; apply app_nil_r.
Qed.

Lemma forward_get_be (n : nat) : forward (on_stream (stream_get_be n)) n.
Proof.
  intros st a st'. unfold on_stream, stream_get_be, stream_get.
  destruct (Nat.leb_spec (getp (strm st) + n) (endp (strm st)));
    [|discriminate].
  intros E. injection E as _ <-. cbn [strm zlog data getp].
  repeat split; [lia|right; assumption|].
  exists []. symmetry; apply app_nil_r.
Qed.

Lemma forward_getc : forward getc 1.
Proof. apply forward_get_be. Qed.
Lemma forward_getw : forward getw 2.
Proof. apply forward_get_be. Qed.
Lemma forward_getq : forward getq 8.
Proof. apply forward_get_be. Qed.
Lemma forward_get_ipv4 : forward get_ipv4 4.
Proof. apply forward_get. Qed.

Lemma forward_weaken {A} (m : M A) lo lo' :
  forward m lo -> lo' <= lo -> forward m lo'.
Proof.
  intros Hm Hlo st a st' E. destruct (Hm _ _ _ E) as (D & P & I & L).
  repeat split; try assumption. lia.
Qed.

Lemma forward_bind {A B} (m : M A) (f : A -> M B) a lo :
  forward m a -> (forall x, forward (f x) (lo - a)) ->
  forward (bind m f) lo.
Proof.
  intros Hm Hf st b st' E.
  destruct (bind_inv _ _ _ E) as (x & st1 & E1 & E2).
  destruct (Hm _ _ _ E1) as (D1 & P1 & I1 & l1 & L1).
  destruct (Hf _ _ _ _ E2) as (D2 & P2 & I2 & l2 & L2).
  split; [congruence|]. split; [lia|]. split.
  - unfold endp in *. rewrite D1 in I2.
    destruct I2 as [I2|I2]; [|right; exact I2].
    destruct I1 as [I1|I1]; [left; congruence|right; lia].
  - exists (l1 ++ l2). rewrite L2, L1. symmetry; apply app_assoc.
Qed.

Lemma forward_if {A} (b : bool) (m1 m2 : M A) lo :
  forward m1 lo -> forward m2 lo -> forward (if b then m1 else m2) lo.
Proof. destruct b; auto. Qed.

Create HintDb fwd.
#[local] Hint Resolve forward_ret forward_get_getp forward_set_nlri
  forward_zlog_info forward_getc forward_getw forward_getq forward_get
  forward_get_ipv4 : fwd.

(** Proves [forward m lo] along the structure of [m]. *)
Ltac fwd_tac :=
  repeat lazymatch goal with
  | |- forward (bind _ _) _ =>
      first [ eapply forward_bind;
              [solve [eauto with fwd] | intros ?; cbn [Nat.sub]]
            | eapply forward_bind with (a := 0);
              [|intros ?; cbn [Nat.sub]] ]
  | |- forward (match ?d with local_node => _ | remote_node => _ end) _ =>
      destruct d
  | |- forward (if _ then _ else _) _ => apply forward_if
  | |- forward (let '(_, _) := ?p in _) _ => destruct p
  | |- forward _ _ =>
      eapply forward_weaken; [solve [eauto with fwd] | cbv; lia]
  end.

Lemma forward_stream_get_node dst n : forward (stream_get_node dst n) 0.
Proof. unfold stream_get_node. fwd_tac. Qed.

#[local] Hint Resolve forward_stream_get_node : fwd.

Lemma forward_descriptor_sub_tlv host length fixed_dst rid_dst :
  forward (descriptor_sub_tlv host length fixed_dst rid_dst) 4.
Proof. unfold descriptor_sub_tlv. fwd_tac. Qed.

#[local] Hint Resolve forward_descriptor_sub_tlv : fwd.

Lemma forward_descriptor_loop host length fixed_dst rid_dst e :
  forward (descriptor_loop host length fixed_dst rid_dst e) 0.
Proof.
  unfold descriptor_loop.
  eapply forward_bind; [apply forward_get_getp|intros p; cbn [Nat.sub]].
  generalize (e - p) as k.
  induction k as [|k IH]; cbn [descriptor_loop_fuel].
  - apply forward_ret.
  - eapply forward_bind; [apply forward_get_getp|intros p'; cbn [Nat.sub]].
    apply forward_if; [|apply forward_ret].
    eapply forward_bind; [apply forward_descriptor_sub_tlv|intros _].
    exact IH.
Qed.

Lemma forward_mt_id_loop (count : nat) : forall i,
  forward (mt_id_loop count i) 0.
Proof.
  induction count as [|c IH]; intros i; cbn [mt_id_loop].
  - apply forward_ret.
  - eapply forward_bind; [apply forward_getw|intros v; cbn [Nat.sub]].
    eapply forward_bind; [apply forward_set_nlri|intros _; cbn [Nat.sub]].
    apply IH.
Qed.

Lemma forward_read_ext_hdr : forward read_ext_hdr 13.
Proof. unfold read_ext_hdr. fwd_tac. Qed.

#[local] Hint Resolve forward_descriptor_loop forward_mt_id_loop
  forward_read_ext_hdr : fwd.

Lemma forward_node_decode host : forward (node_decode host) 13.
Proof. unfold node_decode. fwd_tac. Qed.

Lemma forward_link_decode host : forward (link_decode host) 13.
Proof. unfold link_decode. fwd_tac. Qed.

Lemma forward_prefix_decode host : forward (prefix_decode host) 13.
Proof. unfold prefix_decode. fwd_tac. Qed.

Lemma forward_run d (args : bgp_attr_parser_args) (s : stream) r st :
  forward (d (peer_host args)) 13 ->
  run d args s = Some (r, st) ->
  data (strm st) = data s /\ getp s + 13 <= getp (strm st) <= endp s.
Proof.
  unfold run. intros F E. destruct (F _ _ _ E) as (D & P & I & _).
  cbn [strm] in D, P, I. split; [exact D|]. lia.
Qed.

(** X8. A decoder that returns, with whatever status, has left the bytes of
    the stream as they were and has moved the read position forward, past
    the thirteen bytes of protocol id, identifier and TLV header at least,
    and not past the end of the buffer. *)
Theorem decoders_move_forward_inside_the_buffer
  (args : bgp_attr_parser_args) (s : stream) r st :
  bgp_mp_node_decode args s = Some (r, st) \/
  bgp_mp_link_decode args s = Some (r, st) \/
  bgp_mp_prefix_decode args s = Some (r, st) ->
  data (strm st) = data s /\ getp s + 13 <= getp (strm st) <= endp s.
Proof.
  intros [E|[E|E]].
  - exact (forward_run node_decode args s (forward_node_decode _) E).
  - exact (forward_run link_decode args s (forward_link_decode _) E).
  - exact (forward_run prefix_decode args s (forward_prefix_decode _) E).
Qed.

Lemma decoders_move_forward_inside_the_buffer_witness :
  exists st,
    bgp_mp_link_decode args0 (mkStream remote_router_id_nlri 0) =
      Some (BGP_ATTR_PARSE_PROCEED, st) /\
    data (strm st) = remote_router_id_nlri /\
    0 + 13 <= getp (strm st) <= 23.
Proof.
  eexists. split; [vm_compute; reflexivity|].
  apply (@decoders_move_forward_inside_the_buffer args0
           (mkStream remote_router_id_nlri 0) BGP_ATTR_PARSE_PROCEED).
  right. left. vm_compute. reflexivity.
Defined.

(** ** One descriptor sub-TLV *)

Lemma get_be_inv (n : nat) st v st1 :
  on_stream (stream_get_be n) st = Some (v, st1) ->
  getp (strm st) + n <= endp (strm st) /\
  v = wire_at (strm st) 0 n /\
  st1 = mkDstate (mkStream (data (strm st)) (getp (strm st) + n))
          (nlri st) (zlog st).
Proof.
  unfold on_stream, stream_get_be, stream_get, wire_at.
  destruct (Nat.leb_spec (getp (strm st) + n) (endp (strm st)));
    [|discriminate].
  intros E. rewrite Nat.add_0_r.
  split; [assumption|]. split; congruence.
Qed.

Lemma getw_inv st v st1 :
  getw st = Some (v, st1) ->
  getp (strm st) + 2 <= endp (strm st) /\
  v = wire_at (strm st) 0 2 /\
  st1 = mkDstate (mkStream (data (strm st)) (getp (strm st) + 2))
          (nlri st) (zlog st).
Proof. apply get_be_inv. Qed.

Lemma stream_get_node_inv dst n st u st' :
  stream_get_node dst n st = Some (u, st') ->
  getp (strm st') = getp (strm st) + n /\ zlog st' = zlog st.
Proof.
  unfold stream_get_node, bind, get, on_stream, stream_get.
  destruct (Nat.leb_spec (getp (strm st) + n) (endp (strm st)));
    [|discriminate].
  destruct dst; intros E; injection E as _ <-; split; reflexivity.
Qed.

(** The two header words of a sub-TLV, and what is left to do. *)
Lemma sub_tlv_header_inv {B} (f : Z -> Z -> M B) st r st' :
  (node_type <- getw ;; node_length <- getw ;; f node_type node_length) st =
    Some (r, st') ->
  getp (strm st) + 4 <= endp (strm st) /\
  f (wire_at (strm st) 0 2) (wire_at (strm st) 2 2)
    (mkDstate (mkStream (data (strm st)) (getp (strm st) + 4))
       (nlri st) (zlog st)) = Some (r, st').
Proof.
  intros E.
  destruct (bind_inv _ _ _ E) as (ty & st1 & E1 & E').
  destruct (bind_inv _ _ _ E') as (len & st2 & E2 & E3).
  apply getw_inv in E1. destruct E1 as (H1 & -> & ->).
  apply getw_inv in E2. cbn [strm data getp nlri zlog] in E2.
  destruct E2 as (H2 & -> & ->).
  unfold wire_at in *. cbn [strm data getp] in *.
  rewrite !Nat.add_0_r in *.
  replace (getp (strm st) + 2 + 2) with (getp (strm st) + 4) in * by lia.
  unfold endp in *. cbn [data] in H2.
  split; [lia|exact E3].
Qed.

Lemma descriptor_sub_tlv_step host length fixed_dst rid_dst st u st' :
  descriptor_sub_tlv host length fixed_dst rid_dst st = Some (u, st') ->
  let w := sub_tlv_width (wire_at (strm st) 0 2) (wire_at (strm st) 2 2) in
  getp (strm st') = getp (strm st) + 4 + w /\
  (0 < w -> zlog st' = zlog st) /\
  (w = 0 -> nlri st' = nlri st /\ exists m, zlog st' = zlog st ++ [m]).
Proof.
  unfold descriptor_sub_tlv. intros E.
  apply sub_tlv_header_inv in E. destruct E as (_ & E).
  unfold sub_tlv_width.
  set (ty := wire_at (strm st) 0 2) in *.
  set (len := wire_at (strm st) 2 2) in *.
  assert (Fin : forall n st0,
             stream_get_node st0 n
               (mkDstate (mkStream (data (strm st)) (getp (strm st) + 4))
                  (nlri st) (zlog st)) = Some (u, st') ->
             0 < n ->
             getp (strm st') = getp (strm st) + 4 + n /\
             (0 < n -> zlog st' = zlog st) /\
             (n = 0 -> nlri st' = nlri st /\
                       exists m, zlog st' = zlog st ++ [m])).
  { intros n dst En Hn. apply stream_get_node_inv in En.
    cbn [strm getp zlog] in En. destruct En as (P & L).
    split; [exact P|]. split; [intros _; exact L|lia]. }
  destruct (ty =? BGP_NLRI_TLV_AUTONOMOUS_SYSTEM)%Z; cbn [orb].
  { apply (Fin _ _ E). vm_compute. lia. }
  destruct (ty =? BGP_NLRI_TLV_BGP_LS_IDENTIFIER)%Z; cbn [orb].
  { apply (Fin _ _ E). vm_compute. lia. }
  destruct (ty =? BGP_NLRI_TLV_AREA_ID)%Z; cbn [orb].
  { apply (Fin _ _ E). vm_compute. lia. }
  destruct (ty =? BGP_NLRI_TLV_IGP_ROUTER_ID)%Z.
  - destruct (Z.eqb_spec len BGP_NLRI_IS_IS_NON_PSEUDONODE) as [E6|N6];
      cbn [orb].
    { rewrite E6. apply (Fin _ _ E). vm_compute. lia. }
    destruct (Z.eqb_spec len BGP_NLRI_IS_IS_PSEUDONODE) as [E7|N7];
      cbn [orb].
    { rewrite E7. apply (Fin _ _ E). vm_compute. lia. }
    destruct (Z.eqb_spec len BGP_NLRI_OSPF_NON_PSEUDONODE) as [E4|N4];
      cbn [orb].
    { rewrite E4. apply (Fin _ _ E). vm_compute. lia. }
    destruct (Z.eqb_spec len BGP_NLRI_OSPF_PSEUDONODE) as [E8|N8];
      cbn [orb].
    { rewrite E8. apply (Fin _ _ E). vm_compute. lia. }
    injection E as _ <-. cbn [strm getp nlri zlog].
    split; [lia|]. split; [lia|]. intros _. split; [reflexivity|].
    eexists; reflexivity.
  - injection E as _ <-. cbn [strm getp nlri zlog].
    split; [lia|]. split; [lia|]. intros _. split; [reflexivity|].
    eexists; reflexivity.
Qed.

(** X9. A pass over a descriptor sub-TLV moves the read position by the
    four bytes of the sub-TLV header and by a number of value bytes that
    the type decides: four for an Autonomous System, a BGP-LS Identifier or
    an Area-ID whatever length the sub-TLV declares, the declared length
    for an IGP Router-ID that declares 4, 6, 7 or 8, and none in every
    other case. In that last case the value of the sub-TLV is not passed
    by: one message is logged, nothing is stored. *)
Theorem descriptor_sub_tlv_width_by_type
  host length fixed_dst rid_dst st u st' :
  descriptor_sub_tlv host length fixed_dst rid_dst st = Some (u, st') ->
  getp (strm st') =
    getp (strm st) + 4 +
    sub_tlv_width (wire_at (strm st) 0 2) (wire_at (strm st) 2 2) /\
  (sub_tlv_width (wire_at (strm st) 0 2) (wire_at (strm st) 2 2) = 0 ->
   nlri st' = nlri st /\ exists m, zlog st' = zlog st ++ [m]).
Proof.
  intros E. destruct (descriptor_sub_tlv_step _ _ _ _ _ E) as (P & _ & Z0).
  split; assumption.
Qed.

Lemma descriptor_sub_tlv_width_by_type_witness :
  exists st',
    descriptor_sub_tlv "peer" 12 local_node local_node
      (mkDstate (mkStream (bytes [2; 0; 0; 9; 1; 2; 3; 4; 5; 6; 7; 8; 9]%Z) 0)
         empty_nlri []) = Some (tt, st') /\
    getp (strm st') = 0 + 4 + 4.
Proof.
  eexists. split; [vm_compute; reflexivity|].
  apply (@descriptor_sub_tlv_width_by_type "peer" 12%Z local_node local_node
           (mkDstate
              (mkStream (bytes [2; 0; 0; 9; 1; 2; 3; 4; 5; 6; 7; 8; 9]%Z) 0)
              empty_nlri []) tt).
  vm_compute. reflexivity.
Defined.

(** ** The end of a descriptor scope *)

Lemma descriptor_loop_fuel_bound host length fixed_dst rid_dst e :
  forall k st u st',
    descriptor_loop_fuel k host length fixed_dst rid_dst e st =
      Some (u, st') ->
    e - getp (strm st) <= k ->
    (e <= getp (strm st) -> st' = st) /\
    (getp (strm st) < e -> e <= getp (strm st') <= e + 11).
Proof.
  induction k as [|k IH]; intros st u st' E Hk.
  - injection E as _ <-. split; [reflexivity|lia].
  - cbn [descriptor_loop_fuel] in E.
    unfold bind at 1, get_getp, stream_get_getp in E.
    destruct (Nat.ltb_spec (getp (strm st)) e) as [Hlt|Hge].
    + split; [lia|intros _].
      destruct (bind_inv _ _ _ E) as ([] & st1 & E1 & E2).
      destruct (advances_descriptor_sub_tlv host length fixed_dst rid_dst st)
        as [Hadv _].
      destruct (Hadv _ _ E1) as (_ & P & _).
      destruct (IH _ _ _ E2) as (Hin & Hout); [lia|].
      destruct (Nat.lt_ge_cases (getp (strm st1)) e) as [H1|H1].
      * apply Hout. exact H1.
      * rewrite (Hin H1). lia.
    + injection E as _ <-. split; [reflexivity|lia].
Qed.

Lemma descriptor_loop_bound host length fixed_dst rid_dst e st u st' :
  descriptor_loop host length fixed_dst rid_dst e st = Some (u, st') ->
  getp (strm st) <= e ->
  e <= getp (strm st') <= e + 11.
Proof.
  unfold descriptor_loop. unfold bind, get_getp, stream_get_getp.
  intros E H.
  destruct (@descriptor_loop_fuel_bound host length fixed_dst rid_dst e
              _ st u st' E) as (Hin & Hout); [lia|].
  destruct (Nat.lt_ge_cases (getp (strm st)) e) as [H1|H1].
  - apply Hout. exact H1.
  - rewrite (Hin H1). lia.
Qed.

(** X10. In the link decoder and in the prefix decoder a descriptor scope
    is left only when the read position has reached the end the top-level
    length declares, and a pass that starts before that end is not cut
    short: on return the position stands at the declared end or up to
    eleven bytes behind it. *)
Theorem descriptor_scope_is_overrun_by_at_most_11_bytes
  (args : bgp_attr_parser_args) (s : stream) type length r st :
  top_level_tlv s = Some (type, length) ->
  (bgp_mp_link_decode args s = Some (r, st) /\
   (type = BGP_NLRI_TLV_LOCAL_NODE_DESCRIPTORS \/
    type = BGP_NLRI_TLV_REMOTE_NODE_DESCRIPTORS)) \/
  (bgp_mp_prefix_decode args s = Some (r, st) /\
   type = BGP_NLRI_TLV_LOCAL_NODE_DESCRIPTORS) ->
  getp s + 13 + Z.to_nat length <= getp (strm st) <=
  getp s + 13 + Z.to_nat length + 11.
Proof.
  intros Etl [(E & Hty)|(E & Hty)].
  - unfold bgp_mp_link_decode, run, link_decode in E.
    rewrite bind_read_ext_hdr in E. cbn [strm] in E. rewrite Etl in E.
    unfold bind at 1, get_getp, stream_get_getp in E.
    destruct (bind_inv _ _ _ E) as ([] & st1 & E1 & E2).
    injection E2 as _ <-.
    destruct Hty as [->| ->]; cbn [Z.eqb Pos.eqb] in E1;
      apply descriptor_loop_bound in E1; cbn [strm getp after_ext_hdr] in *;
      lia.
  - unfold bgp_mp_prefix_decode, run, prefix_decode in E.
    rewrite bind_read_ext_hdr in E. cbn [strm] in E. rewrite Etl in E.
    subst type. cbn [Z.eqb Pos.eqb] in E.
    unfold bind at 1, get_getp, stream_get_getp in E.
    destruct (bind_inv _ _ _ E) as ([] & st1 & E1 & E2).
    injection E2 as _ <-.
    apply descriptor_loop_bound in E1; cbn [strm getp after_ext_hdr] in *;
      lia.
Qed.

Lemma descriptor_scope_is_overrun_by_at_most_11_bytes_witness :
  exists st,
    bgp_mp_link_decode args0
      (mkStream (nlri_bytes 1 [0; 0; 0; 0; 0; 0; 0; 1] 256 9
                   [2; 0; 0; 4; 0; 0; 253; 232;
                    2; 3; 0; 8; 1; 2; 3; 4; 5; 6; 7; 8])%Z 0) =
      Some (BGP_ATTR_PARSE_PROCEED, st) /\
    getp (strm st) = 33 /\
    0 + 13 + Z.to_nat 9 <= getp (strm st) <= 0 + 13 + Z.to_nat 9 + 11.
Proof.
  eexists. split; [vm_compute; reflexivity|]. split; [reflexivity|].
  apply (@descriptor_scope_is_overrun_by_at_most_11_bytes args0
           (mkStream (nlri_bytes 1 [0; 0; 0; 0; 0; 0; 0; 1] 256 9
                        [2; 0; 0; 4; 0; 0; 253; 232;
                         2; 3; 0; 8; 1; 2; 3; 4; 5; 6; 7; 8])%Z 0)
           256%Z 9%Z BGP_ATTR_PARSE_PROCEED).
  - vm_compute. reflexivity.
  - left. split; [vm_compute; reflexivity|left; reflexivity].
Defined.

(** ** Multi-topology identifiers *)

Lemma nth_array_set_eq (i : nat) : forall a v,
  nth i (array_set a i v) 0%Z = v.
Proof.
  induction i as [|i IH]; intros a v; destruct a; cbn [array_set nth];
    try reflexivity; apply IH.
Qed.

Lemma nth_array_set_ne (i : nat) : forall a j v,
  j <> i -> nth j (array_set a i v) 0%Z = nth j a 0%Z.
Proof.
  induction i as [|i IH]; intros a j v H; destruct a, j;
    cbn [array_set nth]; try reflexivity; try lia.
  - destruct j; reflexivity.
  - rewrite IH by lia. destruct j; reflexivity.
  - apply IH. lia.
Qed.

Lemma wire_at_shift (d : list byte) (g k off n : nat) :
  wire_at (mkStream d (g + k)) off n = wire_at (mkStream d g) (k + off) n.
Proof.
  unfold wire_at; cbn [getp data]. do 3 f_equal. lia.
Qed.

(** The loop stores word after word, from index [i] on. *)
Lemma mt_id_loop_spec (count : nat) : forall i st u st',
  mt_id_loop count i st = Some (u, st') ->
  getp (strm st') = getp (strm st) + 2 * count /\
  (forall j, j < count ->
     nth (i + j) (mid_value (nlri st')) 0%Z = wire_at (strm st) (2 * j) 2) /\
  (forall j, j < i ->
     nth j (mid_value (nlri st')) 0%Z = nth j (mid_value (nlri st)) 0%Z).
Proof.
  induction count as [|c IH]; intros i st u st' E.
  - injection E as _ <-. split; [lia|]. split; [intros j Hj; lia|].
    reflexivity.
  - cbn [mt_id_loop] in E.
    destruct (bind_inv _ _ _ E) as (v & st1 & E1 & E').
    apply getw_inv in E1. destruct E1 as (_ & -> & ->).
    rewrite bind_some with (a := tt)
      (st1 := mkDstate (mkStream (data (strm st)) (getp (strm st) + 2))
                (set_mid_value
                   (array_set (mid_value (nlri st)) i
                      (wire_at (strm st) 0 2)) (nlri st)) (zlog st))
      in E' by reflexivity.
    apply IH in E'. cbn [strm getp nlri mid_value set_mid_value] in E'.
    destruct E' as (P & V & K).
    split; [lia|]. split.
    + intros j Hj. destruct j as [|j].
      * rewrite Nat.add_0_r, K by lia. apply nth_array_set_eq.
      * replace (i + S j) with (S i + j) by lia. rewrite V by lia.
        destruct (strm st) as [d g]. cbn [data getp].
        rewrite wire_at_shift.
        replace (2 * S j) with (2 + 2 * j) by lia. reflexivity.
    + intros j Hj. rewrite K by lia. apply nth_array_set_ne. lia.
Qed.

Lemma mt_id_case_spec st u st' :
  (node_type <- getw ;;
   node_length <- getw ;;
   mt_id_loop (Z.to_nat (node_length / 2)) 0) st = Some (u, st') ->
  let n := Z.to_nat (wire_at (strm st) 2 2 / 2) in
  getp (strm st') = getp (strm st) + 4 + 2 * n /\
  forall j, j < n ->
    nth j (mid_value (nlri st')) 0%Z = wire_at (strm st) (4 + 2 * j) 2.
Proof.
  intros E n. apply sub_tlv_header_inv in E. destruct E as (_ & E).
  fold n in E. apply mt_id_loop_spec in E.
  cbn [strm getp nlri] in E. destruct E as (P & V & _).
  split; [lia|]. intros j Hj. specialize (V j Hj).
  cbn [Nat.add] in V. rewrite V.
  destruct (strm st) as [d g]. cbn [data getp].
  rewrite wire_at_shift. reflexivity.
Qed.

(** X11. Under a top-level TLV of type Multi-Topology ID the link decoder
    and the prefix decoder take the four bytes behind the TLV header for a
    second header and store as many 16-bit words as half the length that
    second header declares, rounded down; the length of the top-level TLV
    plays no part. Word [j] of the array is the word that stands
    [17 + 2 * j] bytes into the NLRI, and the read position ends behind the
    last word stored. *)
Theorem multi_topology_ids_follow_second_header
  (args : bgp_attr_parser_args) (s : stream) length r st :
  top_level_tlv s = Some (BGP_NLRI_TLV_MULTI_TOPOLOGY_ID, length) ->
  bgp_mp_link_decode args s = Some (r, st) \/
  bgp_mp_prefix_decode args s = Some (r, st) ->
  getp (strm st) = getp s + 17 + 2 * Z.to_nat (wire_at s 15 2 / 2) /\
  forall j, j < Z.to_nat (wire_at s 15 2 / 2) ->
    nth j (mid_value (nlri st)) 0%Z = wire_at s (17 + 2 * j) 2.
Proof.
  intros Etl [E|E].
  - unfold bgp_mp_link_decode, run, link_decode in E.
    rewrite bind_read_ext_hdr in E. cbn [strm] in E. rewrite Etl in E.
    cbn [Z.eqb Pos.eqb] in E.
    unfold bind at 1, get_getp, stream_get_getp in E.
    destruct (bind_inv _ _ _ E) as ([] & st1 & E1 & E2).
    injection E2 as _ <-.
    apply mt_id_case_spec in E1. cbn [strm after_ext_hdr getp] in E1.
    destruct s as [d g]. cbn [data getp] in *.
    rewrite !wire_at_shift in E1. change (13 + 2) with 15 in E1.
    destruct E1 as (P & V). split; [lia|].
    intros j Hj. rewrite (V j Hj), wire_at_shift. reflexivity.
  - unfold bgp_mp_prefix_decode, run, prefix_decode in E.
    rewrite bind_read_ext_hdr in E. cbn [strm] in E. rewrite Etl in E.
    cbn [Z.eqb Pos.eqb] in E.
    assert (E' : exists st1,
               (node_type <- getw ;;
                node_length <- getw ;;
                mt_id_loop (Z.to_nat (node_length / 2)) 0)
                 (after_ext_hdr (mkDstate s (attr_mp_bgpls_nlri args) [])) =
                 Some (tt, st1) /\ st = st1).
    { destruct (bind_inv _ _ _ E) as (ty & sa & Ea & Eb).
      destruct (bind_inv _ _ _ Eb) as (len & sb & Eb1 & Ec).
      destruct (bind_inv _ _ _ Ec) as ([] & sc & Ec1 & Ed).
      injection Ed as _ <-. exists sc. split; [|reflexivity].
      unfold bind. rewrite Ea, Eb1. exact Ec1. }
    destruct E' as (st1 & E1 & ->).
    apply mt_id_case_spec in E1. cbn [strm after_ext_hdr getp] in E1.
    destruct s as [d g]. cbn [data getp] in *.
    rewrite !wire_at_shift in E1. change (13 + 2) with 15 in E1.
    destruct E1 as (P & V). split; [lia|].
    intros j Hj. rewrite (V j Hj), wire_at_shift. reflexivity.
Qed.

Lemma multi_topology_ids_follow_second_header_witness :
  exists st,
    bgp_mp_prefix_decode args0
      (mkStream (nlri_bytes 1 [0; 0; 0; 0; 0; 0; 0; 1] 263 2
                   [0; 0; 0; 5; 0; 7; 1; 44; 9])%Z 0) =
      Some (BGP_ATTR_PARSE_PROCEED, st) /\
    getp (strm st) = 21 /\
    nth 1 (mid_value (nlri st)) 0%Z = 300%Z.
Proof.
  eexists. split; [vm_compute; reflexivity|].
  destruct (@multi_topology_ids_follow_second_header args0
              (mkStream (nlri_bytes 1 [0; 0; 0; 0; 0; 0; 0; 1] 263 2
                           [0; 0; 0; 5; 0; 7; 1; 44; 9])%Z 0)
              2%Z BGP_ATTR_PARSE_PROCEED
              (mkDstate
                 (mkStream (nlri_bytes 1 [0; 0; 0; 0; 0; 0; 0; 1] 263 2
                              [0; 0; 0; 5; 0; 7; 1; 44; 9])%Z 21)
                 (set_mid_value [7; 300]%Z
                    (set_ext_hdr_nlri_identifier 1%Z
                       (set_ext_hdr_proto_id 1%Z empty_nlri))) []))
    as (P & V).
  - vm_compute. reflexivity.
  - right. vm_compute. reflexivity.
  - split; [exact P|]. apply (V 1). vm_compute. lia.
Defined.

(** ** The single pass of the node decoder *)

(** X12. The node decoder enters its descriptor pass whenever the declared
    length of the top-level TLV is not zero, and what the pass reads does
    not depend on that length: the four bytes of one sub-TLV header and
    the value bytes its type calls for. With a declared length of zero the
    decoder stops behind the thirteen header bytes and the value of the
    local node is as it was. *)
Theorem node_decode_reads_one_sub_tlv
  (args : bgp_attr_parser_args) (s : stream) type length r st :
  top_level_tlv s = Some (type, length) ->
  bgp_mp_node_decode args s = Some (r, st) ->
  getp (strm st) =
    getp s + 13 +
    (if (length =? 0)%Z then 0
     else 4 + sub_tlv_width (wire_at s 13 2) (wire_at s 15 2)) /\
  (length = 0%Z ->
   local_node_value (nlri st) = local_node_value (attr_mp_bgpls_nlri args)).
Proof.
  intros Etl E.
  destruct (top_level_tlv_range _ Etl) as ((_ & Hlen) & _).
  unfold bgp_mp_node_decode, run, node_decode in E.
  rewrite bind_read_ext_hdr in E. cbn [strm] in E. rewrite Etl in E.
  set (st1 := after_ext_hdr (mkDstate s (attr_mp_bgpls_nlri args) [])) in E.
  destruct (bind_inv _ _ _ E) as ([] & st2 & E0 & E1).
  assert (S2 : strm st2 = strm st1 /\ nlri st2 = nlri st1).
  { destruct (negb _); injection E0 as <-; split; reflexivity. }
  destruct S2 as (S2 & N2).
  unfold bind at 1 2, get_getp, stream_get_getp in E1.
  destruct (bind_inv _ _ _ E1) as ([] & st3 & E2 & E3).
  injection E3 as _ <-.
  destruct (Nat.ltb_spec (getp (strm st2)) (getp (strm st2) + Z.to_nat length))
    as [Hlt|Hge].
  - destruct (Z.eqb_spec length 0) as [->|_]; [simpl in Hlt; lia|].
    apply descriptor_sub_tlv_step in E2. destruct E2 as (P & _).
    rewrite S2 in P. cbn [st1 after_ext_hdr strm getp] in P.
    destruct s as [d g]. cbn [data getp] in *.
    rewrite !wire_at_shift in P. change (13 + 0) with 13 in P.
    change (13 + 2) with 15 in P.
    split; [lia|intros H0; lia].
  - destruct (Z.eqb_spec length 0) as [_|Hn]; [|lia].
    injection E2 as <-. rewrite S2, N2. cbn [st1 after_ext_hdr strm getp].
    split; [lia|reflexivity].
Qed.

Lemma node_decode_reads_one_sub_tlv_witness :
  exists st,
    bgp_mp_node_decode args0
      (mkStream (nlri_bytes 1 [0; 0; 0; 0; 0; 0; 0; 1] 256 1
                   [2; 3; 0; 6; 1; 2; 3; 4; 5; 6; 7])%Z 0) =
      Some (BGP_ATTR_PARSE_PROCEED, st) /\
    getp (strm st) = 23.
Proof.
  eexists. split; [vm_compute; reflexivity|].
  apply (@node_decode_reads_one_sub_tlv args0
           (mkStream (nlri_bytes 1 [0; 0; 0; 0; 0; 0; 0; 1] 256 1
                        [2; 3; 0; 6; 1; 2; 3; 4; 5; 6; 7])%Z 0)
           256%Z 1%Z BGP_ATTR_PARSE_PROCEED); vm_compute; reflexivity.
Defined.

(** ** The IPv6 neighbor address *)

(** X13. Under a top-level TLV of type IPv6 Neighbor Address (262) the link
    decoder takes four bytes for a second header and copies the sixteen
    bytes behind it to the IPv6 interface address: the field of the
    neighbor address is as it was. *)
Theorem link_decode_ipv6_neighbor_is_stored_as_interface_address
  (args : bgp_attr_parser_args)
  (proto i0 i1 i2 i3 i4 i5 i6 i7 l0 l1 t0 t1 n0 n1 : byte)
  (addr rest : list byte) :
  List.length addr = 16 ->
  exists st,
    bgp_mp_link_decode args
      (mkStream ([proto; i0; i1; i2; i3; i4; i5; i6; i7;
                  x01; x06; l0; l1; t0; t1; n0; n1] ++ addr ++ rest) 0) =
      Some (BGP_ATTR_PARSE_PROCEED, st) /\
    i6ia_value (nlri st) = memcpy (i6ia_value (attr_mp_bgpls_nlri args)) addr /\
    i6na_value (nlri st) = i6na_value (attr_mp_bgpls_nlri args) /\
    getp (strm st) = 33.
Proof.
  intros Hlen.
  do 16 (destruct addr as [|? addr]; [discriminate Hlen|]).
  destruct addr; [|discriminate Hlen].
  unfold bgp_mp_link_decode, run.
  eexists. split; [cbn; reflexivity|].
  split; [reflexivity|]. split; reflexivity.
Qed.

Lemma link_decode_ipv6_neighbor_is_stored_as_interface_address_witness :
  exists st,
    bgp_mp_link_decode args0
      (mkStream ([x02; x00; x00; x00; x00; x00; x00; x00; x09;
                  x01; x06; x00; x10; x00; x00; x00; x10] ++
                 bytes [32; 1; 13; 184; 0; 0; 0; 0;
                        0; 0; 0; 0; 0; 0; 0; 1]%Z ++ []) 0) =
      Some (BGP_ATTR_PARSE_PROCEED, st) /\
    i6ia_value (nlri st) =
      memcpy (i6ia_value (attr_mp_bgpls_nlri args0))
        (bytes [32; 1; 13; 184; 0; 0; 0; 0; 0; 0; 0; 0; 0; 0; 0; 1]%Z) /\
    i6na_value (nlri st) = i6na_value (attr_mp_bgpls_nlri args0) /\
    getp (strm st) = 33.
Proof.
  apply (@link_decode_ipv6_neighbor_is_stored_as_interface_address args0
           x02 x00 x00 x00 x00 x00 x00 x00 x09 x00 x10 x00 x00 x00 x10
           (bytes [32; 1; 13; 184; 0; 0; 0; 0; 0; 0; 0; 0; 0; 0; 0; 1]%Z) []).
  reflexivity.
Defined.

(** ** What the fatal return of the prefix decoder leaves behind *)

(** X14. When the prefix decoder returns
    [BGP_ATTR_PARSE_ERROR_NOTIFYPLS] it has consumed exactly the thirteen
    bytes of the header, has logged one message that carries the declared
    length, and has already overwritten the protocol id and the identifier
    of the attribute with those of the rejected NLRI; every other field is
    as it was. *)
Theorem prefix_decode_error_keeps_header_fields_written
  (args : bgp_attr_parser_args) (s : stream) st :
  bgp_mp_prefix_decode args s = Some (BGP_ATTR_PARSE_ERROR_NOTIFYPLS, st) ->
  getp (strm st) = getp s + 13 /\
  nlri st =
    set_ext_hdr_nlri_identifier (wire_at s 1 8)
      (set_ext_hdr_proto_id (wire_at s 0 1) (attr_mp_bgpls_nlri args)) /\
  exists type length,
    top_level_tlv s = Some (type, length) /\
    zlog st = [InvalidLinkStateIsisTlv (peer_host args) length].
Proof.
  unfold bgp_mp_prefix_decode, run.
  set (st0 := mkDstate s (attr_mp_bgpls_nlri args) []).
  pose proof (prefix_decode_cases (peer_host args) st0) as Hc.
  change (strm st0) with s in Hc.
  intros E.
  destruct (top_level_tlv s) as [[type length]|]; [|congruence].
  destruct (_ || _)%bool.
  - specialize (Hc _ _ E). discriminate Hc.
  - rewrite Hc in E. injection E as <-.
    cbn [strm nlri zlog getp after_ext_hdr st0 app].
    unfold wire_at. rewrite Nat.add_0_r.
    split; [reflexivity|]. split; [reflexivity|].
    exists type, length. split; reflexivity.
Qed.

Lemma prefix_decode_error_keeps_header_fields_written_witness :
  exists st,
    bgp_mp_prefix_decode args0
      (mkStream (nlri_bytes 3 [0; 0; 0; 0; 0; 0; 0; 7] 300 4
                   [1; 2; 3; 4])%Z 0) =
      Some (BGP_ATTR_PARSE_ERROR_NOTIFYPLS, st) /\
    getp (strm st) = 13 /\
    ext_hdr (nlri st) = (3, 7)%Z.
Proof.
  eexists. split; [vm_compute; reflexivity|].
  destruct (@prefix_decode_error_keeps_header_fields_written args0
              (mkStream (nlri_bytes 3 [0; 0; 0; 0; 0; 0; 0; 7] 300 4
                           [1; 2; 3; 4])%Z 0)
              (mkDstate
                 (mkStream (nlri_bytes 3 [0; 0; 0; 0; 0; 0; 0; 7] 300 4
                              [1; 2; 3; 4])%Z 13)
                 (set_ext_hdr_nlri_identifier 7%Z
                    (set_ext_hdr_proto_id 3%Z empty_nlri))
                 [InvalidLinkStateIsisTlv "192.0.2.1" 4%Z]))
    as (P & N & _).
  - vm_compute. reflexivity.
  - split; [exact P|]. reflexivity.
Defined.

End DecoderFacts.

(* ================================================================== *)
(** * Properties of the attribute TLV walker                           *)
(* ================================================================== *)

Section WalkerFacts.
Import Stream Walker.

Variable host : endianness.
Variable sizeof_pointer : Z.
Variable BGP_TLV_BODY_SIZE : nat -> nat.
Variable mem : list byte.

(** ** The monad *)

Lemma wbind_inv {A B} (m : W A) (f : A -> W B) st b st' :
  bind m f st = Some (b, st') ->
  exists a st1, m st = Some (a, st1) /\ f a st1 = Some (b, st').
Proof.
  unfold bind. destruct (m st) as [[a st1]|]; [|discriminate].
  intros E. exists a, st1. auto.
Qed.

Lemma wbind_some {A B} (m : W A) (f : A -> W B) st a st1 :
  m st = Some (a, st1) -> bind m f st = f a st1.
Proof. intros E. unfold bind. rewrite E. reflexivity. Qed.

Lemma wret_inv {A} (a b : A) st st' :
  ret a st = Some (b, st') -> b = a /\ st' = st.
Proof. unfold ret. intros E. split; congruence. Qed.

Lemma wreturns_only_ret {A} (r : A) : returns_only (ret r) r.
Proof. intros st a st' [= <- _]. reflexivity. Qed.

Lemma wreturns_only_bind {A B} (m : W A) (f : A -> W B) (r : B) :
  (forall a, returns_only (f a) r) -> returns_only (bind m f) r.
Proof.
  intros Hf st b st' E.
  destruct (wbind_inv _ _ _ E) as (a & st1 & _ & E2).
  exact (Hf a _ _ _ E2).
Qed.

(** ** Memory *)

Lemma ld_bytes_some off n st :
  off + n <= List.length mem ->
  ld_bytes mem off n st =
  Some (firstn n (skipn off mem), mkWstate (reads st ++ seq off n) (out st)).
Proof.
  intros H. unfold ld_bytes.
  destruct (Nat.leb_spec (off + n) (List.length mem)); [reflexivity|lia].
Qed.

Lemma ld_bytes_inv off n st bs st' :
  ld_bytes mem off n st = Some (bs, st') ->
  off + n <= List.length mem /\ bs = firstn n (skipn off mem) /\
  st' = mkWstate (reads st ++ seq off n) (out st).
Proof.
  unfold ld_bytes.
  destruct (Nat.leb_spec (off + n) (List.length mem)); [|discriminate].
  intros [= <- <-]. auto.
Qed.

Lemma ld_some off n st :
  off + n <= List.length mem ->
  ld host mem off n st =
  Some (host_value host (firstn n (skipn off mem)),
        mkWstate (reads st ++ seq off n) (out st)).
Proof.
  intros H. unfold ld.
  erewrite wbind_some by (apply ld_bytes_some; exact H).
  reflexivity.
Qed.

Lemma ld_inv off n st v st' :
  ld host mem off n st = Some (v, st') ->
  off + n <= List.length mem /\
  v = host_value host (firstn n (skipn off mem)) /\
  st' = mkWstate (reads st ++ seq off n) (out st).
Proof.
  unfold ld. intros E. apply wbind_inv in E.
  destruct E as (bs & st1 & E1 & E2).
  apply ld_bytes_inv in E1. destruct E1 as (H & -> & ->).
  injection E2 as <- <-. auto.
Qed.

Lemma two_bytes (off : nat) :
  off + 2 <= List.length mem ->
  exists a b, firstn 2 (skipn off mem) = [a; b].
Proof.
  intros H.
  assert (L : List.length (firstn 2 (skipn off mem)) = 2)
    by (rewrite length_firstn, length_skipn; lia).
  destruct (firstn 2 (skipn off mem)) as [|a [|b [|c l]]];
    try discriminate L.
  exists a, b. reflexivity.
Qed.

Lemma byte_range (b : byte) : (0 <= Z.of_N (Byte.to_N b) < 256)%Z.
Proof. pose proof (Byte.to_N_bounded b). lia. Qed.

(** [ntohs] of a 16-bit field read by the host is the value on the wire. *)
Lemma ntohs_host_value (a b : byte) :
  ntohs host (host_value host [a; b]) = be_value [a; b].
Proof.
  pose proof (byte_range a). pose proof (byte_range b).
  unfold ntohs, host_value, be_value. destruct host; cbn [rev app fold_left].
  - Z.div_mod_to_equations. lia.
  - Z.div_mod_to_equations. lia.
Qed.

(** A 16-bit field that is zero on the wire is zero for the host. *)
Lemma host_value_zero (a b : byte) :
  be_value [a; b] = 0%Z -> host_value host [a; b] = 0%Z.
Proof.
  pose proof (byte_range a). pose proof (byte_range b).
  unfold host_value, be_value. destruct host; cbn [rev app fold_left]; lia.
Qed.

Lemma ntohs_field (off : nat) :
  off + 2 <= List.length mem ->
  ntohs host (host_value host (firstn 2 (skipn off mem))) = wire16 mem off.
Proof.
  intros H. unfold wire16. destruct (two_bytes off H) as (a & b & ->).
  apply ntohs_host_value.
Qed.

Lemma zero_field (off : nat) :
  off + 2 <= List.length mem -> wire16 mem off = 0%Z ->
  host_value host (firstn 2 (skipn off mem)) = 0%Z.
Proof.
  intros H. unfold wire16. destruct (two_bytes off H) as (a & b & ->).
  apply host_value_zero.
Qed.


(** ** The switch *)

Lemma lookup_registry_none (vty : bool) (type : Z) :
  registered type = false ->
  lookup (registry host sizeof_pointer BGP_TLV_BODY_SIZE mem vty) type = None.
Proof.
  unfold registered, registry. cbn [existsb lookup].
  repeat (destruct (type =? _)%Z; [discriminate|]; cbn [orb]).
  reflexivity.
Qed.


(** ** Array formatters *)

Lemma show_values_ok (vty : bool) (vfmt lfmt : string) (conv : Z -> Z)
  (width tlvh : nat) :
  forall count i st,
    tlvh + 4 + width * (i + count) <= List.length mem ->
    exists st',
      show_values host mem vty vfmt lfmt conv width tlvh count i st =
        Some (tt, st') /\
      out st' =
        out st ++
        map (fun j =>
               (if vty then vty_out vfmt else zlog_debug lfmt)
                 [Z.of_nat j;
                  conv (host_value host
                          (firstn width (skipn (tlvh + 4 + width * j) mem)))])
            (seq i count).
Proof.
  induction count as [|c IH]; intros i st H.
  - eexists. split; [reflexivity|]. symmetry. apply app_nil_r.
  - cbn [show_values]. unfold value.
    erewrite wbind_some by (apply ld_some; nia).
    destruct (IH (S i)
                (mkWstate (reads st ++ seq (tlvh + 4 + width * i) width)
                   (out st ++
                    [(if vty then vty_out vfmt else zlog_debug lfmt)
                       [Z.of_nat i;
                        conv (host_value host
                                (firstn width
                                   (skipn (tlvh + 4 + width * i) mem)))]])))
      as (st' & E & O); [nia|].
    exists st'. split.
    + erewrite wbind_some; [exact E|].
      unfold show, print. destruct vty; reflexivity.
    + rewrite O. cbn [out seq map]. rewrite <- app_assoc. reflexivity.
Qed.

Lemma return_tlv_size_ok (tlvh : nat) (st : wstate) :
  tlvh + 4 <= List.length mem ->
  return_tlv_size host BGP_TLV_BODY_SIZE mem tlvh st =
  Some ((Z.of_nat (tlv_size BGP_TLV_BODY_SIZE mem tlvh) mod 65536)%Z,
        mkWstate (reads st ++ seq (tlvh + 2) 2) (out st)).
Proof.
  intros H. unfold return_tlv_size, BGP_TLV_SIZE, nlri_length.
  erewrite wbind_some.
  2:{ erewrite wbind_some by (apply ld_some; lia). reflexivity. }
  rewrite ntohs_field by lia. unfold ret, tlv_size, wire16, BGP_TLV_HDR_SIZE.
  do 3 f_equal. lia.
Qed.


(** ** One pass of the walker *)

Lemma return_tlv_size_inv (tlvh : nat) (st : wstate) r st' :
  return_tlv_size host BGP_TLV_BODY_SIZE mem tlvh st = Some (r, st') ->
  r = (Z.of_nat (tlv_size BGP_TLV_BODY_SIZE mem tlvh) mod 65536)%Z.
Proof.
  intros E.
  assert (H : tlvh + 4 <= List.length mem).
  { unfold return_tlv_size, BGP_TLV_SIZE, nlri_length in E.
    apply wbind_inv in E. destruct E as (sz & st1 & E & _).
    apply wbind_inv in E. destruct E as (len & st2 & E & _).
    apply ld_inv in E. lia. }
  rewrite return_tlv_size_ok in E by assumption.
  injection E as <- _. reflexivity.
Qed.

Lemma hdr_next_inv (tlvh : nat) (st : wstate) next st' :
  BGP_TLV_HDR_NEXT host BGP_TLV_BODY_SIZE mem tlvh st = Some (next, st') ->
  tlvh + 4 <= List.length mem /\
  next = tlvh + tlv_size BGP_TLV_BODY_SIZE mem tlvh.
Proof.
  unfold BGP_TLV_HDR_NEXT, BGP_TLV_SIZE, nlri_length. intros E.
  apply wbind_inv in E. destruct E as (sz & st1 & E & E').
  apply wbind_inv in E. destruct E as (len & st2 & E & E'').
  apply ld_inv in E. destruct E as (H & -> & ->).
  apply wret_inv in E''. destruct E'' as (-> & ->).
  apply wret_inv in E'. destruct E' as (-> & _).
  split; [lia|].
  rewrite ntohs_field by lia. unfold tlv_size, wire16, BGP_TLV_HDR_SIZE. lia.
Qed.

Lemma walker_iteration_inv (vty : bool) (tlvh : nat) (sum : Z) st tlvh' sum' st' :
  walker_iteration host sizeof_pointer BGP_TLV_BODY_SIZE mem vty tlvh sum st =
    Some ((tlvh', sum'), st') ->
  exists r st1,
    render_tlv host sizeof_pointer BGP_TLV_BODY_SIZE mem vty tlvh st =
      Some (r, st1) /\
    sum' = ((sum + r) mod 65536)%Z /\
    tlvh' = tlvh + tlv_size BGP_TLV_BODY_SIZE mem tlvh /\
    tlvh + 4 <= List.length mem.
Proof.
  unfold walker_iteration. intros E.
  apply wbind_inv in E. destruct E as (r & st1 & E1 & E).
  apply wbind_inv in E. destruct E as (next & st2 & E2 & E3).
  apply hdr_next_inv in E2. destruct E2 as (H & ->).
  apply wret_inv in E3. destruct E3 as (E3 & _).
  assert (Ht : tlvh' = tlvh + tlv_size BGP_TLV_BODY_SIZE mem tlvh)
    by congruence.
  assert (Hs : sum' = ((sum + r) mod 65536)%Z) by congruence.
  exists r, st1. auto.
Qed.

(** ** The loop *)

(** Fuel beyond the bytes left in [mem] changes nothing. *)
Lemma walk_fuel_enough (vty : bool) :
  forall k k' tlvh sum st,
    List.length mem - tlvh < k -> List.length mem - tlvh < k' ->
    walk host sizeof_pointer BGP_TLV_BODY_SIZE mem vty k tlvh sum st =
    walk host sizeof_pointer BGP_TLV_BODY_SIZE mem vty k' tlvh sum st.
Proof.
  induction k as [|k IH]; intros k' tlvh sum st Hk Hk'; [lia|].
  destruct k' as [|k']; [lia|].
  cbn [walk]. unfold bind at 1 3.
  destruct (nlri_length host mem 0 st) as [[total st1]|]; [|reflexivity].
  destruct (sum <? total)%Z; [|reflexivity].
  unfold bind.
  destruct (walker_iteration host sizeof_pointer BGP_TLV_BODY_SIZE mem vty
              tlvh sum st1) as [[[tlvh' sum'] st2]|] eqn:E; [|reflexivity].
  apply walker_iteration_inv in E.
  destruct E as (r & st3 & _ & _ & -> & H).
  cbn [fst snd]. unfold tlv_size. apply IH; lia.
Qed.

(** The loop as the [for] of the source reads: test, one pass, again. *)
Lemma walk_from_unfold (vty : bool) (tlvh : nat) (sum : Z) (st : wstate) :
  walk_from host sizeof_pointer BGP_TLV_BODY_SIZE mem vty tlvh sum st =
  (total <- nlri_length host mem 0 ;;
   if (sum <? total)%Z then
     ns <- walker_iteration host sizeof_pointer BGP_TLV_BODY_SIZE mem vty
             tlvh sum ;;
     walk_from host sizeof_pointer BGP_TLV_BODY_SIZE mem vty (fst ns) (snd ns)
   else ret sum) st.
Proof.
  unfold walk_from at 1. cbn [walk]. unfold bind at 1 3.
  destruct (nlri_length host mem 0 st) as [[total st1]|]; [|reflexivity].
  destruct (sum <? total)%Z; [|reflexivity].
  unfold bind.
  destruct (walker_iteration host sizeof_pointer BGP_TLV_BODY_SIZE mem vty
              tlvh sum st1) as [[[tlvh' sum'] st2]|] eqn:E; [|reflexivity].
  apply walker_iteration_inv in E.
  destruct E as (r & st3 & _ & _ & -> & H).
  cbn [fst snd]. unfold walk_from, tlv_size. apply walk_fuel_enough; lia.
Qed.

(** [te->header.nlri_length] as the walker reads it for its test. *)
Lemma nlri_length_0_inv st total st1 :
  nlri_length host mem 0 st = Some (total, st1) ->
  total = host_value host (firstn 2 (skipn 2 mem)).
Proof.
  unfold nlri_length. intros E. apply ld_inv in E.
  destruct E as (_ & -> & _). reflexivity.
Qed.


(** ** Formatters with a case in the switch *)

Lemma returns_tlv_size (tlvh : nat) :
  returns_only (return_tlv_size host BGP_TLV_BODY_SIZE mem tlvh)
    (Z.of_nat (tlv_size BGP_TLV_BODY_SIZE mem tlvh) mod 65536)%Z.
Proof. intros st r st' E. exact (return_tlv_size_inv _ _ E). Qed.

(** Every formatter of the registry returns [BGP_TLV_SIZE(tlvh)], cut to
    16 bits. *)
Lemma registry_returns_size (vty : bool) :
  Forall (fun cf : Z * (nat -> W Z) =>
            forall tlvh,
              returns_only (snd cf tlvh)
                (Z.of_nat (tlv_size BGP_TLV_BODY_SIZE mem tlvh) mod 65536)%Z)
    (registry host sizeof_pointer BGP_TLV_BODY_SIZE mem vty).
Proof.
  unfold registry.
  repeat (apply Forall_cons; [cbn [snd]; intros tlvh|]); try apply Forall_nil.
  all: cbv beta zeta delta [show_vty_multi_topology_identifier
      show_vty_node_flag_bits show_vty_opaque_node_properties
      show_vty_node_name show_vty_is_is_area_identifier
      show_vty_ipv4_router_id_of_local_node
      show_vty_ipv6_router_id_of_local_node
      show_vty_ipv4_router_id_of_remote_node
      show_vty_ipv6_router_id_of_remote_node show_vty_admin_grp_color
      show_vty_max_link_bw show_vty_max_rsv_bw show_vty_unrsv_bw
      show_vty_te_metric show_vty_link_protection_type
      show_vty_mpls_protocol_mask show_vty_igp_metric
      show_vty_shared_risk_link_group show_vty_opaque_link_attribute
      show_vty_link_name_attribute show_vty_bgp_nlri_tlv_igp_flags
      show_vty_bgp_nlri_tlv_route_tag show_vty_bgp_nlri_tlv_extended_tag
      show_vty_bgp_nlri_tlv_prefix_metric
      show_bgp_nlri_tlv_ospf_fowarding_adress
      show_bgp_nlri_tlv_opaque_prefix_attribute].
  all: repeat first [apply returns_tlv_size
                    | apply wreturns_only_bind; intros ?].
Qed.

Lemma lookup_in (cases : list (Z * (nat -> W Z))) (type : Z) f :
  lookup cases type = Some f -> exists code, In (code, f) cases.
Proof.
  induction cases as [|[code g] rest IH]; cbn [lookup]; [discriminate|].
  destruct (type =? code)%Z.
  - intros [= ->]. exists code. left; reflexivity.
  - intros E. destruct (IH E) as (c & Hc). exists c. right; exact Hc.
Qed.

Lemma lookup_registry_some (vty : bool) (type : Z) :
  registered type = true ->
  lookup (registry host sizeof_pointer BGP_TLV_BODY_SIZE mem vty) type
    <> None.
Proof.
  unfold registered, registry. cbn [existsb lookup].
  repeat (destruct (type =? _)%Z; [discriminate|]; cbn [orb]).
  discriminate.
Qed.

(** A TLV of a registered type is passed by as many bytes as are added to
    the running total. *)
Lemma render_registered (vty : bool) (tlvh : nat) st r st' :
  registered (wire16 mem tlvh) = true ->
  render_tlv host sizeof_pointer BGP_TLV_BODY_SIZE mem vty tlvh st =
    Some (r, st') ->
  r = (Z.of_nat (tlv_size BGP_TLV_BODY_SIZE mem tlvh) mod 65536)%Z.
Proof.
  intros Hreg E. unfold render_tlv, nlri_type in E.
  apply wbind_inv in E. destruct E as (ty & st1 & E1 & E).
  apply ld_inv in E1. destruct E1 as (H & -> & _).
  rewrite ntohs_field in E by lia.
  pose proof (lookup_registry_some vty _ Hreg) as Hl.
  destruct (lookup _ (wire16 mem tlvh)) as [f|] eqn:El; [|congruence].
  apply lookup_in in El. destruct El as (code & Hin).
  pose proof (registry_returns_size vty) as Hall.
  rewrite Forall_forall in Hall.
  exact (Hall _ Hin tlvh _ _ _ E).
Qed.



(** ** An unknown TLV of declared length 0 *)



(** ** What a formatter reads *)




















(** ** Attributes of which nothing is rendered *)

Lemma host_value_nonzero (a b : byte) :
  be_value [a; b] <> 0%Z -> host_value host [a; b] <> 0%Z.
Proof.
  pose proof (byte_range a). pose proof (byte_range b).
  unfold host_value, be_value. destruct host; cbn [rev app fold_left]; lia.
Qed.

Lemma nonzero_field (off : nat) :
  off + 2 <= List.length mem -> wire16 mem off <> 0%Z ->
  host_value host (firstn 2 (skipn off mem)) <> 0%Z.
Proof.
  intros H. unfold wire16. destruct (two_bytes off H) as (a & b & ->).
  apply host_value_nonzero.
Qed.

Lemma ld_none off n st :
  List.length mem < off + n -> ld host mem off n st = None.
Proof.
  intros H. unfold ld, bind, ld_bytes.
  destruct (Nat.leb_spec (off + n) (List.length mem)); [lia|reflexivity].
Qed.

Lemma ld_addr_some off n st :
  off + n <= List.length mem ->
  ld_addr mem off n st =
  Some (addr_at mem off n, mkWstate (reads st ++ seq off n) (out st)).
Proof.
  intros H. unfold ld_addr.
  erewrite wbind_some by (apply ld_bytes_some; exact H).
  reflexivity.
Qed.

(** X15. The walker renders nothing when the type field of the attribute
    header is zero, and nothing when its length field is zero: in the first
    case it returns [CMD_WARNING] after reading the type alone, in the
    second it returns 0 after reading type and length. In both cases the
    one debug line is logged, whatever the sink. *)
Theorem print_detail_renders_nothing_without_type_or_length
  (vty : bool) (st : wstate) :
  4 <= List.length mem ->
  (wire16 mem 0 = 0%Z ->
   show_bgp_linkstate_print_detail host sizeof_pointer BGP_TLV_BODY_SIZE mem
     vty st =
   Some (CMD_WARNING,
         mkWstate (reads st ++ seq 0 2)
           (out st ++ [zlog_debug "BGP-LS: Show database TE detail" []]))) /\
  (wire16 mem 0 <> 0%Z -> wire16 mem 2 = 0%Z ->
   show_bgp_linkstate_print_detail host sizeof_pointer BGP_TLV_BODY_SIZE mem
     vty st =
   Some (0%Z,
         mkWstate ((reads st ++ seq 0 2) ++ seq 2 2)
           (out st ++ [zlog_debug "BGP-LS: Show database TE detail" []]))).
Proof.
  intros Hmem. unfold show_bgp_linkstate_print_detail, nlri_type. split.
  - intros Hty.
    erewrite wbind_some by reflexivity.
    erewrite wbind_some by (apply ld_some; lia).
    rewrite (zero_field 0 ltac:(lia) Hty). reflexivity.
  - intros Hty Hlen.
    erewrite wbind_some by reflexivity.
    erewrite wbind_some by (apply ld_some; lia).
    pose proof (nonzero_field 0 ltac:(lia) Hty) as Hnz.
    apply Z.eqb_neq in Hnz. rewrite Hnz.
    rewrite walk_from_unfold. unfold nlri_length.
    erewrite wbind_some by (apply ld_some; cbn; lia).
    cbn [Nat.add]. rewrite (zero_field 2 ltac:(lia) Hlen). reflexivity.
Qed.

(** ** TLVs without a case in the switch *)

Lemma unknown_returns_hdr_size (vty : bool) (tlvh : nat) :
  returns_only (show_vty_unknown_tlv host mem vty tlvh) BGP_TLV_HDR_SIZE.
Proof.
  unfold show_vty_unknown_tlv. apply wreturns_only_bind. intros ?.
  apply wreturns_only_ret.
Qed.

Lemma render_unknown (vty : bool) (tlvh : nat) st r st' :
  registered (wire16 mem tlvh) = false ->
  render_tlv host sizeof_pointer BGP_TLV_BODY_SIZE mem vty tlvh st =
    Some (r, st') ->
  r = BGP_TLV_HDR_SIZE.
Proof.
  intros Hreg E. unfold render_tlv, nlri_type in E.
  apply wbind_inv in E. destruct E as (ty & st1 & E1 & E).
  apply ld_inv in E1. destruct E1 as (H & -> & _).
  rewrite ntohs_field in E by lia.
  rewrite (lookup_registry_none vty _ Hreg) in E.
  exact (unknown_returns_hdr_size _ _ _ E).
Qed.

(** X16. A pass over a TLV whose type has no case in the [switch] moves
    the TLV pointer by the size of the TLV, header and body, and adds only
    the four bytes of the header to the 16-bit running total, whatever
    length the TLV declares. *)
Theorem unknown_tlv_pass_adds_header_size_only
  (vty : bool) tlvh sum st tlvh' sum' st' :
  pass host sizeof_pointer BGP_TLV_BODY_SIZE mem vty
    (tlvh, sum, st) (tlvh', sum', st') ->
  registered (wire16 mem tlvh) = false ->
  tlvh' = tlvh + 4 + BGP_TLV_BODY_SIZE (Z.to_nat (wire16 mem (tlvh + 2))) /\
  sum' = ((sum + 4) mod 65536)%Z.
Proof.
  intros P Hreg. inversion P as [? ? ? total st1 ? ? ? _ _ E]; subst.
  apply walker_iteration_inv in E.
  destruct E as (r & st2 & Er & -> & -> & _).
  rewrite (render_unknown _ _ _ Hreg Er).
  split; [unfold tlv_size, wire16; lia|reflexivity].
Qed.

(** ** A header with a case in the switch *)

Lemma registered_nonzero (type : Z) : registered type = true -> type <> 0%Z.
Proof. intros H ->. discriminate H. Qed.

(** X17. The first TLV the walker renders is the header of the attribute
    itself. When the type of that header has a case in the [switch] and
    the length field, as the loop test reads it, does not exceed the size
    of the header TLV taken modulo 65536, the walk ends after that one
    pass: the TLVs that stand behind the header are not rendered, and the
    result is the size of the header TLV modulo 65536. *)
Theorem registered_header_is_the_only_tlv_rendered
  (vty : bool) (st : wstate) :
  registered (wire16 mem 0) = true ->
  (host_value host (firstn 2 (skipn 2 mem)) <=
   Z.of_nat (tlv_size BGP_TLV_BODY_SIZE mem 0) mod 65536)%Z ->
  show_bgp_linkstate_print_detail host sizeof_pointer BGP_TLV_BODY_SIZE mem
    vty st =
  (print (zlog_debug "BGP-LS: Show database TE detail" []) ;;;
   nlri_type host mem 0 ;;;
   total <- nlri_length host mem 0 ;;
   if (0 <? total)%Z then
     walker_iteration host sizeof_pointer BGP_TLV_BODY_SIZE mem vty 0 0 ;;;
     nlri_length host mem 0 ;;;
     ret (Z.of_nat (tlv_size BGP_TLV_BODY_SIZE mem 0) mod 65536)%Z
   else ret 0%Z) st.
Proof.
  intros Hreg Hlen. unfold show_bgp_linkstate_print_detail.
  unfold bind, print. cbv beta iota.
  destruct (nlri_type host mem 0 _) as [[ty st2]|] eqn:Ety; [|reflexivity].
  unfold nlri_type in Ety. apply ld_inv in Ety. destruct Ety as (H2 & -> & _).
  pose proof (nonzero_field 0 H2 (registered_nonzero Hreg)) as Hnz.
  apply Z.eqb_neq in Hnz. rewrite Hnz.
  rewrite walk_from_unfold. unfold bind.
  destruct (nlri_length host mem 0 st2) as [[total st3]|]; [|reflexivity].
  destruct (0 <? total)%Z; [|reflexivity].
  destruct (walker_iteration host sizeof_pointer BGP_TLV_BODY_SIZE mem vty
              0 0 st3) as [[[tlvh' sum'] st4]|] eqn:Ewi; [|reflexivity].
  apply walker_iteration_inv in Ewi.
  destruct Ewi as (r & st5 & Er & -> & -> & _).
  rewrite (render_registered _ _ _ Hreg Er).
  cbn [fst snd Z.add]. rewrite Z.mod_mod by lia.
  rewrite walk_from_unfold. unfold bind.
  destruct (nlri_length host mem 0 st4) as [[total' st6]|] eqn:El;
    [|reflexivity].
  apply nlri_length_0_inv in El. subst total'.
  destruct (Z.ltb_spec (Z.of_nat (tlv_size BGP_TLV_BODY_SIZE mem 0) mod 65536)
              (host_value host (firstn 2 (skipn 2 mem)))); [lia|].
  reflexivity.
Qed.

(** ** The dump of an unknown TLV *)

Lemma host_value_1 (l : list byte) :
  host_value host (firstn 1 l) = be_value (firstn 1 l).
Proof.
  unfold host_value. destruct host; [|reflexivity].
  destruct l as [|b l]; reflexivity.
Qed.

Lemma flat_map_dumped_snoc (l : list sink_event) (e : sink_event) :
  flat_map dumped (l ++ [e]) = flat_map dumped l ++ dumped e.
Proof. rewrite flat_map_app. cbn [flat_map]. rewrite app_nil_r. reflexivity. Qed.

Lemma dumped_byte (b : Z) : dumped (vty_out " %#.2x" [b]) = [b].
Proof. reflexivity. Qed.

Lemma dumped_other (fmt : string) (args : list Z) :
  String.eqb fmt " %#.2x" = false -> dumped (vty_out fmt args) = [].
Proof.
  intros H. unfold dumped. rewrite H. destruct args as [|? [|? ?]]; reflexivity.
Qed.

Lemma dump_bytes_spec (tlvh : nat) : forall count i rtn st,
  tlvh + i + count <= List.length mem ->
  exists st',
    dump_bytes host mem tlvh count i rtn st = Some (tt, st') /\
    reads st' = reads st ++ seq (tlvh + i) count /\
    flat_map dumped (out st') =
      flat_map dumped (out st) ++ map (fun k => wire8 mem (tlvh + k)) (seq i count).
Proof.
  induction count as [|c IH]; intros i rtn st H.
  - eexists. split; [reflexivity|].
    cbn [seq map]. rewrite !app_nil_r. split; reflexivity.
  - cbn [dump_bytes].
    erewrite wbind_some by (apply ld_some; lia).
    erewrite wbind_some by reflexivity.
    rewrite host_value_1. fold (wire8 mem (tlvh + i)).
    destruct (rtn =? 8)%Z.
    + erewrite wbind_some by reflexivity.
      match goal with
      | |- exists st', dump_bytes _ _ _ _ _ _ ?s = _ /\ _ =>
          destruct (IH (S i) 1%Z s) as (st' & E & R & D); [lia|]
      end.
      exists st'. split; [exact E|]. split.
      * rewrite R. cbn [reads seq]. rewrite <- app_assoc.
        replace (tlvh + S i) with (S (tlvh + i)) by lia. reflexivity.
      * rewrite D. cbn [out seq map]. rewrite !flat_map_dumped_snoc.
        rewrite dumped_byte, dumped_other by reflexivity.
        rewrite app_nil_r, <- app_assoc. reflexivity.
    + match goal with
      | |- exists st', dump_bytes _ _ _ _ _ _ ?s = _ /\ _ =>
          destruct (IH (S i) (rtn + 1)%Z s) as (st' & E & R & D); [lia|]
      end.
      exists st'. split; [exact E|]. split.
      * rewrite R. cbn [reads seq]. rewrite <- app_assoc.
        replace (tlvh + S i) with (S (tlvh + i)) by lia. reflexivity.
      * rewrite D. cbn [out seq map]. rewrite !flat_map_dumped_snoc.
        rewrite dumped_byte, <- app_assoc. reflexivity.
Qed.

(** X18. With a terminal as sink, the unknown-TLV formatter dumps as many
    bytes as the length field holds when the host reads it as it stands
    (no byte swap), and the bytes it dumps start at the first byte of the
    TLV header, not at the value: the four header bytes come first. It
    returns the size of a header. *)
Theorem unknown_tlv_dump_starts_at_the_header (tlvh : nat) (st : wstate) :
  let len := host_value host (firstn 2 (skipn (tlvh + 2) mem)) in
  len <> 0%Z ->
  tlvh + 4 <= List.length mem ->
  tlvh + Z.to_nat len <= List.length mem ->
  exists st',
    show_vty_unknown_tlv host mem true tlvh st =
      Some (BGP_TLV_HDR_SIZE, st') /\
    reads st' =
      ((reads st ++ seq (tlvh + 2) 2) ++ seq tlvh 2) ++
      seq tlvh (Z.to_nat len) /\
    flat_map dumped (out st') =
      flat_map dumped (out st) ++
      map (fun k => wire8 mem (tlvh + k)) (seq 0 (Z.to_nat len)).
Proof.
  intros len Hnz Hmem Hdump.
  unfold show_vty_unknown_tlv, nlri_length, nlri_type.
  match goal with
  | |- context [dump_bytes _ _ _ _ _ _] => idtac
  end.
  destruct (dump_bytes_spec tlvh (Z.to_nat len) 0 1%Z
              (mkWstate ((reads st ++ seq (tlvh + 2) 2) ++ seq tlvh 2)
                 ((out st ++
                   [vty_out "    Unknown TLV: [type(%#.2x), length(%#.2x)]\n"
                      [host_value host (firstn 2 (skipn tlvh mem)); len]]) ++
                  [vty_out "       Dump: [00]" []])))
    as (st' & E & R & D); [lia|].
  exists (mkWstate (reads st') (out st' ++ [vty_out "\n" []])).
  split; [|split].
  - erewrite wbind_some; [reflexivity|].
    erewrite wbind_some by (apply ld_some; lia).
    fold len. apply Z.eqb_neq in Hnz. rewrite Hnz. cbn [negb].
    erewrite wbind_some by (apply ld_some; lia).
    erewrite wbind_some by reflexivity.
    erewrite wbind_some by reflexivity.
    erewrite wbind_some by exact E.
    reflexivity.
  - cbn [reads]. rewrite R. cbn [reads]. rewrite Nat.add_0_r. reflexivity.
  - cbn [out]. rewrite flat_map_dumped_snoc, D. cbn [out].
    rewrite !flat_map_dumped_snoc.
    rewrite !dumped_other by reflexivity.
    rewrite !app_nil_r. reflexivity.
Qed.

(** ** Arrays counted in pointers *)

Lemma counted_formatter_ok (vty : bool) (v1 l1 v2 l2 : string)
  (conv : Z -> Z) (width : nat) (d : Z) (tlvh : nat) (st : wstate) :
  let len := wire16 mem (tlvh + 2) in
  let n := Z.to_nat (len / d) in
  tlvh + 4 + width * n <= List.length mem ->
  exists st',
    (len <- nlri_length host mem tlvh ;;
     show vty v1 l1 [(ntohs host len / d)%Z] ;;;
     show_values host mem vty v2 l2 conv width tlvh
       (Z.to_nat (ntohs host len / d)) 0 ;;;
     return_tlv_size host BGP_TLV_BODY_SIZE mem tlvh) st =
      Some ((Z.of_nat (tlv_size BGP_TLV_BODY_SIZE mem tlvh) mod 65536)%Z, st')
    /\
    out st' =
      out st ++
      (if vty then vty_out v1 else zlog_debug l1) [(len / d)%Z]
      :: map (fun j =>
                (if vty then vty_out v2 else zlog_debug l2)
                  [Z.of_nat j;
                   conv (host_value host
                           (firstn width
                              (skipn (tlvh + 4 + width * j) mem)))])
             (seq 0 n).
Proof.
  intros len n H. unfold nlri_length.
  erewrite wbind_some by (apply ld_some; lia).
  rewrite ntohs_field by lia. fold len. fold n.
  destruct (show_values_ok vty v2 l2 conv width tlvh n 0
              (mkWstate (reads st ++ seq (tlvh + 2) 2)
                 (out st ++
                  [(if vty then vty_out v1 else zlog_debug l1)
                     [(len / d)%Z]])))
    as (st1 & E1 & O1); [lia|].
  destruct vty.
  - eexists. split.
    + erewrite wbind_some by reflexivity.
      erewrite wbind_some by exact E1.
      apply return_tlv_size_ok. lia.
    + cbn [out]. rewrite O1. cbn [out]. rewrite <- app_assoc. reflexivity.
  - eexists. split.
    + erewrite wbind_some by reflexivity.
      erewrite wbind_some by exact E1.
      apply return_tlv_size_ok. lia.
    + cbn [out]. rewrite O1. cbn [out]. rewrite <- app_assoc. reflexivity.
Qed.

(** X19. The route-tag formatter and the shared-risk-link-group formatter
    take the quotient of the declared length by the size of a pointer for
    the number of elements, and render that many elements of four bytes
    each: with eight-byte pointers, half of the four-byte values a TLV
    holds. Both return the size of the TLV. *)
Theorem route_tags_and_srlg_are_counted_in_pointers
  (vty : bool) (tlvh : nat) (st : wstate) :
  let len := wire16 mem (tlvh + 2) in
  let n := Z.to_nat (len / sizeof_pointer) in
  tlvh + 4 + 4 * n <= List.length mem ->
  (exists st',
     show_vty_bgp_nlri_tlv_route_tag host sizeof_pointer BGP_TLV_BODY_SIZE
       mem vty tlvh st =
       Some ((Z.of_nat (tlv_size BGP_TLV_BODY_SIZE mem tlvh) mod 65536)%Z, st')
     /\
     out st' =
       out st ++
       (if vty then vty_out "  Route Tag(s): %d\n"
        else zlog_debug "  Route Tag(s): %d") [(len / sizeof_pointer)%Z]
       :: map (fun j =>
                 (if vty then vty_out " Value n°   #%d: %x\n"
                  else zlog_debug "  Value n°  #%d: %x")
                   [Z.of_nat j;
                    ntohl host
                      (host_value host
                         (firstn 4 (skipn (tlvh + 4 + 4 * j) mem)))])
              (seq 0 n)) /\
  (exists st',
     show_vty_shared_risk_link_group host sizeof_pointer BGP_TLV_BODY_SIZE
       mem vty tlvh st =
       Some ((Z.of_nat (tlv_size BGP_TLV_BODY_SIZE mem tlvh) mod 65536)%Z, st')
     /\
     out st' =
       out st ++
       (if vty then vty_out "  Shared Risk Link Group Number: %d\n"
        else zlog_debug "  Shared Risk Link Group Number: %d")
         [(len / sizeof_pointer)%Z]
       :: map (fun j =>
                 (if vty then vty_out " Value n°   #%d: %d\n"
                  else zlog_debug "  Value n°  #%d: %d")
                   [Z.of_nat j;
                    ntohs host
                      (host_value host
                         (firstn 4 (skipn (tlvh + 4 + 4 * j) mem)))])
              (seq 0 n)).
Proof.
  intros len n H. split.
  - apply (counted_formatter_ok vty "  Route Tag(s): %d\n" "  Route Tag(s): %d"
             " Value n°   #%d: %x\n" "  Value n°  #%d: %x" (ntohl host) 4
             sizeof_pointer tlvh st H).
  - apply (counted_formatter_ok vty "  Shared Risk Link Group Number: %d\n"
             "  Shared Risk Link Group Number: %d"
             " Value n°   #%d: %d\n" "  Value n°  #%d: %d" (ntohs host) 4
             sizeof_pointer tlvh st H).
Qed.

(** ** Unreserved bandwidth *)

Lemma show_unrsv_pairs_ok (vty : bool) (tlvh : nat) : forall count i st,
  tlvh + 4 + 4 * (i + 2 * count) <= List.length mem ->
  exists st',
    show_unrsv_pairs host mem vty tlvh count i st = Some (tt, st') /\
    reads st' = reads st ++ seq (tlvh + 4 + 4 * i) (8 * count) /\
    out st' =
      out st ++
      map (fun k => unrsv_line host mem vty tlvh (i + 2 * k)) (seq 0 count).
Proof.
  induction count as [|c IH]; intros i st H.
  - eexists. split; [reflexivity|].
    cbn [seq Nat.mul map]. rewrite !app_nil_r. split; reflexivity.
  - cbn [show_unrsv_pairs]. unfold value.
    erewrite wbind_some by (apply ld_some; lia).
    erewrite wbind_some by (apply ld_some; lia).
    assert (Hline :
      forall s0,
        show vty "      [%d]: %g (Bytes/sec),\t[%d]: %g (Bytes/sec)\n"
          "        [%d]: %g (Bytes/sec), [%d]: %g (Bytes/sec)"
          [Z.of_nat i;
           ntohf host
             (host_value host (firstn 4 (skipn (tlvh + 4 + 4 * i) mem)));
           Z.of_nat (i + 1);
           ntohf host
             (host_value host
                (firstn 4 (skipn (tlvh + 4 + 4 * (i + 1)) mem)))] s0 =
        Some (tt, mkWstate (reads s0)
                    (out s0 ++ [unrsv_line host mem vty tlvh i]))).
    { intros s0. unfold show, print, unrsv_line. destruct vty; reflexivity. }
    erewrite wbind_some by apply Hline.
    match goal with
    | |- exists st', show_unrsv_pairs _ _ _ _ _ _ ?s = _ /\ _ =>
        destruct (IH (i + 2) s) as (st' & E & R & O); [lia|]
    end.
    exists st'. split; [exact E|]. split.
    + rewrite R. cbn [reads]. rewrite <- !app_assoc. f_equal.
      replace (8 * S c) with (4 + (4 + 8 * c)) by lia.
      rewrite !seq_app. do 2 f_equal; [f_equal; lia|]. f_equal. lia.
    + rewrite O. cbn [out seq map]. rewrite <- app_assoc. cbn [app].
      do 2 f_equal; [f_equal; lia|].
      rewrite <- seq_shift, map_map. apply map_ext. intros k.
      f_equal. lia.
Qed.

Lemma wbind_none {A B} (m : W A) (f : A -> W B) st :
  m st = None -> bind m f st = None.
Proof. intros E. unfold bind. rewrite E. reflexivity. Qed.

Lemma show_unrsv_pairs_none (vty : bool) (tlvh : nat) : forall count i st,
  0 < count ->
  List.length mem < tlvh + 4 + 4 * (i + 2 * count) ->
  show_unrsv_pairs host mem vty tlvh count i st = None.
Proof.
  induction count as [|c IH]; intros i st Hc H; [lia|].
  cbn [show_unrsv_pairs]. unfold value.
  destruct (Nat.le_gt_cases (tlvh + 4 + 4 * i + 4) (List.length mem))
    as [H1|H1]; [|apply wbind_none; apply ld_none; lia].
  erewrite wbind_some by (apply ld_some; lia).
  destruct (Nat.le_gt_cases (tlvh + 4 + 4 * (i + 1) + 4) (List.length mem))
    as [H2|H2]; [|apply wbind_none; apply ld_none; lia].
  erewrite wbind_some by (apply ld_some; lia).
  destruct c as [|c]; [lia|].
  destruct vty; (erewrite wbind_some by reflexivity); apply IH; lia.
Qed.

(** X20. The unreserved-bandwidth formatter reads the eight floats of the
    value, thirty-two bytes behind the header, whatever length the TLV
    declares, prints one title line and four lines of two values each, for
    the indices 0 and 1, 2 and 3, 4 and 5, 6 and 7, and returns the size of
    the TLV; it has no result when fewer than thirty-six bytes stand at the
    TLV. *)
Theorem unrsv_bw_reads_eight_floats (vty : bool) (tlvh : nat) (st : wstate) :
  (tlvh + 36 <= List.length mem ->
   exists st',
     show_vty_unrsv_bw host BGP_TLV_BODY_SIZE mem vty tlvh st =
       Some ((Z.of_nat (tlv_size BGP_TLV_BODY_SIZE mem tlvh) mod 65536)%Z, st')
     /\
     reads st' = (reads st ++ seq (tlvh + 4) 32) ++ seq (tlvh + 2) 2 /\
     out st' =
       out st ++
       [(if vty then vty_out "    Unreserved Bandwidth:\n"
         else zlog_debug "      Unreserved Bandwidth:") [];
        unrsv_line host mem vty tlvh 0;
        unrsv_line host mem vty tlvh 2;
        unrsv_line host mem vty tlvh 4;
        unrsv_line host mem vty tlvh 6]) /\
  (List.length mem < tlvh + 36 ->
   show_vty_unrsv_bw host BGP_TLV_BODY_SIZE mem vty tlvh st = None).
Proof.
  unfold show_vty_unrsv_bw. split.
  - intros H.
    destruct (show_unrsv_pairs_ok vty tlvh 4 0
                (mkWstate (reads st)
                   (out st ++
                    [(if vty then vty_out "    Unreserved Bandwidth:\n"
                      else zlog_debug "      Unreserved Bandwidth:") []])))
      as (st1 & E & R & O); [lia|].
    destruct vty.
    + eexists. split; [|split].
      * erewrite wbind_some by reflexivity.
        erewrite wbind_some by exact E.
        apply return_tlv_size_ok. lia.
      * cbn [reads]. rewrite R. cbn [reads].
        replace (tlvh + 4 + 4 * 0) with (tlvh + 4) by lia. reflexivity.
      * cbn [out]. rewrite O. cbn [out]. rewrite <- app_assoc. reflexivity.
    + eexists. split; [|split].
      * erewrite wbind_some by reflexivity.
        erewrite wbind_some by exact E.
        apply return_tlv_size_ok. lia.
      * cbn [reads]. rewrite R. cbn [reads].
        replace (tlvh + 4 + 4 * 0) with (tlvh + 4) by lia. reflexivity.
      * cbn [out]. rewrite O. cbn [out]. rewrite <- app_assoc. reflexivity.
  - intros H.
    destruct vty; (erewrite wbind_some by reflexivity);
      apply wbind_none; apply show_unrsv_pairs_none; lia.
Qed.

(** ** The OSPF forwarding address *)

(** X21. The forwarding-address formatter tells the two address families
    apart only when it prints to a terminal, and there by the length field
    as the host reads it (no byte swap): when it reads as 4 the four bytes
    of the value are printed as an IPv4 address, when it reads as 16 the
    sixteen bytes as an IPv6 address, and otherwise nothing is printed.
    When it logs, it prints the four bytes of the value as an IPv4 address
    and the sixteen bytes from the same place as an IPv6 address, whatever
    the length. In each of these cases it returns the size of the TLV. *)
Theorem ospf_forwarding_address_by_sink (tlvh : nat) (st : wstate) :
  let len := host_value host (firstn 2 (skipn (tlvh + 2) mem)) in
  (tlvh + 8 <= List.length mem ->
   len = BGP_NLRI_TLV_LEN_IPV4_FOWARDING_ADDRESS ->
   exists st',
     show_bgp_nlri_tlv_ospf_fowarding_adress host BGP_TLV_BODY_SIZE mem true
       tlvh st =
       Some ((Z.of_nat (tlv_size BGP_TLV_BODY_SIZE mem tlvh) mod 65536)%Z, st')
     /\
     out st' =
       out st ++
       [vty_out " IPv4 OSPF Fowarding Address: %pI4\n"
          (addr_at mem (tlvh + 4) 4)]) /\
  (tlvh + 20 <= List.length mem ->
   len = BGP_NLRI_TLV_LEN_IPV6_FOWARDING_ADDRESS ->
   exists st',
     show_bgp_nlri_tlv_ospf_fowarding_adress host BGP_TLV_BODY_SIZE mem true
       tlvh st =
       Some ((Z.of_nat (tlv_size BGP_TLV_BODY_SIZE mem tlvh) mod 65536)%Z, st')
     /\
     out st' =
       out st ++
       [vty_out "	 IPv6 OSPF Fowarding Address: %pI6\n"
          (addr_at mem (tlvh + 4) 16)]) /\
  (tlvh + 4 <= List.length mem ->
   len <> BGP_NLRI_TLV_LEN_IPV4_FOWARDING_ADDRESS ->
   len <> BGP_NLRI_TLV_LEN_IPV6_FOWARDING_ADDRESS ->
   exists st',
     show_bgp_nlri_tlv_ospf_fowarding_adress host BGP_TLV_BODY_SIZE mem true
       tlvh st =
       Some ((Z.of_nat (tlv_size BGP_TLV_BODY_SIZE mem tlvh) mod 65536)%Z, st')
     /\ out st' = out st) /\
  (tlvh + 20 <= List.length mem ->
   exists st',
     show_bgp_nlri_tlv_ospf_fowarding_adress host BGP_TLV_BODY_SIZE mem false
       tlvh st =
       Some ((Z.of_nat (tlv_size BGP_TLV_BODY_SIZE mem tlvh) mod 65536)%Z, st')
     /\
     out st' =
       out st ++
       [zlog_debug "   IPv4 OSPF Fowarding Address: %pI4"
          (addr_at mem (tlvh + 4) 4);
        zlog_debug "   IPv6 OSPF Fowarding Address: %pI6"
          (addr_at mem (tlvh + 4) 16)]).
Proof.
  intros len. unfold show_bgp_nlri_tlv_ospf_fowarding_adress.
  split; [|split; [|split]].
  - intros H E4.
    eexists. split.
    + erewrite wbind_some.
      2:{ unfold nlri_length, value.
          erewrite wbind_some by (apply ld_some; lia).
          fold len. rewrite E4, Z.eqb_refl.
          erewrite wbind_some.
          2:{ erewrite wbind_some by (apply ld_addr_some; lia).
              reflexivity. }
          erewrite wbind_some by (apply ld_some; lia).
          fold len. rewrite E4.
          change (BGP_NLRI_TLV_LEN_IPV4_FOWARDING_ADDRESS =?
                  BGP_NLRI_TLV_LEN_IPV6_FOWARDING_ADDRESS)%Z with false.
          reflexivity. }
      apply return_tlv_size_ok. lia.
    + reflexivity.
  - intros H E16.
    eexists. split.
    + erewrite wbind_some.
      2:{ unfold nlri_length, value.
          erewrite wbind_some by (apply ld_some; lia).
          fold len. rewrite E16.
          change (BGP_NLRI_TLV_LEN_IPV6_FOWARDING_ADDRESS =?
                  BGP_NLRI_TLV_LEN_IPV4_FOWARDING_ADDRESS)%Z with false.
          erewrite wbind_some by reflexivity.
          erewrite wbind_some by (apply ld_some; lia).
          fold len. rewrite E16, Z.eqb_refl.
          erewrite wbind_some by (apply ld_addr_some; lia).
          reflexivity. }
      apply return_tlv_size_ok. lia.
    + reflexivity.
  - intros H N4 N16. apply Z.eqb_neq in N4, N16.
    eexists. split.
    + erewrite wbind_some.
      2:{ unfold nlri_length.
          erewrite wbind_some by (apply ld_some; lia).
          fold len. rewrite N4.
          erewrite wbind_some by reflexivity.
          erewrite wbind_some by (apply ld_some; lia).
          fold len. rewrite N16. reflexivity. }
      apply return_tlv_size_ok. lia.
    + reflexivity.
  - intros H. unfold value.
    eexists. split.
    + erewrite wbind_some.
      2:{ erewrite wbind_some by (apply ld_addr_some; lia).
          erewrite wbind_some by reflexivity.
          erewrite wbind_some by (apply ld_addr_some; lia).
          reflexivity. }
      apply return_tlv_size_ok. lia.
    + cbn [out]. rewrite <- app_assoc. reflexivity.
Qed.

(** ** Multi-topology identifiers *)

(** X22. The multi-topology formatter takes half the declared length,
    rounded down, for the number of identifiers and renders that many
    16-bit values in network order; a last odd byte is passed over in
    silence. It returns the size of the TLV. *)
Theorem multi_topology_formatter_renders_half_the_length
  (vty : bool) (tlvh : nat) (st : wstate) :
  let len := wire16 mem (tlvh + 2) in
  let n := Z.to_nat (len / 2) in
  tlvh + 4 + 2 * n <= List.length mem ->
  exists st',
    show_vty_multi_topology_identifier host BGP_TLV_BODY_SIZE mem vty tlvh st =
      Some ((Z.of_nat (tlv_size BGP_TLV_BODY_SIZE mem tlvh) mod 65536)%Z, st')
    /\
    out st' =
      out st ++
      (if vty then vty_out "  Multi Topology ID number: %d\n"
       else zlog_debug "  Multi Topology ID number: %d") [(len / 2)%Z]
      :: map (fun j =>
                (if vty then vty_out " ID   #%d: %d\n"
                 else zlog_debug "   ID   #%d: %d")
                  [Z.of_nat j; wire16 mem (tlvh + 4 + 2 * j)])
             (seq 0 n).
Proof.
  intros len n H.
  destruct (counted_formatter_ok vty "  Multi Topology ID number: %d\n"
              "  Multi Topology ID number: %d"
              " ID   #%d: %d\n" "   ID   #%d: %d" (ntohs host) 2
              2%Z tlvh st H) as (st' & E & O).
  exists st'. split; [exact E|]. rewrite O. f_equal. f_equal.
  apply map_ext_in. intros j Hj. apply in_seq in Hj. do 3 f_equal.
  apply ntohs_field. fold n in Hj. lia.
Qed.

(** ** One sink *)

Lemma writes_ret {A} (vty : bool) (a : A) : writes_to vty (ret a).
Proof.
  intros st a' st' E. injection E as _ <-. exists [].
  split; [symmetry; apply app_nil_r|reflexivity].
Qed.

Lemma writes_bind {A B} (vty : bool) (m : W A) (f : A -> W B) :
  writes_to vty m -> (forall a, writes_to vty (f a)) ->
  writes_to vty (bind m f).
Proof.
  intros Hm Hf st b st' E.
  destruct (wbind_inv _ _ _ E) as (a & st1 & E1 & E2).
  destruct (Hm _ _ _ E1) as (l1 & O1 & F1).
  destruct (Hf _ _ _ _ E2) as (l2 & O2 & F2).
  exists (l1 ++ l2). split.
  - rewrite O2, O1. symmetry; apply app_assoc.
  - rewrite forallb_app, F1, F2. reflexivity.
Qed.

Lemma writes_if {A} (vty b : bool) (m1 m2 : W A) :
  writes_to vty m1 -> writes_to vty m2 ->
  writes_to vty (if b then m1 else m2).
Proof. destruct b; auto. Qed.

Lemma writes_ld_bytes (vty : bool) off n : writes_to vty (ld_bytes mem off n).
Proof.
  intros st a st' E. apply ld_bytes_inv in E. destruct E as (_ & _ & ->).
  exists []. split; [symmetry; apply app_nil_r|reflexivity].
Qed.

Lemma writes_ld (vty : bool) off n : writes_to vty (ld host mem off n).
Proof.
  unfold ld. apply writes_bind; [apply writes_ld_bytes|intros ?].
  apply writes_ret.
Qed.

Lemma writes_ld_addr (vty : bool) off n : writes_to vty (ld_addr mem off n).
Proof.
  unfold ld_addr. apply writes_bind; [apply writes_ld_bytes|intros ?].
  apply writes_ret.
Qed.

Lemma writes_print (vty : bool) (e : sink_event) :
  to_sink vty e = true -> writes_to vty (print e).
Proof.
  intros H st a st' E. injection E as _ <-. exists [e].
  split; [reflexivity|]. cbn [forallb]. rewrite H. reflexivity.
Qed.

Lemma writes_show (vty : bool) vfmt lfmt args :
  writes_to vty (show vty vfmt lfmt args).
Proof. unfold show. destruct vty; apply writes_print; reflexivity. Qed.

Lemma writes_return_tlv_size (vty : bool) tlvh :
  writes_to vty (return_tlv_size host BGP_TLV_BODY_SIZE mem tlvh).
Proof.
  unfold return_tlv_size, BGP_TLV_SIZE, nlri_length.
  repeat first [apply writes_ld | apply writes_ret
               | apply writes_bind; [|intros ?]].
Qed.

Lemma writes_show_values (vty : bool) vfmt lfmt conv width tlvh :
  forall count i,
    writes_to vty (show_values host mem vty vfmt lfmt conv width tlvh count i).
Proof.
  induction count as [|c IH]; intros i; cbn [show_values].
  - apply writes_ret.
  - apply writes_bind; [apply writes_ld|intros ?].
    apply writes_bind; [apply writes_show|intros ?]. apply IH.
Qed.

Lemma writes_show_unrsv_pairs (vty : bool) tlvh : forall count i,
  writes_to vty (show_unrsv_pairs host mem vty tlvh count i).
Proof.
  induction count as [|c IH]; intros i; cbn [show_unrsv_pairs].
  - apply writes_ret.
  - apply writes_bind; [apply writes_ld|intros ?].
    apply writes_bind; [apply writes_ld|intros ?].
    apply writes_bind; [apply writes_show|intros ?]. apply IH.
Qed.

Lemma writes_dump_bytes tlvh : forall count i rtn,
  writes_to true (dump_bytes host mem tlvh count i rtn).
Proof.
  induction count as [|c IH]; intros i rtn; cbn [dump_bytes].
  - apply writes_ret.
  - apply writes_bind; [apply writes_ld|intros ?].
    apply writes_bind; [apply writes_print; reflexivity|intros ?].
    apply writes_if; [|apply IH].
    apply writes_bind; [apply writes_print; reflexivity|intros ?]. apply IH.
Qed.

(** Proves [writes_to vty m] along the structure of a formatter, for a
    [vty] that is [true] or [false]. *)
Ltac writes_tac :=
  repeat first
    [ apply writes_ret
    | apply writes_ld
    | apply writes_ld_addr
    | apply writes_show
    | apply writes_return_tlv_size
    | apply writes_show_values
    | apply writes_show_unrsv_pairs
    | apply writes_dump_bytes
    | apply writes_print; reflexivity
    | apply writes_if
    | apply writes_bind; [|intros ?] ].

Lemma writes_unknown_tlv (vty : bool) tlvh :
  writes_to vty (show_vty_unknown_tlv host mem vty tlvh).
Proof.
  unfold show_vty_unknown_tlv, nlri_length, nlri_type.
  destruct vty; writes_tac.
Qed.

Lemma registry_writes_to_sink (vty : bool) :
  Forall (fun cf : Z * (nat -> W Z) => forall tlvh, writes_to vty (snd cf tlvh))
    (registry host sizeof_pointer BGP_TLV_BODY_SIZE mem vty).
Proof.
  unfold registry.
  repeat (apply Forall_cons; [cbn [snd]; intros tlvh|]); try apply Forall_nil.
  all: cbv beta zeta delta [show_vty_multi_topology_identifier
      show_vty_node_flag_bits show_vty_opaque_node_properties
      show_vty_node_name show_vty_is_is_area_identifier
      show_vty_ipv4_router_id_of_local_node
      show_vty_ipv6_router_id_of_local_node
      show_vty_ipv4_router_id_of_remote_node
      show_vty_ipv6_router_id_of_remote_node show_vty_admin_grp_color
      show_vty_max_link_bw show_vty_max_rsv_bw show_vty_unrsv_bw
      show_vty_te_metric show_vty_link_protection_type
      show_vty_mpls_protocol_mask show_vty_igp_metric
      show_vty_shared_risk_link_group show_vty_opaque_link_attribute
      show_vty_link_name_attribute show_vty_bgp_nlri_tlv_igp_flags
      show_vty_bgp_nlri_tlv_route_tag show_vty_bgp_nlri_tlv_extended_tag
      show_vty_bgp_nlri_tlv_prefix_metric
      show_bgp_nlri_tlv_ospf_fowarding_adress
      show_bgp_nlri_tlv_opaque_prefix_attribute nlri_length].
  all: destruct vty; writes_tac.
Qed.

Lemma writes_render_tlv (vty : bool) tlvh :
  writes_to vty
    (render_tlv host sizeof_pointer BGP_TLV_BODY_SIZE mem vty tlvh).
Proof.
  unfold render_tlv, nlri_type.
  apply writes_bind; [apply writes_ld|intros ty].
  destruct (lookup _ (ntohs host ty)) as [f|] eqn:El.
  - apply lookup_in in El. destruct El as (code & Hin).
    pose proof (registry_writes_to_sink vty) as Hall.
    rewrite Forall_forall in Hall. exact (Hall _ Hin tlvh).
  - apply writes_unknown_tlv.
Qed.

Lemma writes_walker_iteration (vty : bool) tlvh sum :
  writes_to vty
    (walker_iteration host sizeof_pointer BGP_TLV_BODY_SIZE mem vty tlvh sum).
Proof.
  unfold walker_iteration, BGP_TLV_HDR_NEXT, BGP_TLV_SIZE, nlri_length.
  apply writes_bind; [apply writes_render_tlv|intros ?].
  writes_tac.
Qed.

Lemma writes_walk (vty : bool) : forall fuel tlvh sum,
  writes_to vty
    (walk host sizeof_pointer BGP_TLV_BODY_SIZE mem vty fuel tlvh sum).
Proof.
  induction fuel as [|k IH]; intros tlvh sum; cbn [walk].
  - intros st a st' E. discriminate E.
  - unfold nlri_length.
    apply writes_bind; [apply writes_ld|intros total].
    apply writes_if; [|apply writes_ret].
    apply writes_bind; [apply writes_walker_iteration|intros ns]. apply IH.
Qed.

(** X23. Whatever the attribute holds, every line the walker prints after
    its opening debug line goes to one place: to the terminal when [vty]
    is set, to the log when it is not. The opening line goes to the log in
    both cases. *)
Theorem walker_prints_to_one_sink (vty : bool) (st : wstate) r st' :
  show_bgp_linkstate_print_detail host sizeof_pointer BGP_TLV_BODY_SIZE mem
    vty st = Some (r, st') ->
  exists l,
    out st' =
      out st ++ zlog_debug "BGP-LS: Show database TE detail" [] :: l /\
    forallb (to_sink vty) l = true.
Proof.
  unfold show_bgp_linkstate_print_detail. intros E.
  rewrite wbind_some with (a := tt)
    (st1 := mkWstate (reads st)
              (out st ++ [zlog_debug "BGP-LS: Show database TE detail" []]))
    in E by reflexivity.
  match type of E with
  | ?m ?s = _ => assert (Hw : writes_to vty m)
  end.
  { unfold nlri_type. apply writes_bind; [apply writes_ld|intros ty].
    apply writes_if; [apply writes_ret|]. apply writes_walk. }
  destruct (Hw _ _ _ E) as (l & O & F). cbn [out] in O.
  exists l. split; [|exact F]. rewrite O, <- app_assoc. reflexivity.
Qed.

End WalkerFacts.


(** ** Concrete attributes *)

Section WalkerExamples.
Import Stream Walker.



(** The header of the attribute is itself the first TLV the walker renders:
    with a registered type the total passes the declared length at once,
    and what follows in the buffer is not looked at. *)
Example walk_registered_header :
  exists st,
    show_bgp_linkstate_print_detail BigEndian 8 body_exact
      (bytes [4; 0; 0; 16; 1; 0; 0; 0; 4; 68; 0; 4; 0; 0; 0; 10]%Z)
      true start = Some (20%Z, st) /\
    out st =
      [zlog_debug "BGP-LS: Show database TE detail" [];
       vty_out "    Node flag bits: %d\n" [1%Z]].
Proof. eexists. split; vm_compute; reflexivity. Qed.

(** An unknown header of declared length 16 and three unknown TLVs of
    length 0 behind it: four passes of 4 bytes each bring the total to 16,
    while the headers inspected stand at offsets 0, 20, 24 and 28. *)
Example walk_unknown_chain :
  exists st,
    show_bgp_linkstate_print_detail BigEndian 8 body_exact
      unknown_chain_attribute false start = Some (16%Z, st) /\
    out st =
      [zlog_debug "BGP-LS: Show database TE detail" [];
       zlog_debug "      Unknown TLV: [type(%#.2x), length(%#.2x)]" [1; 16]%Z;
       zlog_debug "      Unknown TLV: [type(%#.2x), length(%#.2x)]" [2; 0]%Z;
       zlog_debug "      Unknown TLV: [type(%#.2x), length(%#.2x)]" [3; 0]%Z;
       zlog_debug "      Unknown TLV: [type(%#.2x), length(%#.2x)]" [3; 0]%Z] /\
    In 28 (reads st).
Proof.
  eexists. split; [vm_compute; reflexivity|].
  split; [reflexivity|]. cbn [reads]. repeat (first [left; reflexivity | right]).
Qed.

(** The reads past the declared length do not depend on the host or on the
    way the body size is rounded. *)
Example walk_reads_past_length_little_endian :
  exists r st,
    show_bgp_linkstate_print_detail LittleEndian 8 body_roundup
      (bytes ([4; 67; 8; 0] ++ repeat 170 36)%Z) true start = Some (r, st) /\
    host_value LittleEndian [x08; x00] = 8%Z /\ In 35 (reads st).
Proof.
  eexists _, _. split; [vm_compute; reflexivity|].
  split; [reflexivity|]. cbn [reads]. repeat (first [left; reflexivity | right]).
Qed.

(** On a little-endian host the length field of the header is read with
    its bytes swapped: a declared length of 8 stops the walk at 2048. *)
Example walk_little_endian_length :
  let mem := bytes ([4; 0; 0; 8; 1; 0; 0; 0; 0; 0; 0; 0] ++ repeat 0 2040)%Z in
  exists r st,
    show_bgp_linkstate_print_detail LittleEndian 8 body_exact mem true start =
      Some (r, st) /\ (2048 <= r)%Z.
Proof. eexists _, _. split; [vm_compute; reflexivity|]. vm_compute. discriminate. Qed.





End WalkerExamples.

(** ** Concrete attributes, continued *)

Section WalkerMoreExamples.
Import Stream Walker.

Lemma print_detail_renders_nothing_without_type_or_length_witness :
  show_bgp_linkstate_print_detail BigEndian 8 body_exact
    (bytes [0; 0; 0; 8; 4; 0; 0; 4]%Z) true start =
    Some (CMD_WARNING,
          mkWstate (seq 0 2) [zlog_debug "BGP-LS: Show database TE detail" []])
  /\
  show_bgp_linkstate_print_detail BigEndian 8 body_exact
    (bytes [4; 0; 0; 0; 4; 0; 0; 4]%Z) true start =
    Some (0%Z,
          mkWstate (seq 0 2 ++ seq 2 2)
            [zlog_debug "BGP-LS: Show database TE detail" []]).
Proof.
  split.
  - apply (@print_detail_renders_nothing_without_type_or_length BigEndian 8
             body_exact (bytes [0; 0; 0; 8; 4; 0; 0; 4]%Z) true start).
    + vm_compute. lia.
    + reflexivity.
  - apply (@print_detail_renders_nothing_without_type_or_length BigEndian 8
             body_exact (bytes [4; 0; 0; 0; 4; 0; 0; 4]%Z) true start).
    + vm_compute. lia.
    + discriminate.
    + reflexivity.
Defined.

Lemma unknown_tlv_pass_adds_header_size_only_witness :
  exists st',
    pass BigEndian 8 body_exact unknown_chain_attribute false
      (0, 0%Z, start) (20, 4%Z, st') /\
    20 = 0 + 4 + body_exact (Z.to_nat (wire16 unknown_chain_attribute (0 + 2)))
    /\ 4%Z = ((0 + 4) mod 65536)%Z.
Proof.
  assert (P : exists st',
             pass BigEndian 8 body_exact unknown_chain_attribute false
               (0, 0%Z, start) (20, 4%Z, st')).
  { eexists. eapply pass_intro with (total := 16%Z).
    - vm_compute. reflexivity.
    - reflexivity.
    - vm_compute. reflexivity. }
  destruct P as (st' & P). exists st'. split; [exact P|].
  apply (@unknown_tlv_pass_adds_header_size_only BigEndian 8 body_exact
           unknown_chain_attribute false 0 0%Z start 20 4%Z st' P).
  reflexivity.
Defined.

Lemma registered_header_is_the_only_tlv_rendered_witness :
  show_bgp_linkstate_print_detail BigEndian 8 body_exact
    (bytes [4; 0; 0; 16; 1; 0; 0; 0; 4; 68; 0; 4; 0; 0; 0; 10;
            0; 0; 0; 0]%Z) true start =
  (print (zlog_debug "BGP-LS: Show database TE detail" []) ;;;
   nlri_type BigEndian
     (bytes [4; 0; 0; 16; 1; 0; 0; 0; 4; 68; 0; 4; 0; 0; 0; 10;
             0; 0; 0; 0]%Z) 0 ;;;
   total <- nlri_length BigEndian
              (bytes [4; 0; 0; 16; 1; 0; 0; 0; 4; 68; 0; 4; 0; 0; 0; 10;
                      0; 0; 0; 0]%Z) 0 ;;
   if (0 <? total)%Z then
     walker_iteration BigEndian 8 body_exact
       (bytes [4; 0; 0; 16; 1; 0; 0; 0; 4; 68; 0; 4; 0; 0; 0; 10;
               0; 0; 0; 0]%Z) true 0 0 ;;;
     nlri_length BigEndian
       (bytes [4; 0; 0; 16; 1; 0; 0; 0; 4; 68; 0; 4; 0; 0; 0; 10;
               0; 0; 0; 0]%Z) 0 ;;;
     ret (Z.of_nat
            (tlv_size body_exact
               (bytes [4; 0; 0; 16; 1; 0; 0; 0; 4; 68; 0; 4; 0; 0; 0; 10;
                       0; 0; 0; 0]%Z) 0) mod 65536)%Z
   else ret 0%Z) start.
Proof.
  apply (@registered_header_is_the_only_tlv_rendered BigEndian 8 body_exact
           (bytes [4; 0; 0; 16; 1; 0; 0; 0; 4; 68; 0; 4; 0; 0; 0; 10;
                   0; 0; 0; 0]%Z) true start).
  - reflexivity.
  - vm_compute. discriminate.
Defined.

(** A Node Flag Bits header of declared length 16 in front of a TE metric
    TLV: the walk returns 20, and the metric is not printed. *)
Example registered_header_hides_the_next_tlv :
  exists st,
    show_bgp_linkstate_print_detail BigEndian 8 body_exact
      (bytes [4; 0; 0; 16; 1; 0; 0; 0; 4; 68; 0; 4; 0; 0; 0; 10;
              0; 0; 0; 0]%Z) false start = Some (20%Z, st) /\
    out st =
      [zlog_debug "BGP-LS: Show database TE detail" [];
       zlog_debug "      Node flag bits: %d" [1%Z]].
Proof. eexists. split; vm_compute; reflexivity. Qed.

Lemma unknown_tlv_dump_starts_at_the_header_witness :
  exists st',
    show_vty_unknown_tlv BigEndian (bytes [0; 9; 0; 6; 1; 2; 3; 4; 5; 6]%Z)
      true 0 start = Some (BGP_TLV_HDR_SIZE, st') /\
    reads st' =
      ((reads start ++ seq (0 + 2) 2) ++ seq 0 2) ++ seq 0 (Z.to_nat 6) /\
    flat_map dumped (out st') = [0; 9; 0; 6; 1; 2]%Z.
Proof.
  apply (@unknown_tlv_dump_starts_at_the_header BigEndian
           (bytes [0; 9; 0; 6; 1; 2; 3; 4; 5; 6]%Z) 0 start).
  - discriminate.
  - vm_compute. lia.
  - vm_compute. lia.
Defined.

Lemma route_tags_and_srlg_are_counted_in_pointers_witness :
  exists st',
    show_vty_bgp_nlri_tlv_route_tag BigEndian 8 body_exact
      (bytes [4; 129; 0; 8; 0; 0; 0; 1; 0; 0; 0; 2]%Z) true 0 start =
      Some (12%Z, st') /\
    out st' =
      [vty_out "  Route Tag(s): %d\n" [1%Z];
       vty_out " Value n°   #%d: %x\n" [0%Z; 1%Z]].
Proof.
  destruct (@route_tags_and_srlg_are_counted_in_pointers BigEndian 8
              body_exact (bytes [4; 129; 0; 8; 0; 0; 0; 1; 0; 0; 0; 2]%Z)
              true 0 start) as ((st' & E & O) & _).
  - vm_compute. lia.
  - exists st'. split; [exact E|exact O].
Defined.

Lemma unrsv_bw_reads_eight_floats_witness :
  (exists st',
     show_vty_unrsv_bw BigEndian body_exact unreserved_bw_attribute true 0
       start = Some (12%Z, st') /\
     reads st' = (reads start ++ seq (0 + 4) 32) ++ seq (0 + 2) 2 /\
     out st' =
       [vty_out "    Unreserved Bandwidth:\n" [];
        vty_out "      [%d]: %g (Bytes/sec),\t[%d]: %g (Bytes/sec)\n"
          [0; 2863311530; 1; 2863311530]%Z;
        vty_out "      [%d]: %g (Bytes/sec),\t[%d]: %g (Bytes/sec)\n"
          [2; 2863311530; 3; 2863311530]%Z;
        vty_out "      [%d]: %g (Bytes/sec),\t[%d]: %g (Bytes/sec)\n"
          [4; 2863311530; 5; 2863311530]%Z;
        vty_out "      [%d]: %g (Bytes/sec),\t[%d]: %g (Bytes/sec)\n"
          [6; 2863311530; 7; 2863311530]%Z]) /\
  show_vty_unrsv_bw BigEndian body_exact
    (bytes [4; 67; 0; 8; 0; 0; 0; 0; 0; 0; 0; 0]%Z) true 0 start = None.
Proof.
  split.
  - apply (@unrsv_bw_reads_eight_floats BigEndian body_exact
             unreserved_bw_attribute true 0 start).
    vm_compute. lia.
  - apply (@unrsv_bw_reads_eight_floats BigEndian body_exact
             (bytes [4; 67; 0; 8; 0; 0; 0; 0; 0; 0; 0; 0]%Z) true 0 start).
    vm_compute. lia.
Defined.

Lemma ospf_forwarding_address_by_sink_witness :
  (exists st',
     show_bgp_nlri_tlv_ospf_fowarding_adress BigEndian body_exact
       (bytes [4; 132; 0; 4; 192; 0; 2; 1]%Z) true 0 start =
       Some (8%Z, st') /\
     out st' =
       [vty_out " IPv4 OSPF Fowarding Address: %pI4\n" [192; 0; 2; 1]%Z]) /\
  (exists st',
     show_bgp_nlri_tlv_ospf_fowarding_adress BigEndian body_exact
       (bytes [4; 132; 0; 16; 32; 1; 13; 184; 0; 0; 0; 0;
               0; 0; 0; 0; 0; 0; 0; 1]%Z) true 0 start =
       Some (20%Z, st') /\
     out st' =
       [vty_out "	 IPv6 OSPF Fowarding Address: %pI6\n"
          [32; 1; 13; 184; 0; 0; 0; 0; 0; 0; 0; 0; 0; 0; 0; 1]%Z]) /\
  (exists st',
     show_bgp_nlri_tlv_ospf_fowarding_adress LittleEndian body_exact
       (bytes [4; 132; 0; 4; 192; 0; 2; 1]%Z) true 0 start =
       Some (8%Z, st') /\ out st' = out start) /\
  (exists st',
     show_bgp_nlri_tlv_ospf_fowarding_adress BigEndian body_exact
       (bytes [4; 132; 0; 4; 192; 0; 2; 1; 0; 0; 0; 0;
               0; 0; 0; 0; 0; 0; 0; 0]%Z) false 0 start =
       Some (8%Z, st') /\
     out st' =
       [zlog_debug "   IPv4 OSPF Fowarding Address: %pI4" [192; 0; 2; 1]%Z;
        zlog_debug "   IPv6 OSPF Fowarding Address: %pI6"
          [192; 0; 2; 1; 0; 0; 0; 0; 0; 0; 0; 0; 0; 0; 0; 0]%Z]).
Proof.
  split; [|split; [|split]].
  - apply (@ospf_forwarding_address_by_sink BigEndian body_exact
             (bytes [4; 132; 0; 4; 192; 0; 2; 1]%Z) 0 start).
    + vm_compute. lia.
    + reflexivity.
  - apply (@ospf_forwarding_address_by_sink BigEndian body_exact
             (bytes [4; 132; 0; 16; 32; 1; 13; 184; 0; 0; 0; 0;
                     0; 0; 0; 0; 0; 0; 0; 1]%Z) 0 start).
    + vm_compute. lia.
    + reflexivity.
  - apply (@ospf_forwarding_address_by_sink LittleEndian body_exact
             (bytes [4; 132; 0; 4; 192; 0; 2; 1]%Z) 0 start).
    + vm_compute. lia.
    + discriminate.
    + discriminate.
  - apply (@ospf_forwarding_address_by_sink BigEndian body_exact
             (bytes [4; 132; 0; 4; 192; 0; 2; 1; 0; 0; 0; 0;
                     0; 0; 0; 0; 0; 0; 0; 0]%Z) 0 start).
    vm_compute. lia.
Defined.

Lemma multi_topology_formatter_renders_half_the_length_witness :
  exists st',
    show_vty_multi_topology_identifier BigEndian body_exact
      (bytes [1; 7; 0; 5; 0; 2; 1; 44; 9]%Z) true 0 start =
      Some (9%Z, st') /\
    out st' =
      [vty_out "  Multi Topology ID number: %d\n" [2%Z];
       vty_out " ID   #%d: %d\n" [0%Z; 2%Z];
       vty_out " ID   #%d: %d\n" [1%Z; 300%Z]].
Proof.
  apply (@multi_topology_formatter_renders_half_the_length BigEndian
           body_exact (bytes [1; 7; 0; 5; 0; 2; 1; 44; 9]%Z) true 0 start).
  vm_compute. lia.
Defined.

Lemma walker_prints_to_one_sink_witness :
  exists l,
    [zlog_debug "BGP-LS: Show database TE detail" [];
     zlog_debug "      Unknown TLV: [type(%#.2x), length(%#.2x)]" [9; 4]%Z] =
    out start ++ zlog_debug "BGP-LS: Show database TE detail" [] :: l /\
    forallb (to_sink false) l = true.
Proof.
  apply (@walker_prints_to_one_sink BigEndian 8 body_exact
           (bytes [0; 9; 0; 4]%Z) false start 4%Z
           (mkWstate [0; 1; 2; 3; 0; 1; 0; 1; 2; 3; 2; 3; 2; 3]
              [zlog_debug "BGP-LS: Show database TE detail" [];
               zlog_debug "      Unknown TLV: [type(%#.2x), length(%#.2x)]"
                 [9; 4]%Z])).
  vm_compute. reflexivity.
Defined.

End WalkerMoreExamples.
